(** * getWebsiteMetrics: the combined metrics endpoint of the umami fork

    A shallow embedding of
    [src/pages/api/websites/[websiteId]/getWebsiteMetrics.ts]
    (the route handler [GET] and its local helpers [stats],
    [getMetricsData] and [formattedData]) together with the part of the
    ECMAScript object model the handler leans on: plain objects used as
    string-keyed maps, their own-property order, and the properties every
    plain object inherits from [Object.prototype]. *)

From Stdlib Require Import List String Ascii Bool ZArith NArith Lia.
From Stdlib Require Import Sorting.Sorted.
From Stdlib Require Import Floats.SpecFloat.
Import ListNotations.

Local Open Scope string_scope.
Local Open Scope list_scope.

Set Implicit Arguments.

(* ================================================================== *)
(** ** Strings

    Strings are sequences of code units.  Case mapping is modelled on
    the ASCII letters, other code units being left as they are: on text
    made of ASCII code units only ([is_ascii]) this is what
    [String.prototype.toLowerCase] computes; on other text the engine
    follows the Unicode case mappings, which are not modelled, and the
    theorems below that name a lower-cased text assume ASCII input. *)

Module Str.

Definition lower_ascii (c : ascii) : ascii :=
  let n := N_of_ascii c in
  if (65 <=? n)%N && (n <=? 90)%N then ascii_of_N (n + 32) else c.

(** [String.prototype.toLowerCase] *)
Fixpoint toLowerCase (s : string) : string :=
  match s with
  | EmptyString => EmptyString
  | String c s' => String (lower_ascii c) (toLowerCase s')
  end.

(** Is every code unit of [s] an ASCII one? *)
Fixpoint is_ascii (s : string) : bool :=
  match s with
  | EmptyString => true
  | String c s' => (N_of_ascii c <? 128)%N && is_ascii s'
  end.

Definition dash : ascii := "-"%char.
Definition space : ascii := " "%char.

(** [s.split('-')[0]]: the text before the first dash, all of [s] when
    it has none. *)
Fixpoint before_dash (s : string) : string :=
  match s with
  | EmptyString => EmptyString
  | String c s' =>
      if Ascii.eqb c dash then EmptyString else String c (before_dash s')
  end.

(** [s.replace(/ /g, '-')] *)
Fixpoint spaces_to_dashes (s : string) : string :=
  match s with
  | EmptyString => EmptyString
  | String c s' =>
      String (if Ascii.eqb c space then dash else c) (spaces_to_dashes s')
  end.

Fixpoint has_dash (s : string) : bool :=
  match s with
  | EmptyString => false
  | String c s' => Ascii.eqb c dash || has_dash s'
  end.

Definition is_digit (c : ascii) : bool :=
  let n := N_of_ascii c in (48 <=? n)%N && (n <=? 57)%N.

Fixpoint all_digits (s : string) : bool :=
  match s with
  | EmptyString => true
  | String c s' => is_digit c && all_digits s'
  end.

Fixpoint decimal (acc : N) (s : string) : N :=
  match s with
  | EmptyString => acc
  | String c s' => decimal (acc * 10 + (N_of_ascii c - 48))%N s'
  end.

(** A property key is an _array index_ when it is the canonical decimal
    form of an integer in [0, 2^32 - 2]: no sign, no leading zero. *)
Definition array_index (s : string) : option N :=
  match s with
  | EmptyString => None
  | String c s' =>
      if all_digits s
         && (negb (Ascii.eqb c "0"%char)
             || match s' with EmptyString => true | _ => false end)
      then let n := decimal 0 s in
           if (n <? 4294967295)%N then Some n else None
      else None
  end.

End Str.

(* ================================================================== *)
(** ** Plain objects used as maps

    An object is represented by its own enumerable string-keyed
    properties, listed in the order [Object.keys], [Object.values], the
    spread operator and [JSON.stringify] visit them: array-index keys
    first, by ascending value, then every other key in the order it was
    created. *)

Module Obj.

(** What [Object.prototype] hands down to every plain object. *)
Definition object_prototype_names : list string :=
  [ "constructor"; "__defineGetter__"; "__defineSetter__";
    "hasOwnProperty"; "__lookupGetter__"; "__lookupSetter__";
    "isPrototypeOf"; "propertyIsEnumerable"; "toString"; "valueOf";
    "__proto__"; "toLocaleString" ].

Definition inherited (k : string) : bool :=
  existsb (String.eqb k) object_prototype_names.

(** The result of the property read [o[k]] on a plain object whose own
    properties hold values of type [V]: an own value, a built-in
    function or object found on the prototype, or [undefined]. *)
Inductive lookup (V : Type) : Type :=
| Own (v : V)
| Builtin (k : string)
| Undefined.
Arguments Own {V} v.
Arguments Builtin {V} k.
Arguments Undefined {V}.

Section Properties.
Context {V : Type}.

Definition t := list (string * V).

Definition keys (o : t) : list string := map fst o.
Definition values (o : t) : list V := map snd o.

Fixpoint get_own (k : string) (o : t) : option V :=
  match o with
  | [] => None
  | (k', v) :: o' => if String.eqb k k' then Some v else get_own k o'
  end.

Definition has_own (k : string) (o : t) : bool :=
  match get_own k o with Some _ => true | None => false end.

(** [o[k]] *)
Definition get (k : string) (o : t) : lookup V :=
  match get_own k o with
  | Some v => Own v
  | None => if inherited k then Builtin k else Undefined
  end.

(** Does a new key [k] go in front of the existing key [k']? *)
Definition before (k k' : string) : bool :=
  match Str.array_index k with
  | Some i =>
      match Str.array_index k' with
      | Some j => (i <? j)%N
      | None => true
      end
  | None => false
  end.

Fixpoint add_new (k : string) (v : V) (o : t) : t :=
  match o with
  | [] => [(k, v)]
  | (k', v') :: o' =>
      if before k k' then (k, v) :: o else (k', v') :: add_new k v o'
  end.

Fixpoint replace (k : string) (v : V) (o : t) : t :=
  match o with
  | [] => []
  | (k', v') :: o' =>
      if String.eqb k k' then (k', v) :: o' else (k', v') :: replace k v o'
  end.

(** [CreateDataProperty]: what object literals and the spread
    operator use; the key becomes an own property whatever it is. *)
Definition define (k : string) (v : V) (o : t) : t :=
  if has_own k o then replace k v o else add_new k v o.

(** The assignment [o[k] = v] of an object value [v].  An own
    property is overwritten; a new key is created, except for
    ["__proto__"], where the inherited setter swaps the prototype of
    [o] and no own property appears. *)
Definition set (k : string) (v : V) (o : t) : t :=
  if has_own k o then replace k v o
  else if String.eqb k "__proto__" then o
  else add_new k v o.

(** [{...o}] *)
Definition spread (o : t) : t :=
  fold_left (fun acc kv => define (fst kv) (snd kv) acc) o [].

(** The order of own keys: [k] may come before [k'].  Distinct array
    indices have distinct values, so between distinct keys the
    comparison is strict. *)
Definition precedes (k k' : string) : Prop :=
  match Str.array_index k, Str.array_index k' with
  | Some i, Some j => (i <= j)%N
  | Some _, None => True
  | None, Some _ => False
  | None, None => True
  end.

Definition entry_precedes (a b : string * V) : Prop :=
  precedes (fst a) (fst b).

(** A list of properties is an object when its keys are pairwise
    distinct and stand in own-property order. *)
Definition wf (o : t) : Prop :=
  NoDup (keys o) /\ StronglySorted entry_precedes o.

(** The properties [k: f k], for the keys [k] of a list. *)
Definition keyed (f : string -> V) (l : list string) : t :=
  map (fun k => (k, f k)) l.

End Properties.
Arguments t V : clear implicits.

End Obj.


(* ================================================================== *)
(** ** Numbers and raw values

    A number is an IEEE 754 binary64 value.  The raw cells of a stats
    row are whatever the storage driver hands over; a read that finds
    nothing of its own yields [undefined] or a built-in of the
    prototype. *)

Module Js.

Definition number : Type := spec_float.

Definition prec : Z := 53.
Definition emax : Z := 1024.

Definition NaN : number := S754_nan.
Definition zero : number := S754_zero false.
Definition one : number := binary_normalize prec emax 1 0 false.

(** The number nearest to an integer. *)
Definition of_Z (z : Z) : number := binary_normalize prec emax z 0 false.

(** [a + b] on numbers: the sum, rounded to the nearest number. *)
Definition add (a b : number) : number := SFadd prec emax a b.

Definition is_NaN (n : number) : bool :=
  match n with S754_nan => true | _ => false end.

(** Strictly below zero. *)
Definition negative (n : number) : bool :=
  match n with
  | S754_finite true _ _ | S754_infinity true => true
  | _ => false
  end.

(** [ToBoolean] on numbers: [NaN], [+0] and [-0] are falsy. *)
Definition truthy (n : number) : bool :=
  match n with
  | S754_nan | S754_zero _ => false
  | _ => true
  end.

Inductive value : Type :=
| VUndefined
| VNull
| VBoolean (b : bool)
| VNumber (n : number)
| VString (s : string)
| VBigInt (z : Z)
| VBuiltin (k : string).

(** Text or a built-in: what [table[k] || k] can evaluate to on a table
    of strings. *)
Inductive text : Type :=
| Text (s : string)
| BuiltinObject (k : string).

(** [table[k] || k] for a plain object [table] holding strings: an own
    empty string is falsy, anything found on the prototype is truthy. *)
Definition lookup_or_key (table : Obj.t string) (k : string) : text :=
  match Obj.get k table with
  | Obj.Own s => if String.eqb s "" then Text k else Text s
  | Obj.Builtin b => BuiltinObject b
  | Obj.Undefined => Text k
  end.

(** [row[k]] on a row of raw values. *)
Definition read (k : string) (row : Obj.t value) : value :=
  match Obj.get k row with
  | Obj.Own v => v
  | Obj.Builtin b => VBuiltin b
  | Obj.Undefined => VUndefined
  end.

(** [xs.includes(s)] *)
Definition includes (s : string) (xs : list string) : bool :=
  existsb (String.eqb s) xs.

Section Coercion.

(** The [StringNumericLiteral] grammar, taken as given. *)
Variable StringToNumber : string -> number.

(** [Number(v)] *)
Definition ToNumber (v : value) : number :=
  match v with
  | VUndefined => NaN
  | VNull => zero
  | VBoolean b => if b then one else zero
  | VNumber n => n
  | VString s => StringToNumber s
  | VBigInt z => of_Z z
  | VBuiltin _ => NaN
  end.

(** [Number(v) || 0] *)
Definition number_or_zero (v : value) : number :=
  let n := ToNumber v in if truthy n then n else zero.

End Coercion.

End Js.

(* ================================================================== *)
(** ** Outcomes and the handler monad *)

(** Why a computation stopped short of a value: the exception the
    engine throws. *)
Inductive stop : Type :=
| TypeError (message : string).

Inductive result (A : Type) : Type :=
| Ok (a : A)
| Stop (why : stop).
Arguments Ok {A} a.
Arguments Stop {A} why.

Definition result_bind {A B} (r : result A) (k : A -> result B) : result B :=
  match r with
  | Ok a => k a
  | Stop why => Stop why
  end.

(** A settled promise of the query layer. *)
Inductive settled (A : Type) : Type :=
| Resolved (a : A)
| Rejected.
Arguments Resolved {A} a.
Arguments Rejected {A}.

(** What the handler can answer with: [json(body)], [badRequest()],
    [unauthorized()], or the [Response] that [error()] of [parseRequest]
    builds, which the handler returns as it is, whatever its status. *)
Inductive response (Body : Type) : Type :=
| json (body : Body)
| badRequest
| unauthorized
| parseError.
Arguments json {Body} body.
Arguments badRequest {Body}.
Arguments unauthorized {Body}.
Arguments parseError {Body}.

(** What [await query(...).catch(() => badRequest())] leaves in the
    variable: the rows, or the [Response] object built by the callback. *)
Inductive fetched (A : Type) : Type :=
| Rows (rows : list A)
| ResponseObject.
Arguments Rows {A} rows.
Arguments ResponseObject {A}.

(** [v[0]] *)
Definition first {A} (v : fetched A) : option A :=
  match v with
  | Rows (r :: _) => Some r
  | Rows [] => None
  | ResponseObject => None
  end.

(* ================================================================== *)
(** ** Data of the handler *)

(** [interface ItemType { x: string; y: number }] *)
Module ItemType.
Record t : Type := { x : string; y : Js.number }.
End ItemType.

(** One entry of [stats]: [{ value, prev }]. *)
Module Stat.
Record t : Type := { value : Js.number; prev : Js.number }.
End Stat.

(** The object [formattedData] builds for a point:
    [{ name, icon, x, y }]; [icon] is declared [string | undefined]. *)
Module FormattedItem.
Record t : Type :=
  { name : Js.text; icon : option string; x : string; y : Js.number }.
End FormattedItem.

(** The filter injected for a search:
    [{ name, column, operator, value }]. *)
Module Filter.
Record t : Type :=
  { name : string; column : Js.text; operator : string; value : string }.
End Filter.

(** A property of a filter object: a filter passed through from the
    request, one of the two dates, or the search filter. *)
Inductive fvalue : Type :=
| Raw (v : string)
| Date (d : Z)
| Search (f : Filter.t).

Definition FilterSet : Type := Obj.t fvalue.
Definition StatRow : Type := Obj.t Js.value.
Definition StatComparison : Type := Obj.t Stat.t.

(** The body handed to [json]. *)
Module Payload.
Record t : Type :=
  { os : list FormattedItem.t;
    browser : list FormattedItem.t;
    country : list FormattedItem.t;
    stats : StatComparison }.
End Payload.

(** A call to the query layer. *)
Inductive call : Type :=
| WebsiteStats (websiteId : string) (filters : FilterSet)
| SessionMetrics (websiteId type : string) (filters : FilterSet)
    (limit offset : option Z)
| PageviewMetrics (websiteId type : string) (filters : FilterSet)
    (limit offset : option Z).

(** The handler runs over the log of the calls issued so far. *)
Definition M (A : Type) : Type := list call -> result A * list call.

Definition ret {A} (a : A) : M A := fun log => (Ok a, log).

Definition bind {A B} (m : M A) (k : A -> M B) : M B :=
  fun log =>
    match m log with
    | (Ok a, log') => k a log'
    | (Stop why, log') => (Stop why, log')
    end.

Definition lift {A} (r : result A) : M A := fun log => (r, log).

(** [promise.catch(() => badRequest())]: a rejection is replaced by the
    [Response] the callback returns. *)
Definition caught {A} (p : settled (list A)) : fetched A :=
  match p with
  | Resolved rows => Rows rows
  | Rejected => ResponseObject
  end.

(** [await query(...).catch(() => badRequest())]: the call is issued and
    the handler goes on with what the promise settles to. *)
Definition await_catch {A} (c : call) (p : settled (list A)) : M (fetched A) :=
  fun log => (Ok (caught p), log ++ [c]).

(** A computation that only adds calls satisfying [P] to the log. *)
Definition appends {A} (P : call -> Prop) (m : M A) : Prop :=
  forall log, exists new, snd (m log) = log ++ new /\ Forall P new.

(** A stats query carries no search filter. *)
Definition without_search (c : call) : Prop :=
  match c with
  | WebsiteStats _ filters =>
      forall k f, Obj.get_own k filters <> Some (Search f)
  | SessionMetrics _ _ _ _ _ => True
  | PageviewMetrics _ _ _ _ _ => True
  end.

Declare Scope handler_scope.
Delimit Scope handler_scope with handler.
Notation "x <- m ;; k" := (bind m (fun x => k))
  (at level 61, m at next level, right associativity) : handler_scope.

(** The parsed request, with what the collaborators of the handler
    answered for it: [parseRequest], [canViewWebsite],
    [getRequestDateRange], [getCompareDate] and [getRequestFilters]. *)
Module Request.
Record t : Type :=
  { error : bool;
    canViewWebsite : bool;
    websiteId : string;
    type : string;
    limit : option Z;
    offset : option Z;
    search : option string;
    startDate : Z;
    endDate : Z;
    compareStartDate : Z;
    compareEndDate : Z;
    filters : Obj.t string }.
End Request.

(* ================================================================== *)
(** ** The language buckets of [getMetricsData] *)

(** [String(x).toLowerCase().split('-')[0]] *)
Definition bucket (x : string) : string :=
  Str.before_dash (Str.toLowerCase x).

(** One turn of [for (const { x, y } of data)].

    [combined] is a plain object, so [combined[key]] also finds what
    [Object.prototype] hands down, and the loop can write there: with
    the key ["__proto__"] the read gives [Object.prototype] itself, and
    [combined[key].y += y] leaves on it a property [y] (the number
    [undefined + y], that is [NaN]) that every object of the process
    inherits from then on.  [prototype_y] tells whether this has
    happened.

    - [combined[key]] is an own entry: its count is added to.
    - [combined[key]] is a built-in found on the prototype, so not
      [undefined]: the [else] branch writes [y] on that built-in,
      [combined] stays as it is and the loop goes on.
    - Otherwise [combined[key]] is [undefined] and the entry is created;
      unless the key is ["y"] and [Object.prototype] has a [y]: then
      [combined[key]] is that inherited number, the [else] branch runs,
      and the assignment to a property of a number throws (the file is
      a module, hence strict code). *)
Definition combine (prototype_y : bool) (combined : Obj.t ItemType.t)
    (item : ItemType.t) : result (Obj.t ItemType.t * bool) :=
  let key := bucket (ItemType.x item) in
  match Obj.get key combined with
  | Obj.Undefined =>
      if prototype_y && String.eqb key "y" then
        Stop (TypeError "Cannot create property 'y' on number 'NaN'")
      else
        Ok (Obj.set key {| ItemType.x := key; ItemType.y := ItemType.y item |}
              combined,
            prototype_y)
  | Obj.Own entry =>
      Ok (Obj.replace key
            {| ItemType.x := ItemType.x entry;
               ItemType.y := Js.add (ItemType.y entry) (ItemType.y item) |}
            combined,
          prototype_y)
  | Obj.Builtin k =>
      Ok (combined, prototype_y || String.eqb k "__proto__")
  end.

(** What every state of [combined] satisfies: it is an object, each
    entry sits under its own [x], and the keys are bucket keys that
    [Object.prototype] does not define. *)
Definition bucketed (combined : Obj.t ItemType.t) : Prop :=
  Obj.wf combined /\
  Forall (fun e => ItemType.x (snd e) = fst e /\
                   bucket (fst e) = fst e /\
                   Obj.inherited (fst e) = false) combined.

Fixpoint combine_all (prototype_y : bool) (combined : Obj.t ItemType.t)
    (data : list ItemType.t) : result (Obj.t ItemType.t * bool) :=
  match data with
  | [] => Ok (combined, prototype_y)
  | item :: rest =>
      result_bind (combine prototype_y combined item)
        (fun s => combine_all (snd s) (fst s) rest)
  end.

(** The [language] branch, run where [Object.prototype] has or has not
    a [y]: fold the points into a fresh [combined], then
    [Object.values(combined)].  The second component is what the run
    leaves behind on [Object.prototype]. *)
Definition normalize_in (prototype_y : bool) (data : list ItemType.t)
  : result (list ItemType.t * bool) :=
  result_bind (combine_all prototype_y [] data)
    (fun s => Ok (Obj.values (fst s), snd s)).

(** The [language] branch in a process where nothing has written on
    [Object.prototype] yet. *)
Definition normalize (data : list ItemType.t) : result (list ItemType.t) :=
  result_bind (normalize_in false data) (fun s => Ok (fst s)).

(** [normalize(normalize(data))]: the second pass runs in the process
    the first one leaves behind. *)
Definition normalize_twice (data : list ItemType.t)
  : result (list ItemType.t) :=
  result_bind (normalize_in false data)
    (fun s => result_bind (normalize_in (snd s) (fst s))
                (fun s' => Ok (fst s'))).

(* ================================================================== *)
(** ** The handler *)

Section Handler.

Local Open Scope handler_scope.

(** Constants of [lib/constants] and the country table of
    [public/intl/country/zh-CN.json]. *)
Variable SESSION_COLUMNS : list string.
Variable EVENT_COLUMNS : list string.
Variable FILTER_COLUMNS : Obj.t string.
Variable OPERATORS_contains : string.
Variable OS_NAMES : Obj.t string.
Variable BROWSERS : Obj.t string.
Variable countryNames : Obj.t string.

(** The query layer. *)
Variable getWebsiteStats : string -> FilterSet -> settled (list StatRow).
Variable getSessionMetrics :
  string -> string -> FilterSet -> option Z -> option Z ->
  settled (list ItemType.t).
Variable getPageviewMetrics :
  string -> string -> FilterSet -> option Z -> option Z ->
  settled (list ItemType.t).

Variable StringToNumber : string -> Js.number.

(** [{ ...filters, startDate, endDate }] *)
Definition with_dates (filters : Obj.t string) (startDate endDate : Z)
  : FilterSet :=
  Obj.define "endDate" (Date endDate)
    (Obj.define "startDate" (Date startDate)
       (Obj.spread (map (fun kv => (fst kv, Raw (snd kv))) filters))).

(** [FILTER_COLUMNS[type] || type] *)
Definition column (type : string) : Js.text :=
  Js.lookup_or_key FILTER_COLUMNS type.

(** [if (search) { filters_search[type] = { ... } }] *)
Definition add_search (type : string) (search : option string)
    (filters_search : FilterSet) : FilterSet :=
  match search with
  | Some s =>
      if String.eqb s "" then filters_search
      else Obj.set type
             (Search {| Filter.name := type;
                        Filter.column := column type;
                        Filter.operator := OPERATORS_contains;
                        Filter.value := s |})
             filters_search
  | None => filters_search
  end.

(** The callback of the [reduce] that builds [stats]. *)
Definition stats_entry (metrics prevPeriod : fetched StatRow)
    (obj : StatComparison) (key : string) : result StatComparison :=
  match first metrics with
  | None => Stop (TypeError "Cannot read properties of undefined")
  | Some current =>
      let value := Js.number_or_zero StringToNumber (Js.read key current) in
      match first prevPeriod with
      | None => Stop (TypeError "Cannot read properties of undefined")
      | Some previous =>
          let prev := Js.number_or_zero StringToNumber (Js.read key previous) in
          Ok (Obj.set key {| Stat.value := value; Stat.prev := prev |} obj)
      end
  end.

Fixpoint reduce (metrics prevPeriod : fetched StatRow)
    (keys : list string) (obj : StatComparison) : result StatComparison :=
  match keys with
  | [] => Ok obj
  | key :: rest =>
      result_bind (stats_entry metrics prevPeriod obj key)
        (fun obj' => reduce metrics prevPeriod rest obj')
  end.

(** [Object.keys(metrics[0]).reduce(..., {})] *)
Definition stats (metrics prevPeriod : fetched StatRow)
  : result StatComparison :=
  match first metrics with
  | None => Stop (TypeError "Cannot convert undefined or null to object")
  | Some current => reduce metrics prevPeriod (Obj.keys current) []
  end.

Definition getMetricsData (websiteId : string) (filters_search : FilterSet)
    (limit offset : option Z) (type : string) : M (fetched ItemType.t) :=
  if Js.includes type SESSION_COLUMNS then
    data <- await_catch
              (SessionMetrics websiteId type filters_search limit offset)
              (getSessionMetrics websiteId type filters_search limit offset) ;;
    if String.eqb type "language" then
      match data with
      | Rows points =>
          combined <- lift (normalize points) ;; ret (Rows combined)
      | ResponseObject => lift (Stop (TypeError "data is not iterable"))
      end
    else ret data
  else if Js.includes type EVENT_COLUMNS then
    data <- await_catch
              (PageviewMetrics websiteId type filters_search limit offset)
              (getPageviewMetrics websiteId type filters_search limit offset) ;;
    ret data
  else ret (Rows []).

(** The first [switch] of [formattedData]. *)
Definition source_of (type : string) : option (Obj.t string) :=
  if String.eqb type "os" then Some OS_NAMES
  else if String.eqb type "browser" then Some BROWSERS
  else if String.eqb type "country" then Some countryNames
  else None.

(** The second [switch], inside the callback of [map]. *)
Definition icon_of (type itemName : string) : option string :=
  if String.eqb type "os" then
    Some ("//umami.guole.fun/images/os/" ++ itemName ++ ".png")%string
  else if String.eqb type "browser" then
    Some ("//umami.guole.fun/images/browser/" ++ itemName ++ ".png")%string
  else if String.eqb type "country" then
    Some ("//umami.guole.fun/images/country/" ++ itemName ++ ".png")%string
  else if String.eqb type "device" then
    Some ("//umami.guole.fun/images/device/" ++ itemName ++ ".png")%string
  else Some "".

(** The callback of [data.map]. *)
Definition format_item (source : Obj.t string) (type : string)
    (item : ItemType.t) : FormattedItem.t :=
  let itemName := Str.spaces_to_dashes (Str.toLowerCase (ItemType.x item)) in
  let icon := icon_of type itemName in
  {| FormattedItem.name := Js.lookup_or_key source (ItemType.x item);
     FormattedItem.icon := icon;
     FormattedItem.x := ItemType.x item;
     FormattedItem.y := ItemType.y item |}.

Definition formattedData (data : fetched ItemType.t) (type : string)
  : result (list FormattedItem.t) :=
  match source_of type with
  | Some source =>
      match data with
      | Rows items => Ok (map (format_item source type) items)
      | ResponseObject => Stop (TypeError "data.map is not a function")
      end
  | None => Ok []
  end.

Definition GET (request : Request.t) : M (response Payload.t) :=
  if Request.error request then ret parseError
  else if negb (Request.canViewWebsite request) then ret unauthorized
  else
    let websiteId := Request.websiteId request in
    let type := Request.type request in
    let limit := Request.limit request in
    let offset := Request.offset request in
    let filters := Request.filters request in
    let filters_search :=
      with_dates filters (Request.startDate request) (Request.endDate request) in
    let current :=
      with_dates filters (Request.startDate request) (Request.endDate request) in
    metrics <- await_catch (WebsiteStats websiteId current)
                 (getWebsiteStats websiteId current) ;;
    let previous :=
      with_dates filters (Request.compareStartDate request)
        (Request.compareEndDate request) in
    prevPeriod <- await_catch (WebsiteStats websiteId previous)
                    (getWebsiteStats websiteId previous) ;;
    stats <- lift (stats metrics prevPeriod) ;;
    let filters_search :=
      add_search type (Request.search request) filters_search in
    osData <- getMetricsData websiteId filters_search limit offset "os" ;;
    browserData <-
      getMetricsData websiteId filters_search limit offset "browser" ;;
    countryData <-
      getMetricsData websiteId filters_search limit offset "country" ;;
    os <- lift (formattedData osData "os") ;;
    browser <- lift (formattedData browserData "browser") ;;
    country <- lift (formattedData countryData "country") ;;
    ret (json {| Payload.os := os;
                 Payload.browser := browser;
                 Payload.country := country;
                 Payload.stats := stats |}).

End Handler.

(* ================================================================== *)
(** ** The earlier revision of [formattedData]

    The revision before the country table was added: [formattedData]
    knows two tables, answers [false] for any other dimension, and the
    caller falls back on the raw points:
    [(await formattedData(data, type)) || data || []]. *)

Module Earlier.

Section Tables.

Variable OS_NAMES : Obj.t string.
Variable BROWSERS : Obj.t string.

(** [{ x: source[item.x] || item.x, y: item.y }], or a raw point. *)
Record item : Type := { x : Js.text; y : Js.number }.

Definition source_of (type : string) : option (Obj.t string) :=
  if String.eqb type "os" then Some OS_NAMES
  else if String.eqb type "browser" then Some BROWSERS
  else None.

(** [None] stands for [false]. *)
Definition formattedData (data : list ItemType.t) (type : string)
  : option (list item) :=
  match source_of type with
  | Some source =>
      Some (map (fun i => {| x := Js.lookup_or_key source (ItemType.x i);
                             y := ItemType.y i |}) data)
  | None => None
  end.

(** [(await formattedData(data, type)) || data || []]; an array is
    truthy, so the last alternative is never reached. *)
Definition formatted_or_raw (data : list ItemType.t) (type : string)
  : list item :=
  match formattedData data type with
  | Some items => items
  | None => map (fun i => {| x := Js.Text (ItemType.x i); y := ItemType.y i |})
              data
  end.

End Tables.

End Earlier.

(* ================================================================== *)
(** ** The words of the specification

    Reference definitions the handler is compared with. *)

Module Spec.

(** The distinct elements of a list, in the order of their first
    occurrence. *)
Fixpoint first_seen (l : list string) : list string :=
  match l with
  | [] => []
  | k :: l' => k :: filter (fun k' => negb (String.eqb k' k)) (first_seen l')
  end.

Definition buckets (data : list ItemType.t) : list string :=
  map (fun item => bucket (ItemType.x item)) data.

(** [acc] with the counts of the points of bucket [k] added to it, one
    after the other in the order of the sequence. *)
Fixpoint add_up (acc : Js.number) (k : string) (data : list ItemType.t)
  : Js.number :=
  match data with
  | [] => acc
  | item :: rest =>
      add_up (if String.eqb (bucket (ItemType.x item)) k
              then Js.add acc (ItemType.y item) else acc) k rest
  end.

(** The sum of the counts of the points that fall in bucket [k]: the
    count of the first of them, with the others added to it in the
    order of the sequence (zero when there is none). *)
Fixpoint total (k : string) (data : list ItemType.t) : Js.number :=
  match data with
  | [] => Js.zero
  | item :: rest =>
      if String.eqb (bucket (ItemType.x item)) k
      then add_up (ItemType.y item) k rest
      else total k rest
  end.

(** One point per bucket, in first-seen order, with the summed count. *)
Definition normalized (data : list ItemType.t) : list ItemType.t :=
  map (fun k => {| ItemType.x := k; ItemType.y := total k data |})
    (first_seen (buckets data)).

Definition sum (l : list Js.number) : Js.number :=
  fold_right Js.add Js.zero l.

(** [slug = lowercase(x).replace(" " -> "-")] *)
Definition slug (x : string) : string :=
  Str.spaces_to_dashes (Str.toLowerCase x).

(** The icon path of a dimension. *)
Definition icon_path (dimension x : string) : string :=
  ("//umami.guole.fun/images/" ++ dimension ++ "/" ++ slug x ++ ".png")%string.

(** [table[x]] if present (and not empty), else the raw [x]. *)
Definition display_name (table : Obj.t string) (x : string) : string :=
  match Obj.get_own x table with
  | Some n => if String.eqb n "" then x else n
  | None => x
  end.

(** [resolvedColumn]: the physical column of a dimension, the dimension
    itself when unmapped. *)
Definition resolvedColumn (columns : Obj.t string) (type : string) : string :=
  display_name columns type.

Definition enrichable (dimension : string) : bool :=
  String.eqb dimension "os" || String.eqb dimension "browser"
  || String.eqb dimension "country".

End Spec.

(* ================================================================== *)
(** ** Sample constants *)

Module Sample.

(** Modelled from the spec: the session-family dimensions of
    [lib/constants], as section 4.2 lists them. *)
Definition SESSION_COLUMNS : list string :=
  [ "os"; "browser"; "country"; "region"; "city"; "device"; "screen";
    "language" ].

(** Modelled from the spec: the event-family dimensions of
    [lib/constants], as section 4.2 lists them. *)
Definition EVENT_COLUMNS : list string :=
  [ "url"; "referrer"; "title"; "query"; "event"; "tag" ].

(** Modelled from the spec: the one entry of the table of
    operating-system names that section 8 gives. *)
Definition OS_NAMES : Obj.t string := [ ("Mac OS", "macOS") ].

(** Modelled from the spec: tables whose entries the spec does not give
    are left empty. *)
Definition BROWSERS : Obj.t string := [].
Definition countryNames : Obj.t string := [].
Definition FILTER_COLUMNS : Obj.t string := [].
Definition OPERATORS_contains : string := "c".

(** The point [{ x, y }] with an integer count. *)
Definition point (x : string) (y : Z) : ItemType.t :=
  {| ItemType.x := x; ItemType.y := Js.of_Z y |}.

Definition StringToNumber (s : string) : Js.number := Js.NaN.

Definition request (type : string) (search : option string) : Request.t :=
  {| Request.error := false;
     Request.canViewWebsite := true;
     Request.websiteId := "w";
     Request.type := type;
     Request.limit := None;
     Request.offset := None;
     Request.search := search;
     Request.startDate := 0;
     Request.endDate := 10;
     Request.compareStartDate := (-10);
     Request.compareEndDate := 0;
     Request.filters := [] |}.

(** A query layer whose stats query rejects. *)
Definition stats_rejected (websiteId : string) (filters : FilterSet)
  : settled (list StatRow) := Rejected.

(** A query layer whose stats query finds no row. *)
Definition stats_empty (websiteId : string) (filters : FilterSet)
  : settled (list StatRow) := Resolved [].

Definition metrics_empty (websiteId type : string) (filters : FilterSet)
    (limit offset : option Z) : settled (list ItemType.t) := Resolved [].

End Sample.

(* ================================================================== *)
(** ** The first revision of [formattedData]

    The oldest revision knows the three tables, writes the display name
    over [x] and the icon into [z], answers [false] for any other
    dimension, and the caller replaces that by an empty array:
    [(await formattedData(data, type)) || []]. *)

Module First.

Section Tables.

Variable OS_NAMES : Obj.t string.
Variable BROWSERS : Obj.t string.
Variable countryNames : Obj.t string.

(** [{ x: source[item.x] || item.x, y: item.y, z: icon || '' }] *)
Record item : Type := { x : Js.text; y : Js.number; z : string }.

(** [icon || ''] *)
Definition or_empty (icon : option string) : string :=
  match icon with
  | Some s => s
  | None => ""
  end.

(** [None] stands for [false]. *)
Definition formattedData (data : list ItemType.t) (type : string)
  : option (list item) :=
  match source_of OS_NAMES BROWSERS countryNames type with
  | Some source =>
      Some (map (fun i =>
                   let itemName :=
                     Str.spaces_to_dashes (Str.toLowerCase (ItemType.x i)) in
                   let icon := icon_of type itemName in
                   {| x := Js.lookup_or_key source (ItemType.x i);
                      y := ItemType.y i;
                      z := or_empty icon |}) data)
  | None => None
  end.

(** [(await formattedData(data, type)) || []] *)
Definition formatted_or_empty (data : list ItemType.t) (type : string)
  : list item :=
  match formattedData data type with
  | Some items => items
  | None => []
  end.

End Tables.

End First.

(* ================================================================== *)
(** ** The handler of the first two revisions

    The default export of the first two revisions: the method is tested
    by the handler itself, the queries are awaited without a [catch], so
    that a rejection ends the handler there, and the search filter is
    set before the stats queries are issued.  The two revisions differ
    in how the breakdowns are formatted for the reply. *)

Module Legacy.

(** How the handler can end without a reply: an exception of its own
    code, or the rejection of an awaited query. *)
Inductive failure : Type :=
| Threw (why : stop)
| QueryRejected.

Inductive outcome (A : Type) : Type :=
| Done (a : A)
| Failed (f : failure).
Arguments Done {A} a.
Arguments Failed {A} f.

(** [ok(res, body)], [unauthorized(res)], [methodNotAllowed(res)] *)
Module Reply.
Inductive t (Body : Type) : Type :=
| ok (body : Body)
| unauthorized
| methodNotAllowed.
Arguments ok {Body} body.
Arguments unauthorized {Body}.
Arguments methodNotAllowed {Body}.
End Reply.

(** The body handed to [ok]. *)
Module Body.
Record t (Item : Type) : Type :=
  { os : list Item;
    browser : list Item;
    country : list Item;
    stats : StatComparison }.
End Body.

Definition M (A : Type) : Type := list call -> outcome A * list call.

Definition ret {A} (a : A) : M A := fun log => (Done a, log).

Definition bind {A B} (m : M A) (k : A -> M B) : M B :=
  fun log =>
    match m log with
    | (Done a, log') => k a log'
    | (Failed f, log') => (Failed f, log')
    end.

Definition lift {A} (r : result A) : M A :=
  fun log =>
    (match r with
     | Ok a => Done a
     | Stop why => Failed (Threw why)
     end,
     log).

(** [await query(...)]: the call is issued; a rejection is thrown. *)
Definition await {A} (c : call) (p : settled (list A)) : M (list A) :=
  fun log =>
    (match p with
     | Resolved rows => Done rows
     | Rejected => Failed QueryRejected
     end,
     log ++ [c]).

Declare Scope legacy_scope.
Delimit Scope legacy_scope with legacy.
Notation "x <- m ;; k" := (bind m (fun x => k))
  (at level 61, m at next level, right associativity) : legacy_scope.

Section Handler.

Local Open Scope legacy_scope.

Variable SESSION_COLUMNS : list string.
Variable EVENT_COLUMNS : list string.
Variable FILTER_COLUMNS : Obj.t string.
Variable OPERATORS_contains : string.
Variable getWebsiteStats : string -> FilterSet -> settled (list StatRow).
Variable getSessionMetrics :
  string -> string -> FilterSet -> option Z -> option Z ->
  settled (list ItemType.t).
Variable getPageviewMetrics :
  string -> string -> FilterSet -> option Z -> option Z ->
  settled (list ItemType.t).
Variable StringToNumber : string -> Js.number.

(** The formatting of a breakdown for the reply:
    [(await formattedData(data, type)) || ...]. *)
Variable Item : Type.
Variable format : list ItemType.t -> string -> list Item.

Definition getMetricsData (websiteId : string) (filters_search : FilterSet)
    (limit offset : option Z) (types : string) : M (list ItemType.t) :=
  if Js.includes types SESSION_COLUMNS then
    data <- await (SessionMetrics websiteId types filters_search limit offset)
              (getSessionMetrics websiteId types filters_search limit offset) ;;
    if String.eqb types "language" then lift (normalize data) else ret data
  else if Js.includes types EVENT_COLUMNS then
    data <- await (PageviewMetrics websiteId types filters_search limit offset)
              (getPageviewMetrics websiteId types filters_search limit offset) ;;
    ret data
  else ret [].

Definition handler (method : string) (request : Request.t)
  : M (Reply.t (Body.t Item)) :=
  if String.eqb method "GET" then
    if negb (Request.canViewWebsite request) then ret Reply.unauthorized
    else
      let websiteId := Request.websiteId request in
      let type := Request.type request in
      let limit := Request.limit request in
      let offset := Request.offset request in
      let filters := Request.filters request in
      let filters_search :=
        with_dates filters (Request.startDate request)
          (Request.endDate request) in
      let filters_search :=
        add_search FILTER_COLUMNS OPERATORS_contains type
          (Request.search request) filters_search in
      let current :=
        with_dates filters (Request.startDate request)
          (Request.endDate request) in
      metrics <- await (WebsiteStats websiteId current)
                   (getWebsiteStats websiteId current) ;;
      let previous :=
        with_dates filters (Request.compareStartDate request)
          (Request.compareEndDate request) in
      prevPeriod <- await (WebsiteStats websiteId previous)
                      (getWebsiteStats websiteId previous) ;;
      stats <- lift (stats StringToNumber (Rows metrics) (Rows prevPeriod)) ;;
      osData <- getMetricsData websiteId filters_search limit offset "os" ;;
      browserData <-
        getMetricsData websiteId filters_search limit offset "browser" ;;
      countryData <-
        getMetricsData websiteId filters_search limit offset "country" ;;
      ret (Reply.ok {| Body.os := format osData "os";
                       Body.browser := format browserData "browser";
                       Body.country := format countryData "country";
                       Body.stats := stats |})
  else ret Reply.methodNotAllowed.

(** Did the query layer answer this call? *)
Definition answered (c : call) : bool :=
  match c with
  | WebsiteStats websiteId filters =>
      match getWebsiteStats websiteId filters with
      | Resolved _ => true
      | Rejected => false
      end
  | SessionMetrics websiteId type filters limit offset =>
      match getSessionMetrics websiteId type filters limit offset with
      | Resolved _ => true
      | Rejected => false
      end
  | PageviewMetrics websiteId type filters limit offset =>
      match getPageviewMetrics websiteId type filters limit offset with
      | Resolved _ => true
      | Rejected => false
      end
  end.

(** A computation that stops at the first call the query layer rejects:
    it only adds calls to the log; when it ends on a rejection, the last
    call added is the rejected one and every call before it was
    answered; otherwise every call added was answered. *)
Definition stops_at_rejection {A} (m : M A) : Prop :=
  forall log,
  exists new,
    snd (m log) = log ++ new
    /\ match fst (m log) with
       | Failed QueryRejected =>
           exists before c,
             new = before ++ [c]
             /\ answered c = false
             /\ forallb answered before = true
       | Failed (Threw _) => forallb answered new = true
       | Done _ => forallb answered new = true
       end.

End Handler.

(** How an outcome of the later [GET] and one of this handler compare:
    the same exception, the same refusal, or replies with the same
    stats. *)
Definition agree {Item : Type} (later : result (response Payload.t))
    (earlier : outcome (Reply.t (Body.t Item))) : Prop :=
  match later, earlier with
  | Stop why, Failed (Threw why') => why = why'
  | Ok unauthorized, Done Reply.unauthorized => True
  | Ok (json payload), Done (Reply.ok b) =>
      Payload.stats payload = Body.stats b
  | _, _ => False
  end.

End Legacy.

(* ================================================================== *)
(** ** The two earlier handlers *)

Module Revision.

Section Handlers.

Variable SESSION_COLUMNS : list string.
Variable EVENT_COLUMNS : list string.
Variable FILTER_COLUMNS : Obj.t string.
Variable OPERATORS_contains : string.
Variable OS_NAMES : Obj.t string.
Variable BROWSERS : Obj.t string.
Variable countryNames : Obj.t string.
Variable getWebsiteStats : string -> FilterSet -> settled (list StatRow).
Variable getSessionMetrics :
  string -> string -> FilterSet -> option Z -> option Z ->
  settled (list ItemType.t).
Variable getPageviewMetrics :
  string -> string -> FilterSet -> option Z -> option Z ->
  settled (list ItemType.t).
Variable StringToNumber : string -> Js.number.

(** The first revision: [(await formattedData(data, type)) || []]. *)
Definition first (method : string) (request : Request.t)
  : Legacy.M (Legacy.Reply.t (Legacy.Body.t First.item)) :=
  Legacy.handler SESSION_COLUMNS EVENT_COLUMNS FILTER_COLUMNS
    OPERATORS_contains getWebsiteStats getSessionMetrics getPageviewMetrics
    StringToNumber (First.formatted_or_empty OS_NAMES BROWSERS countryNames)
    method request.

(** The second revision:
    [(await formattedData(data, type)) || data || []]. *)
Definition second (method : string) (request : Request.t)
  : Legacy.M (Legacy.Reply.t (Legacy.Body.t Earlier.item)) :=
  Legacy.handler SESSION_COLUMNS EVENT_COLUMNS FILTER_COLUMNS
    OPERATORS_contains getWebsiteStats getSessionMetrics getPageviewMetrics
    StringToNumber (Earlier.formatted_or_raw OS_NAMES BROWSERS)
    method request.

End Handlers.

End Revision.

(* ================================================================== *)
(** ** The calls a request allows *)

(** A call that stays within a request: it is about the website of the
    request; a stats query carries the plain filter set of one of the
    two periods; a breakdown query is for os, browser or country, with
    the filter set of the request, search filter included, and with its
    limit and offset. *)
Definition within_request (FILTER_COLUMNS : Obj.t string)
    (OPERATORS_contains : string) (request : Request.t) (c : call) : Prop :=
  let primary :=
    with_dates (Request.filters request) (Request.startDate request)
      (Request.endDate request) in
  let compared :=
    with_dates (Request.filters request) (Request.compareStartDate request)
      (Request.compareEndDate request) in
  let filters_search :=
    add_search FILTER_COLUMNS OPERATORS_contains (Request.type request)
      (Request.search request) primary in
  match c with
  | WebsiteStats websiteId filters =>
      websiteId = Request.websiteId request
      /\ (filters = primary \/ filters = compared)
  | SessionMetrics websiteId type filters limit offset =>
      websiteId = Request.websiteId request
      /\ In type ["os"; "browser"; "country"]
      /\ filters = filters_search
      /\ limit = Request.limit request
      /\ offset = Request.offset request
  | PageviewMetrics websiteId type filters limit offset =>
      websiteId = Request.websiteId request
      /\ In type ["os"; "browser"; "country"]
      /\ filters = filters_search
      /\ limit = Request.limit request
      /\ offset = Request.offset request
  end.

(* ================================================================== *)
(** ** More sample data *)

Module Visits.

(** A stats query that finds one row. *)
Definition stats_row (websiteId : string) (filters : FilterSet)
  : settled (list StatRow) :=
  Resolved [ [ ("pageviews", Js.VNumber (Js.of_Z 150));
               ("visitors", Js.VBigInt 2) ] ].

(** Two visitors: US/Mac OS/chrome 100 times, DE/Windows/firefox 50
    times. *)
Definition session_rows (websiteId type : string) (filters : FilterSet)
    (limit offset : option Z) : settled (list ItemType.t) :=
  Resolved
    (if String.eqb type "os" then
       [ Sample.point "Mac OS" 100; Sample.point "Windows" 50 ]
     else if String.eqb type "country" then
       [ Sample.point "US" 100; Sample.point "DE" 50 ]
     else [ Sample.point "chrome" 100; Sample.point "firefox" 50 ]).

Definition rejected (websiteId type : string) (filters : FilterSet)
    (limit offset : option Z) : settled (list ItemType.t) := Rejected.

End Visits.

(* ================================================================== *)
(** * Properties *)

(** ** Strings *)

Module StrFacts.
Import Str.

Lemma lower_ascii_idem (c : ascii) : lower_ascii (lower_ascii c) = lower_ascii c.
Proof. destruct c as [[] [] [] [] [] [] [] []]; reflexivity. Qed.

Lemma lower_ascii_dash (c : ascii) :
  Ascii.eqb (lower_ascii c) dash = Ascii.eqb c dash.
Proof. destruct c as [[] [] [] [] [] [] [] []]; reflexivity. Qed.

Lemma toLowerCase_idem (s : string) :
  toLowerCase (toLowerCase s) = toLowerCase s.
Proof.
  induction s as [|c s IH]; simpl; [reflexivity|].
  now rewrite lower_ascii_idem, IH.
Qed.

Lemma toLowerCase_before_dash (s : string) :
  toLowerCase (before_dash s) = before_dash (toLowerCase s).
Proof.
  induction s as [|c s IH]; simpl; [reflexivity|].
  rewrite lower_ascii_dash.
  destruct (Ascii.eqb c dash); simpl; [reflexivity|].
  now rewrite IH.
Qed.

Lemma before_dash_idem (s : string) :
  before_dash (before_dash s) = before_dash s.
Proof.
  induction s as [|c s IH]; simpl; [reflexivity|].
  destruct (Ascii.eqb c dash) eqn:E; simpl; [reflexivity|].
  now rewrite E, IH.
Qed.

Lemma before_dash_without_dash (s : string) :
  has_dash s = false -> before_dash s = s.
Proof.
  induction s as [|c s IH]; simpl; [reflexivity|].
  destruct (Ascii.eqb c dash); simpl; [discriminate|].
  intros H. now rewrite IH.
Qed.

Lemma bucket_idem (x : string) : bucket (bucket x) = bucket x.
Proof.
  unfold bucket.
  now rewrite toLowerCase_before_dash, toLowerCase_idem, before_dash_idem.
Qed.

End StrFacts.

(** ** Objects *)

Module ObjFacts.
Import Obj.

Section Facts.
Context {V : Type}.
Implicit Types (o : Obj.t V) (k : string) (v : V).

Lemma has_own_In k o : has_own k o = true <-> In k (keys o).
Proof.
  unfold has_own.
  induction o as [|[k' v'] o IH]; simpl.
  - split; [discriminate | tauto].
  - destruct (String.eqb_spec k k') as [->|Hne].
    + split; auto.
    + rewrite IH. split; [auto | intros [H|H]; [congruence | exact H]].
Qed.

Lemma has_own_false k o : has_own k o = false <-> ~ In k (keys o).
Proof.
  rewrite <- has_own_In. destruct (has_own k o); split; congruence.
Qed.

Lemma get_own_None k o : get_own k o = None <-> ~ In k (keys o).
Proof.
  rewrite <- has_own_false. unfold has_own.
  destruct (get_own k o); split; congruence.
Qed.

Lemma keys_replace k v o : keys (replace k v o) = keys o.
Proof.
  induction o as [|[k' v'] o IH]; simpl; [reflexivity|].
  destruct (String.eqb k k'); simpl; [reflexivity|].
  now rewrite IH.
Qed.

Lemma get_own_replace k k' v o :
  get_own k' (replace k v o) =
  if String.eqb k' k && has_own k o then Some v else get_own k' o.
Proof.
  unfold has_own.
  induction o as [|[k1 v1] o IH]; simpl.
  - now rewrite andb_false_r.
  - destruct (String.eqb_spec k k1) as [->|Hne]; simpl.
    + destruct (String.eqb_spec k' k1); reflexivity.
    + destruct (String.eqb_spec k' k1) as [->|Hne'].
      * destruct (String.eqb_spec k1 k); [congruence | reflexivity].
      * exact IH.
Qed.

Lemma get_own_add_new k k' v o :
  has_own k o = false ->
  get_own k' (add_new k v o) =
  if String.eqb k' k then Some v else get_own k' o.
Proof.
  unfold has_own.
  induction o as [|[k1 v1] o IH]; simpl; [reflexivity|].
  destruct (String.eqb_spec k k1) as [->|Hne]; [discriminate|].
  intros H. destruct (before k k1); simpl.
  - reflexivity.
  - destruct (String.eqb_spec k' k1) as [->|Hne'].
    + destruct (String.eqb_spec k1 k); [congruence | reflexivity].
    + now apply IH.
Qed.

Lemma In_keys_add_new k k' v o :
  In k' (keys (add_new k v o)) <-> k' = k \/ In k' (keys o).
Proof.
  induction o as [|[k1 v1] o IH]; simpl.
  - intuition.
  - destruct (before k k1); simpl; [intuition|].
    rewrite IH. intuition.
Qed.

Lemma NoDup_keys_add_new k v o :
  ~ In k (keys o) -> NoDup (keys o) -> NoDup (keys (add_new k v o)).
Proof.
  induction o as [|[k1 v1] o IH]; simpl; intros Hk Hnd.
  - constructor; [tauto | constructor].
  - destruct (before k k1); simpl.
    + constructor; [simpl; exact Hk | exact Hnd].
    + inversion Hnd as [|? ? Hk1 Hnd']; subst.
      constructor.
      * rewrite In_keys_add_new. intros [->|H]; tauto.
      * apply IH; tauto.
Qed.

Lemma NoDup_keys_define k v o :
  NoDup (keys o) -> NoDup (keys (define k v o)).
Proof.
  unfold define. intros Hnd.
  destruct (has_own k o) eqn:E.
  - now rewrite keys_replace.
  - apply NoDup_keys_add_new; [now apply has_own_false | exact Hnd].
Qed.

Lemma NoDup_keys_set k v o :
  NoDup (keys o) -> NoDup (keys (set k v o)).
Proof.
  unfold set. intros Hnd.
  destruct (has_own k o) eqn:E.
  - now rewrite keys_replace.
  - destruct (String.eqb k "__proto__"); [exact Hnd|].
    apply NoDup_keys_add_new; [now apply has_own_false | exact Hnd].
Qed.

(** A key that is no array index goes to the end. *)
Lemma add_new_named k v o :
  Str.array_index k = None -> add_new k v o = o ++ [(k, v)].
Proof.
  intros Hk.
  induction o as [|[k1 v1] o IH]; simpl; [reflexivity|].
  unfold before. rewrite Hk. now rewrite IH.
Qed.

(** So does a key that every key of the object may precede. *)
Lemma add_new_last k v o :
  Forall (fun e => precedes (fst e) k) o -> add_new k v o = o ++ [(k, v)].
Proof.
  induction 1 as [|[k1 v1] o Hk1 _ IH]; simpl; [reflexivity|].
  replace (before k k1) with false; [now rewrite IH|].
  unfold precedes in Hk1. unfold before. simpl in Hk1.
  destruct (Str.array_index k) as [i|]; [|reflexivity].
  destruct (Str.array_index k1) as [j|]; [|contradiction].
  symmetry. apply N.ltb_ge. exact Hk1.
Qed.

Lemma precedes_before k k1 k2 :
  before k k1 = true -> precedes k1 k2 -> precedes k k2.
Proof.
  unfold before, precedes.
  destruct (Str.array_index k) as [i|]; [|discriminate].
  destruct (Str.array_index k1) as [j|], (Str.array_index k2) as [l|];
    try tauto.
  rewrite N.ltb_lt. lia.
Qed.

Lemma precedes_not_before k k1 :
  before k k1 = false -> precedes k1 k.
Proof.
  unfold before, precedes.
  destruct (Str.array_index k) as [i|], (Str.array_index k1) as [j|];
    try tauto; try discriminate.
  rewrite N.ltb_ge. lia.
Qed.

Lemma before_precedes k k1 : before k k1 = true -> precedes k k1.
Proof.
  unfold before, precedes.
  destruct (Str.array_index k) as [i|], (Str.array_index k1) as [j|];
    try tauto; try discriminate.
  rewrite N.ltb_lt. lia.
Qed.

Lemma sorted_add_new k v o :
  StronglySorted entry_precedes o ->
  StronglySorted entry_precedes (add_new k v o).
Proof.
  induction 1 as [|[k1 v1] o Hs IH Hall]; simpl.
  - constructor; constructor.
  - destruct (before k k1) eqn:E.
    + constructor; [constructor; assumption|].
      constructor; [now apply before_precedes|].
      eapply Forall_impl; [|exact Hall].
      intros [k2 v2] H. unfold entry_precedes in *. simpl in *.
      eapply precedes_before; eauto.
    + constructor; [exact IH|].
      rewrite Forall_forall. intros [k2 v2] Hin.
      assert (Hin' : (k2, v2) = (k, v) \/ In (k2, v2) o).
      { clear -Hin. induction o as [|[k3 v3] o IHo]; simpl in *.
        - destruct Hin as [H|[]]. now left.
        - destruct (before k k3); simpl in Hin.
          + destruct Hin as [H|[H|H]]; auto.
          + destruct Hin as [H|H]; auto.
            destruct (IHo H); auto. }
      destruct Hin' as [Heq|Hin'].
      * inversion Heq; subst. unfold entry_precedes; simpl.
        now apply precedes_not_before.
      * rewrite Forall_forall in Hall. now apply Hall.
Qed.

Lemma sorted_replace k v o :
  StronglySorted entry_precedes o ->
  StronglySorted entry_precedes (replace k v o).
Proof.
  induction 1 as [|[k1 v1] o Hs IH Hall]; simpl.
  - constructor.
  - destruct (String.eqb k k1).
    + constructor; assumption.
    + constructor; [exact IH|].
      rewrite Forall_forall in *. intros [k2 v2] Hin.
      assert (Hk : In k2 (keys o)).
      { rewrite <- (keys_replace k v o). apply (in_map fst _ _ Hin). }
      apply in_map_iff in Hk. destruct Hk as [[k3 v3] [Hk3 Hin3]].
      simpl in Hk3; subst k3.
      apply (Hall _ Hin3).
Qed.

Lemma wf_add_new k v o :
  ~ In k (keys o) -> wf o -> wf (add_new k v o).
Proof.
  intros Hk [Hnd Hs]. split.
  - now apply NoDup_keys_add_new.
  - now apply sorted_add_new.
Qed.

Lemma wf_replace k v o : wf o -> wf (replace k v o).
Proof.
  intros [Hnd Hs]. split.
  - now rewrite keys_replace.
  - now apply sorted_replace.
Qed.

Lemma wf_nil : wf (@nil (string * V)).
Proof. split; constructor. Qed.

End Facts.

End ObjFacts.

(** ** The reference definitions *)

Module SpecFacts.
Import Spec.

Lemma includes_In (k : string) (l : list string) :
  Js.includes k l = true <-> In k l.
Proof.
  unfold Js.includes. rewrite existsb_exists. split.
  - intros [k' [Hin Heq]]. apply String.eqb_eq in Heq. now subst.
  - intros Hin. exists k. split; [exact Hin | apply String.eqb_refl].
Qed.

Lemma includes_false (k : string) (l : list string) :
  Js.includes k l = false <-> ~ In k l.
Proof.
  rewrite <- includes_In. destruct (Js.includes k l); split; congruence.
Qed.

Lemma first_seen_In (k : string) (l : list string) :
  In k (first_seen l) <-> In k l.
Proof.
  induction l as [|a l IH]; simpl; [tauto|].
  rewrite filter_In, IH.
  destruct (String.eqb_spec k a) as [->|Hne]; simpl; intuition congruence.
Qed.

Lemma first_seen_NoDup (l : list string) : NoDup (first_seen l).
Proof.
  induction l as [|a l IH]; simpl; constructor.
  - rewrite filter_In, String.eqb_refl. simpl. intros [_ H]. discriminate.
  - now apply NoDup_filter.
Qed.

Lemma first_seen_snoc (l : list string) (k : string) :
  first_seen (l ++ [k]) =
  if Js.includes k l then first_seen l else first_seen l ++ [k].
Proof.
  induction l as [|a l IH]; simpl; [reflexivity|].
  rewrite IH. unfold Js.includes in *.
  destruct (String.eqb_spec k a) as [->|Hne]; simpl.
  - destruct (existsb (String.eqb a) l); [reflexivity|].
    rewrite filter_app. simpl. rewrite String.eqb_refl. simpl.
    now rewrite app_nil_r.
  - destruct (existsb (String.eqb k) l); [reflexivity|].
    rewrite filter_app. simpl.
    destruct (String.eqb_spec k a); [congruence|]. reflexivity.
Qed.

Lemma buckets_app (d1 d2 : list ItemType.t) :
  buckets (d1 ++ d2) = buckets d1 ++ buckets d2.
Proof. apply map_app. Qed.

Lemma add_up_snoc (acc : Js.number) (k : string) (data : list ItemType.t)
    (p : ItemType.t) :
  add_up acc k (data ++ [p]) =
  if String.eqb (bucket (ItemType.x p)) k
  then Js.add (add_up acc k data) (ItemType.y p)
  else add_up acc k data.
Proof.
  revert acc. induction data as [|item data IH]; intros acc; simpl;
    [reflexivity | apply IH].
Qed.

(** One more point: its count is added to the total of its bucket, or
    starts it. *)
Lemma total_snoc (k : string) (data : list ItemType.t) (p : ItemType.t) :
  total k (data ++ [p]) =
  if String.eqb (bucket (ItemType.x p)) k
  then (if Js.includes k (buckets data)
        then Js.add (total k data) (ItemType.y p)
        else ItemType.y p)
  else total k data.
Proof.
  induction data as [|item data IH]; simpl.
  - now destruct (String.eqb (bucket (ItemType.x p)) k).
  - destruct (String.eqb_spec (bucket (ItemType.x item)) k) as [Heq|Hne].
    + rewrite add_up_snoc. subst k. now rewrite String.eqb_refl.
    + rewrite IH.
      destruct (String.eqb_spec k (bucket (ItemType.x item)));
        [congruence | reflexivity].
Qed.

End SpecFacts.

(** ** Objects built over a list of keys *)

Module KeyedFacts.
Import Obj ObjFacts SpecFacts.

Section Keyed.
Context {V : Type}.
Variable f : string -> V.

Lemma keys_keyed (l : list string) : keys (keyed f l) = l.
Proof.
  unfold keys, keyed. rewrite map_map. simpl. apply map_id.
Qed.

Lemma values_keyed (l : list string) : values (keyed f l) = map f l.
Proof.
  unfold values, keyed. rewrite map_map. reflexivity.
Qed.

Lemma get_own_keyed (k : string) (l : list string) :
  get_own k (keyed f l) = if Js.includes k l then Some (f k) else None.
Proof.
  induction l as [|a l IH]; simpl; [reflexivity|].
  destruct (String.eqb_spec k a) as [->|Hne]; simpl; [reflexivity | exact IH].
Qed.

End Keyed.

Lemma keyed_ext {V : Type} (f g : string -> V) (l : list string) :
  (forall k, In k l -> f k = g k) -> keyed f l = keyed g l.
Proof.
  intros H. unfold keyed. apply map_ext_in. intros k Hk. now rewrite H.
Qed.

Lemma replace_keyed {V : Type} (f : string -> V) (k : string) (v : V)
    (l : list string) :
  NoDup l ->
  replace k v (keyed f l) =
  keyed (fun k' => if String.eqb k' k then v else f k') l.
Proof.
  induction 1 as [|a l Ha Hnd IH]; simpl; [reflexivity|].
  destruct (String.eqb_spec k a) as [->|Hne].
  - rewrite String.eqb_refl. f_equal.
    apply keyed_ext. intros k' Hk'.
    destruct (String.eqb_spec k' a); [congruence | reflexivity].
  - destruct (String.eqb_spec a k); [congruence|].
    f_equal. exact IH.
Qed.

End KeyedFacts.

(** ** Language normalization *)

Module NormalizeFacts.
Import Obj ObjFacts Spec SpecFacts KeyedFacts StrFacts.

Lemma combine_all_app (p : bool) (c : Obj.t ItemType.t)
    (d1 d2 : list ItemType.t) :
  combine_all p c (d1 ++ d2) =
  result_bind (combine_all p c d1) (fun s => combine_all (snd s) (fst s) d2).
Proof.
  revert p c. induction d1 as [|item d1 IH]; intros p c; simpl; [reflexivity|].
  destruct (combine p c item) as [[c' p']|why]; simpl; [apply IH | reflexivity].
Qed.

Lemma combine_all_one (p : bool) (c : Obj.t ItemType.t) (item : ItemType.t) :
  combine_all p c [item] = combine p c item.
Proof.
  simpl. now destruct (combine p c item) as [[c' p']|why].
Qed.

Lemma inherited_proto (k : string) :
  inherited k = false -> String.eqb k "__proto__" = false.
Proof.
  intros H. destruct (String.eqb_spec k "__proto__") as [->|]; [|reflexivity].
  discriminate H.
Qed.

(** A turn of the loop on a key that plain objects do not inherit: a
    key that [Object.prototype] does not define, and not ["y"] where
    [Object.prototype] has been given a [y].  The entry of the key is
    added to, or created, and nothing is written elsewhere. *)
Lemma combine_plain (p : bool) (c : Obj.t ItemType.t) (item : ItemType.t) :
  inherited (bucket (ItemType.x item)) = false ->
  p && String.eqb (bucket (ItemType.x item)) "y" = false ->
  combine p c item =
  Ok (match get_own (bucket (ItemType.x item)) c with
      | Some entry =>
          replace (bucket (ItemType.x item))
            {| ItemType.x := ItemType.x entry;
               ItemType.y := Js.add (ItemType.y entry) (ItemType.y item) |} c
      | None =>
          add_new (bucket (ItemType.x item))
            {| ItemType.x := bucket (ItemType.x item);
               ItemType.y := ItemType.y item |} c
      end, p).
Proof.
  intros H Hy. unfold combine, get.
  destruct (get_own (bucket (ItemType.x item)) c) eqn:E; [reflexivity|].
  rewrite H, Hy. unfold set, has_own. now rewrite E, (inherited_proto _ H).
Qed.

(** The condition on ["y"], key by key. *)
Lemma not_inherited_y (p : bool) (data : list ItemType.t) :
  (p = true ->
   forall item, In item data -> bucket (ItemType.x item) <> "y") ->
  forall item, In item data ->
    p && String.eqb (bucket (ItemType.x item)) "y" = false.
Proof.
  intros H item Hin. destruct p; [|reflexivity]. simpl.
  apply String.eqb_neq. now apply H.
Qed.

(** With bucket keys that are neither array indices nor names that
    plain objects inherit, the loop builds the buckets in first-seen
    order. *)
Lemma combine_all_named (p : bool) (data : list ItemType.t) :
  (forall item, In item data ->
     inherited (bucket (ItemType.x item)) = false) ->
  (forall item, In item data ->
     Str.array_index (bucket (ItemType.x item)) = None) ->
  (forall item, In item data ->
     p && String.eqb (bucket (ItemType.x item)) "y" = false) ->
  combine_all p [] data =
  Ok (keyed (fun k => {| ItemType.x := k; ItemType.y := total k data |})
        (first_seen (buckets data)), p).
Proof.
  induction data as [|item data IH] using rev_ind; intros Hinh Hidx Hy.
  - reflexivity.
  - rewrite combine_all_app, IH; simpl.
    2: intros i Hi; apply Hinh, in_or_app; now left.
    2: intros i Hi; apply Hidx, in_or_app; now left.
    2: intros i Hi; apply Hy, in_or_app; now left.
    assert (Hitem : In item (data ++ [item])) by (apply in_or_app; right; now left).
    specialize (Hinh _ Hitem). specialize (Hidx _ Hitem).
    specialize (Hy _ Hitem).
    rewrite (combine_plain _ _ _ Hinh Hy). simpl. apply f_equal.
    apply (f_equal (fun c => (c, p))).
    set (k := bucket (ItemType.x item)) in *.
    rewrite buckets_app. simpl buckets. fold k.
    rewrite first_seen_snoc, get_own_keyed.
    destruct (Js.includes k (buckets data)) eqn:E.
    + assert (E' : Js.includes k (first_seen (buckets data)) = true).
      { apply includes_In, first_seen_In, includes_In, E. }
      rewrite E'. simpl.
      rewrite replace_keyed by apply first_seen_NoDup.
      apply keyed_ext. intros k' _.
      rewrite total_snoc. fold k.
      destruct (String.eqb_spec k' k) as [->|Hne].
      * now rewrite String.eqb_refl, E.
      * destruct (String.eqb_spec k k'); [congruence | reflexivity].
    + assert (E' : Js.includes k (first_seen (buckets data)) = false).
      { apply includes_false. rewrite first_seen_In. now apply includes_false. }
      rewrite E'.
      rewrite add_new_named by exact Hidx.
      unfold keyed. rewrite map_app. simpl. apply f_equal2.
      * apply map_ext_in. intros k' Hk'. f_equal.
        rewrite total_snoc. fold k.
        apply (proj1 (first_seen_In _ _)) in Hk'.
        destruct (String.eqb_spec k k') as [Heq|Hne]; [|reflexivity].
        rewrite <- Heq in Hk'. apply includes_false in E. contradiction.
      * rewrite total_snoc. fold k. now rewrite String.eqb_refl, E.
Qed.

Lemma Forall_add_new {V : Type} (P : string * V -> Prop) k v (o : Obj.t V) :
  P (k, v) -> Forall P o -> Forall P (add_new k v o).
Proof.
  intros Hkv. induction 1 as [|[k1 v1] o H1 Ho IH]; simpl.
  - constructor; [exact Hkv | constructor].
  - destruct (before k k1); repeat constructor; assumption.
Qed.

Lemma Forall_replace {V : Type} (P : string * V -> Prop) k v (o : Obj.t V) :
  P (k, v) -> Forall P o -> Forall P (replace k v o).
Proof.
  intros Hkv. induction 1 as [|[k1 v1] o H1 Ho IH]; simpl.
  - constructor.
  - destruct (String.eqb_spec k k1) as [->|Hne]; constructor; assumption.
Qed.

Lemma get_own_In {V : Type} k v (o : Obj.t V) :
  get_own k o = Some v -> In (k, v) o.
Proof.
  induction o as [|[k1 v1] o IH]; simpl; [discriminate|].
  destruct (String.eqb_spec k k1) as [->|Hne].
  - intros H. inversion H. now left.
  - intros H. right. now apply IH.
Qed.

Lemma combine_bucketed (p p' : bool) (c c' : Obj.t ItemType.t)
    (item : ItemType.t) :
  bucketed c -> combine p c item = Ok (c', p') -> bucketed c'.
Proof.
  intros [Hwf Hall]. unfold combine, get.
  set (k := bucket (ItemType.x item)).
  destruct (get_own k c) as [entry|] eqn:E.
  - intros H. inversion H; subst c'; clear H. split.
    + now apply wf_replace.
    + apply Forall_replace; [|exact Hall].
      rewrite Forall_forall in Hall.
      apply (Hall _ (get_own_In _ _ E)).
  - destruct (inherited k) eqn:Hinh.
    { intros H. inversion H; subst c'. now split. }
    destruct (p && String.eqb k "y"); [discriminate|].
    intros H. inversion H; subst c'; clear H.
    unfold set, has_own. rewrite E, (inherited_proto _ Hinh). split.
    + apply wf_add_new; [now apply get_own_None | exact Hwf].
    + apply Forall_add_new; [|exact Hall]. simpl.
      repeat split; [apply bucket_idem | exact Hinh].
Qed.

Lemma combine_all_bucketed (data : list ItemType.t) (p p' : bool)
    (c c' : Obj.t ItemType.t) :
  bucketed c -> combine_all p c data = Ok (c', p') -> bucketed c'.
Proof.
  revert p c. induction data as [|item data IH]; intros p c Hc; simpl.
  - intros H. inversion H. now subst.
  - destruct (combine p c item) as [[c1 p1]|why] eqn:E; simpl; [|discriminate].
    apply IH. eapply combine_bucketed; eauto.
Qed.

Lemma bucketed_nil : bucketed [].
Proof. split; [apply wf_nil | constructor]. Qed.

Lemma sorted_middle {A : Type} (R : A -> A -> Prop) (l1 l2 : list A) (a : A) :
  StronglySorted R (l1 ++ a :: l2) -> Forall (fun b => R b a) l1.
Proof.
  induction l1 as [|b l1 IH]; simpl; intros H; [constructor|].
  inversion H as [|? ? Hs Hall]; subst.
  constructor; [|now apply IH].
  rewrite Forall_forall in Hall. apply Hall, in_or_app. right. now left.
Qed.

(** Running the loop over the values of a bucketed object rebuilds it. *)
Lemma combine_all_values (c2 c1 : Obj.t ItemType.t) :
  bucketed (c1 ++ c2) ->
  combine_all false c1 (values c2) = Ok (c1 ++ c2, false).
Proof.
  revert c1. induction c2 as [|[k e] c2 IH]; intros c1 Hb; simpl.
  - now rewrite app_nil_r.
  - destruct Hb as [[Hnd Hs] Hall].
    assert (He := proj1 (Forall_forall _ _) Hall (k, e) (in_elt _ _ _)).
    simpl in He. destruct He as [Hx [Hbk Hinh]].
    assert (Hfresh : get_own k c1 = None).
    { apply get_own_None. unfold keys in Hnd. rewrite map_app in Hnd.
      simpl in Hnd. apply NoDup_remove_2 in Hnd.
      intros Hin. apply Hnd, in_or_app. now left. }
    rewrite combine_plain by (rewrite ?Hx, ?Hbk; auto).
    rewrite Hx, Hbk, Hfresh. simpl.
    rewrite add_new_last.
    2:{ apply sorted_middle in Hs. eapply Forall_impl; [|exact Hs].
        intros [k1 v1] H. exact H. }
    replace {| ItemType.x := k; ItemType.y := ItemType.y e |} with e
      by (destruct e; simpl in *; now subst).
    rewrite IH; rewrite <- app_assoc; simpl; [reflexivity|].
    repeat split; assumption.
Qed.

(** A normalized sequence is a fixed point of [normalize]. *)
Lemma normalize_fixed (data out : list ItemType.t) :
  normalize data = Ok out -> normalize out = Ok out.
Proof.
  unfold normalize, normalize_in.
  destruct (combine_all false [] data) as [[c p]|why] eqn:E; simpl;
    [|discriminate].
  intros H. inversion H; subst out; clear H.
  rewrite (combine_all_values c []); [reflexivity|].
  simpl. eapply combine_all_bucketed; [apply bucketed_nil | exact E].
Qed.

(** As long as no bucket key is ["__proto__"], nothing is written on
    [Object.prototype] and the loop runs to its end. *)
Lemma combine_all_returns (data : list ItemType.t) (c : Obj.t ItemType.t) :
  (forall item, In item data -> bucket (ItemType.x item) <> "__proto__") ->
  exists c', combine_all false c data = Ok (c', false).
Proof.
  revert c. induction data as [|item data IH]; intros c Hp; simpl.
  - now exists c.
  - assert (Hk : String.eqb (bucket (ItemType.x item)) "__proto__" = false).
    { apply String.eqb_neq, Hp. now left. }
    assert (Hc : exists c1, combine false c item = Ok (c1, false)).
    { unfold combine, get.
      destruct (get_own (bucket (ItemType.x item)) c); [eauto|].
      destruct (inherited (bucket (ItemType.x item))); simpl; [|eauto].
      rewrite Hk. eauto. }
    destruct Hc as [c1 ->]. simpl. apply IH.
    intros i Hi. apply Hp. now right.
Qed.

Lemma length_replace {V : Type} (k : string) (v : V) (o : Obj.t V) :
  List.length (replace k v o) = List.length o.
Proof.
  induction o as [|[k1 v1] o IH]; simpl; [reflexivity|].
  destruct (String.eqb k k1); simpl; [reflexivity | now rewrite IH].
Qed.

Lemma length_add_new {V : Type} (k : string) (v : V) (o : Obj.t V) :
  List.length (add_new k v o) = S (List.length o).
Proof.
  induction o as [|[k1 v1] o IH]; simpl; [reflexivity|].
  destruct (before k k1); simpl; [reflexivity | now rewrite IH].
Qed.

(** A turn of the loop adds at most one entry. *)
Lemma combine_length (p p' : bool) (c c' : Obj.t ItemType.t)
    (item : ItemType.t) :
  combine p c item = Ok (c', p') -> List.length c' <= S (List.length c).
Proof.
  unfold combine, get.
  destruct (get_own (bucket (ItemType.x item)) c) as [entry|].
  - intros H. inversion H. rewrite length_replace. lia.
  - destruct (inherited (bucket (ItemType.x item))).
    + intros H. inversion H. subst. lia.
    + destruct (p && String.eqb (bucket (ItemType.x item)) "y");
        [discriminate|].
      intros H. inversion H. unfold set.
      destruct (has_own _ c); [rewrite length_replace; lia|].
      destruct (String.eqb _ "__proto__"); [lia|].
      rewrite length_add_new. lia.
Qed.

Lemma combine_all_length (data : list ItemType.t) (p p' : bool)
    (c c' : Obj.t ItemType.t) :
  combine_all p c data = Ok (c', p') ->
  List.length c' <= List.length c + List.length data.
Proof.
  revert p c. induction data as [|item data IH]; intros p c; simpl.
  - intros H. inversion H. lia.
  - destruct (combine p c item) as [[c1 p1]|why] eqn:E; simpl; [|discriminate].
    intros H. apply IH in H. apply combine_length in E. lia.
Qed.

End NormalizeFacts.

(** X19.  The values of [combined] come out in own-property order, one
    per key: array-index keys first, whatever the order of the input. *)
Lemma normalize_own_property_order (data out : list ItemType.t) :
  normalize data = Ok out ->
  NoDup (map ItemType.x out) /\
  StronglySorted Obj.precedes (map ItemType.x out).
Proof.
  unfold normalize, normalize_in.
  destruct (combine_all false [] data) as [[c p]|why] eqn:E; simpl;
    [|discriminate].
  intros H. inversion H; subst out; clear H.
  assert (Hb : bucketed c)
    by (eapply NormalizeFacts.combine_all_bucketed;
        [apply NormalizeFacts.bucketed_nil | exact E]).
  destruct Hb as [[Hnd Hs] Hall].
  assert (Hx : map ItemType.x (Obj.values c) = Obj.keys c).
  { unfold Obj.values, Obj.keys. rewrite map_map.
    apply map_ext_in. intros e He.
    rewrite Forall_forall in Hall. apply (Hall _ He). }
  rewrite Hx. split; [exact Hnd|].
  clear -Hs. induction Hs as [|e c Hs IH He]; simpl; constructor.
  - exact IH.
  - rewrite Forall_forall in *. intros k Hk.
    apply in_map_iff in Hk. destruct Hk as [e' [<- He']].
    apply (He _ He').
Qed.

(** Whatever the bucket keys, array indices included, as long as none
    is a name that plain objects inherit: the loop runs to its end,
    writes nothing on [Object.prototype], and [combined] holds under
    each bucket key the sum of the counts of that bucket, and nothing
    else. *)
Lemma combine_all_totals (p : bool) (data : list ItemType.t) :
  (forall item, In item data ->
     Obj.inherited (bucket (ItemType.x item)) = false) ->
  (forall item, In item data ->
     p && String.eqb (bucket (ItemType.x item)) "y" = false) ->
  exists combined,
    combine_all p [] data = Ok (combined, p)
    /\ forall k,
         Obj.get_own k combined =
         if Js.includes k (Spec.buckets data)
         then Some {| ItemType.x := k; ItemType.y := Spec.total k data |}
         else None.
Proof.
  induction data as [|item data IH] using rev_ind; intros Hinh Hy.
  - exists []. split; reflexivity.
  - destruct IH as [c [Hc Hget]].
    { intros i Hi. apply Hinh, in_or_app. now left. }
    { intros i Hi. apply Hy, in_or_app. now left. }
    assert (Hitem : Obj.inherited (bucket (ItemType.x item)) = false).
    { apply Hinh, in_or_app. right. now left. }
    assert (Hyitem : p && String.eqb (bucket (ItemType.x item)) "y" = false).
    { apply Hy, in_or_app. right. now left. }
    rewrite NormalizeFacts.combine_all_app, Hc. simpl.
    rewrite (NormalizeFacts.combine_plain _ _ _ Hitem Hyitem). simpl.
    set (k0 := bucket (ItemType.x item)) in *.
    assert (Hstep : forall k,
              Js.includes k (Spec.buckets (data ++ [item])) =
              String.eqb k k0 || Js.includes k (Spec.buckets data)).
    { intros k. rewrite SpecFacts.buckets_app. unfold Js.includes.
      rewrite existsb_app. simpl. fold k0.
      now rewrite orb_false_r, orb_comm. }
    rewrite (Hget k0).
    destruct (Js.includes k0 (Spec.buckets data)) eqn:E.
    + eexists. split; [reflexivity|]. intros k. simpl.
      rewrite ObjFacts.get_own_replace, Hstep, SpecFacts.total_snoc.
      fold k0. unfold Obj.has_own. rewrite (Hget k0), E.
      destruct (String.eqb_spec k k0) as [->|Hne]; simpl.
      * now rewrite String.eqb_refl, E.
      * rewrite Hget. destruct (String.eqb_spec k0 k); [congruence|].
        reflexivity.
    + eexists. split; [reflexivity|]. intros k.
      rewrite ObjFacts.get_own_add_new
        by (unfold Obj.has_own; now rewrite (Hget k0), E).
      rewrite Hstep, SpecFacts.total_snoc. fold k0.
      destruct (String.eqb_spec k k0) as [->|Hne]; simpl.
      * now rewrite String.eqb_refl, E.
      * rewrite Hget. destruct (String.eqb_spec k0 k); [congruence|].
        reflexivity.
Qed.

(** C2 (amended): for points whose [x] is ASCII text, when no bucket
    key is an array index or a name that plain objects inherit from
    [Object.prototype] (one of its own names, or ["y"] in a process
    where [Object.prototype] has been given a [y]), language
    normalization buckets each point by lower-casing [x] and taking the
    text before the first dash, adds up the counts of each bucket in
    the order of the input, and returns one point per distinct bucket
    key in first-seen order; it writes nothing on [Object.prototype]. *)
Theorem normalize_buckets_first_seen (prototype_y : bool)
    (data : list ItemType.t) :
  (forall item, In item data -> Str.is_ascii (ItemType.x item) = true) ->
  (forall item, In item data ->
     Obj.inherited (bucket (ItemType.x item)) = false) ->
  (prototype_y = true ->
   forall item, In item data -> bucket (ItemType.x item) <> "y") ->
  (forall item, In item data ->
     Str.array_index (bucket (ItemType.x item)) = None) ->
  normalize_in prototype_y data = Ok (Spec.normalized data, prototype_y)
  /\ (prototype_y = false -> normalize data = Ok (Spec.normalized data)).
Proof.
  intros _ Hinh Hy Hidx.
  assert (H : normalize_in prototype_y data
              = Ok (Spec.normalized data, prototype_y)).
  { unfold normalize_in.
    rewrite (@NormalizeFacts.combine_all_named prototype_y data Hinh Hidx
               (@NormalizeFacts.not_inherited_y prototype_y data Hy)).
    simpl. now rewrite KeyedFacts.values_keyed. }
  split; [exact H|].
  intros Hp. subst prototype_y. unfold normalize. now rewrite H.
Qed.

(** The example of the specification, and the empty input. *)
Lemma normalize_buckets_first_seen_witness :
  normalize [ Sample.point "en-US" 3; Sample.point "en-GB" 2;
              Sample.point "fr-FR" 1 ]
  = Ok [ Sample.point "en" 5; Sample.point "fr" 1 ]
  /\ normalize [] = Ok [].
Proof.
  split.
  - destruct (@normalize_buckets_first_seen false
                [ Sample.point "en-US" 3; Sample.point "en-GB" 2;
                  Sample.point "fr-FR" 1 ]) as [_ H].
    + intros item [<-|[<-|[<-|[]]]]; reflexivity.
    + intros item [<-|[<-|[<-|[]]]]; reflexivity.
    + discriminate.
    + intros item [<-|[<-|[<-|[]]]]; reflexivity.
    + exact (H eq_refl).
  - destruct (@normalize_buckets_first_seen false []) as [_ H];
      try (intros item []); [discriminate | exact (H eq_refl)].
Defined.

(** C2 as stated fails: the bucket ["1"] is seen after ["fr"] and comes
    out before it; and a point whose bucket is ["constructor"] never
    reaches [combined], so that its bucket has no point in the
    output. *)
Lemma normalize_not_first_seen :
  normalize [ Sample.point "fr" 1; Sample.point "1" 2 ]
  = Ok [ Sample.point "1" 2; Sample.point "fr" 1 ]
  /\ Spec.normalized [ Sample.point "fr" 1; Sample.point "1" 2 ]
     = [ Sample.point "fr" 1; Sample.point "1" 2 ]
  /\ normalize [ Sample.point "constructor" 1 ] = Ok [].
Proof. repeat split. Qed.

(** C8 fails, by a slip of the code: the test
    [combined[key] === undefined] also finds what [Object.prototype]
    hands down.  On the points [y] and [__proto__], neither of which
    holds a dash, the first pass returns the point [y] and, through
    [combined["__proto__"].y += 1], leaves a property [y] on
    [Object.prototype]; in the second pass [combined["y"]] is that
    inherited number, not [undefined], the entry is not created, and
    the assignment to a property of a number throws.  Normalizing twice
    does not give what normalizing once gives. *)
Theorem normalize_twice_after_prototype_write :
  normalize [ Sample.point "y" 3; Sample.point "__proto__" 1 ]
  = Ok [ Sample.point "y" 3 ]
  /\ normalize_in false [ Sample.point "y" 3; Sample.point "__proto__" 1 ]
     = Ok ([ Sample.point "y" 3 ], true)
  /\ normalize_twice [ Sample.point "y" 3; Sample.point "__proto__" 1 ]
     = Stop (TypeError "Cannot create property 'y' on number 'NaN'")
  /\ normalize_twice [ Sample.point "y" 3; Sample.point "__proto__" 1 ]
     <> normalize [ Sample.point "y" 3; Sample.point "__proto__" 1 ]
  /\ Str.has_dash "y" = false /\ Str.has_dash "__proto__" = false.
Proof. repeat split. discriminate. Qed.

(** X22.  Language normalization is idempotent as long as no bucket key
    is ["__proto__"]: run where [Object.prototype] has no [y], the
    first pass then leaves it so, both passes run to their end, and
    normalizing twice gives what normalizing once gives. *)
Theorem normalize_idempotent_without_proto (data : list ItemType.t) :
  (forall item, In item data -> bucket (ItemType.x item) <> "__proto__") ->
  exists out,
    normalize_in false data = Ok (out, false)
    /\ normalize_in false out = Ok (out, false)
    /\ normalize data = Ok out
    /\ normalize_twice data = Ok out.
Proof.
  intros Hp.
  destruct (NormalizeFacts.combine_all_returns data [] Hp) as [c Hc].
  assert (Hfix : combine_all false [] (Obj.values c) = Ok (c, false)).
  { apply (NormalizeFacts.combine_all_values c []).
    simpl. eapply NormalizeFacts.combine_all_bucketed;
      [apply NormalizeFacts.bucketed_nil | exact Hc]. }
  exists (Obj.values c).
  unfold normalize, normalize_twice, normalize_in. rewrite Hc. simpl.
  rewrite Hfix. simpl. repeat split.
Qed.

Lemma normalize_idempotent_without_proto_witness :
  exists out,
    normalize_in false
      [ Sample.point "en" 3; Sample.point "FR" 2;
        Sample.point "constructor" 9; Sample.point "en" 1;
        Sample.point "fr-CA" 4 ] = Ok (out, false)
    /\ normalize_in false out = Ok (out, false)
    /\ normalize [ Sample.point "en" 3; Sample.point "FR" 2;
                   Sample.point "constructor" 9; Sample.point "en" 1;
                   Sample.point "fr-CA" 4 ] = Ok out
    /\ normalize_twice [ Sample.point "en" 3; Sample.point "FR" 2;
                         Sample.point "constructor" 9; Sample.point "en" 1;
                         Sample.point "fr-CA" 4 ] = Ok out.
Proof.
  apply (normalize_idempotent_without_proto
           [ Sample.point "en" 3; Sample.point "FR" 2;
             Sample.point "constructor" 9; Sample.point "en" 1;
             Sample.point "fr-CA" 4 ]).
  intros item [<-|[<-|[<-|[<-|[<-|[]]]]]]; discriminate.
Defined.

(** ** The stats comparison *)

Module StatsFacts.
Import Obj ObjFacts.

Lemma truthy_not_NaN (n : Js.number) : Js.truthy n = true -> Js.is_NaN n = false.
Proof. destruct n; simpl; congruence. Qed.

Section Coercion.
Variable StringToNumber : string -> Js.number.

(** [Number(v) || 0] is the number [v] coerces to when that is truthy,
    and [0] when it is [NaN] or a zero. *)
Lemma number_or_zero_cases (v : Js.value) :
  (Js.truthy (Js.ToNumber StringToNumber v) = true ->
   Js.number_or_zero StringToNumber v = Js.ToNumber StringToNumber v) /\
  (Js.truthy (Js.ToNumber StringToNumber v) = false ->
   Js.number_or_zero StringToNumber v = Js.zero).
Proof.
  unfold Js.number_or_zero.
  destruct (Js.truthy (Js.ToNumber StringToNumber v)); split; congruence.
Qed.

Lemma number_or_zero_not_NaN (v : Js.value) :
  Js.is_NaN (Js.number_or_zero StringToNumber v) = false.
Proof.
  unfold Js.number_or_zero.
  destruct (Js.truthy (Js.ToNumber StringToNumber v)) eqn:E;
    [now apply truthy_not_NaN | reflexivity].
Qed.

(** The coercion keeps the sign: nothing is clamped. *)
Lemma number_or_zero_negative (v : Js.value) :
  Js.negative (Js.number_or_zero StringToNumber v) =
  Js.negative (Js.ToNumber StringToNumber v).
Proof.
  unfold Js.number_or_zero.
  destruct (Js.ToNumber StringToNumber v) as [s|s| |s m e]; reflexivity.
Qed.

Lemma non_numeric_is_zero (v : Js.value) :
  Js.is_NaN (Js.ToNumber StringToNumber v) = true ->
  Js.number_or_zero StringToNumber v = Js.zero.
Proof.
  unfold Js.number_or_zero.
  destruct (Js.ToNumber StringToNumber v); simpl; congruence.
Qed.

Lemma absent_is_zero (k : string) (row : StatRow) :
  has_own k row = false ->
  Js.number_or_zero StringToNumber (Js.read k row) = Js.zero.
Proof.
  unfold has_own, Js.read, get. destruct (get_own k row); [discriminate|].
  intros _. now destruct (inherited k).
Qed.

End Coercion.

Section Sets.
Context {V : Type}.
Implicit Types (o : Obj.t V) (k : string) (v : V).

Lemma In_keys_set k k' v o :
  In k' (keys (set k v o)) <->
  In k' (keys o) \/ (k' = k /\ k <> "__proto__").
Proof.
  unfold set. destruct (has_own k o) eqn:E.
  - rewrite keys_replace. apply has_own_In in E.
    split; [auto | intros [H|[-> _]]; assumption].
  - destruct (String.eqb_spec k "__proto__") as [->|Hne].
    + split; [auto | intros [H|[_ H]]; [assumption | congruence]].
    + rewrite In_keys_add_new. intuition.
Qed.

Lemma get_own_set k k' v o :
  k <> "__proto__" ->
  get_own k' (set k v o) = if String.eqb k' k then Some v else get_own k' o.
Proof.
  intros Hne. unfold set. destruct (has_own k o) eqn:E.
  - rewrite get_own_replace, E. now rewrite andb_true_r.
  - destruct (String.eqb_spec k "__proto__"); [congruence|].
    now apply get_own_add_new.
Qed.

Lemma get_own_set_other k k' v o :
  k' <> k -> get_own k' (set k v o) = get_own k' o.
Proof.
  intros Hne. unfold set. destruct (has_own k o) eqn:E.
  - rewrite get_own_replace.
    destruct (String.eqb_spec k' k); [congruence | reflexivity].
  - destruct (String.eqb k "__proto__"); [reflexivity|].
    rewrite get_own_add_new by exact E.
    destruct (String.eqb_spec k' k); [congruence | reflexivity].
Qed.

Variable f : string -> V.

(** Assigning [f key] under every key of a list, in turn. *)
Lemma In_keys_assign_all (ks : list string) o k :
  In k (keys (fold_left (fun acc key => set key (f key) acc) ks o)) <->
  In k (keys o) \/ (In k ks /\ k <> "__proto__").
Proof.
  revert o. induction ks as [|a ks IH]; intros o; simpl.
  - tauto.
  - rewrite IH, In_keys_set. split.
    + intros [[H|[-> H]]|[H1 H2]]; auto.
    + intros [H|[[->|H1] H2]]; auto.
Qed.

Lemma get_own_assign_all (ks : list string) o k :
  k <> "__proto__" ->
  get_own k (fold_left (fun acc key => set key (f key) acc) ks o) =
  if Js.includes k ks then Some (f k) else get_own k o.
Proof.
  intros Hk. revert o. induction ks as [|a ks IH]; intros o; simpl; [reflexivity|].
  rewrite IH. fold (Js.includes k ks).
  destruct (Js.includes k ks); [now rewrite orb_true_r|].
  rewrite orb_false_r.
  destruct (String.eqb_spec k a) as [->|Hne].
  - rewrite get_own_set by exact Hk. now rewrite String.eqb_refl.
  - now apply get_own_set_other.
Qed.

Lemma In_keys_assign_all_nil (ks : list string) k :
  In k (keys (fold_left (fun acc key => set key (f key) acc) ks [])) <->
  In k ks /\ k <> "__proto__".
Proof.
  rewrite In_keys_assign_all. simpl. split.
  - intros [[]|H]. exact H.
  - intros H. now right.
Qed.

Lemma get_own_assign_all_nil (ks : list string) k (e : V) :
  get_own k (fold_left (fun acc key => set key (f key) acc) ks []) = Some e ->
  In k ks /\ k <> "__proto__" /\ e = f k.
Proof.
  intros He.
  assert (Hin : In k ks /\ k <> "__proto__").
  { apply In_keys_assign_all_nil, has_own_In. unfold has_own. now rewrite He. }
  destruct Hin as [Hin Hk]. repeat split; try assumption.
  rewrite get_own_assign_all in He by exact Hk.
  rewrite (proj2 (SpecFacts.includes_In _ _) Hin) in He.
  now inversion He.
Qed.

End Sets.

(** On an object: the keys come out in the order they went in. *)
Lemma assign_all_keys {V W : Type} (f : string -> V) (o2 o1 : Obj.t W) :
  wf (o1 ++ o2) ->
  ~ In "__proto__" (keys o2) ->
  keys (fold_left (fun acc key => set key (f key) acc) (keys o2)
          (keyed f (keys o1)))
  = keys (o1 ++ o2).
Proof.
  revert o1. induction o2 as [|[k v] o2 IH]; intros o1 Hwf Hp; simpl.
  - rewrite app_nil_r. apply KeyedFacts.keys_keyed.
  - assert (Hk : ~ In k (keys o1)).
    { destruct Hwf as [Hnd _]. unfold keys in Hnd. rewrite map_app in Hnd.
      simpl in Hnd. apply NoDup_remove_2 in Hnd.
      intros Hin. apply Hnd, in_or_app. now left. }
    assert (Hset : set k (f k) (keyed f (keys o1)) = keyed f (keys (o1 ++ [(k, v)]))).
    { unfold set, has_own. rewrite KeyedFacts.get_own_keyed.
      replace (Js.includes k (keys o1)) with false
        by (symmetry; now apply SpecFacts.includes_false).
      destruct (String.eqb_spec k "__proto__") as [->|_];
        [exfalso; apply Hp; now left|].
      rewrite add_new_last.
      - unfold keys, keyed. now rewrite !map_app.
      - destruct Hwf as [_ Hs].
        apply NormalizeFacts.sorted_middle in Hs.
        unfold keyed, keys. rewrite Forall_map. simpl.
        rewrite Forall_map. simpl.
        eapply Forall_impl; [|exact Hs]. intros [k1 v1] H. exact H. }
    rewrite Hset, IH.
    + now rewrite <- app_assoc.
    + now rewrite <- app_assoc.
    + intros H. apply Hp. now right.
Qed.

End StatsFacts.

(** ** The handler *)

Section HandlerFacts.

Variable SESSION_COLUMNS : list string.
Variable EVENT_COLUMNS : list string.
Variable FILTER_COLUMNS : Obj.t string.
Variable OPERATORS_contains : string.
Variable OS_NAMES : Obj.t string.
Variable BROWSERS : Obj.t string.
Variable countryNames : Obj.t string.
Variable getWebsiteStats : string -> FilterSet -> settled (list StatRow).
Variable getSessionMetrics :
  string -> string -> FilterSet -> option Z -> option Z ->
  settled (list ItemType.t).
Variable getPageviewMetrics :
  string -> string -> FilterSet -> option Z -> option Z ->
  settled (list ItemType.t).
Variable StringToNumber : string -> Js.number.

(** With a first row on both sides the [reduce] is a plain fold. *)
Lemma reduce_rows (current previous : StatRow) (rest rest' : list StatRow)
    (keys : list string) (obj : StatComparison) :
  reduce StringToNumber (Rows (current :: rest)) (Rows (previous :: rest'))
    keys obj
  = Ok (fold_left
          (fun acc key =>
             Obj.set key
               {| Stat.value :=
                    Js.number_or_zero StringToNumber (Js.read key current);
                  Stat.prev :=
                    Js.number_or_zero StringToNumber (Js.read key previous) |}
               acc)
          keys obj).
Proof using Type.
  revert obj. induction keys as [|key keys IH]; intros obj; simpl.
  - reflexivity.
  - apply IH.
Qed.

Lemma stats_rows (current previous : StatRow) (rest rest' : list StatRow) :
  stats StringToNumber (Rows (current :: rest)) (Rows (previous :: rest'))
  = Ok (fold_left
          (fun acc key =>
             Obj.set key
               {| Stat.value :=
                    Js.number_or_zero StringToNumber (Js.read key current);
                  Stat.prev :=
                    Js.number_or_zero StringToNumber (Js.read key previous) |}
               acc)
          (Obj.keys current) []).
Proof using Type. unfold stats. simpl. apply reduce_rows. Qed.

(** [stats] can only stop on a [TypeError]. *)
Lemma reduce_stop (metrics prevPeriod : fetched StatRow) (keys : list string)
    (obj : StatComparison) (why : stop) :
  reduce StringToNumber metrics prevPeriod keys obj = Stop why ->
  exists message, why = TypeError message.
Proof using Type.
  revert obj. induction keys as [|key keys IH]; intros obj; simpl.
  - discriminate.
  - unfold stats_entry.
    destruct (first metrics); simpl;
      [|intros H; inversion H; eauto].
    destruct (first prevPeriod); simpl;
      [apply IH | intros H; inversion H; eauto].
Qed.

Lemma stats_stop (metrics prevPeriod : fetched StatRow) (why : stop) :
  stats StringToNumber metrics prevPeriod = Stop why ->
  exists message, why = TypeError message.
Proof using Type.
  unfold stats. destruct (first metrics).
  - apply reduce_stop.
  - intros H. inversion H. eauto.
Qed.

(** A first row without keys gives the empty comparison, whatever the
    previous period holds. *)
Lemma stats_of_empty_row (rest : list StatRow) (prevPeriod : fetched StatRow) :
  stats StringToNumber (Rows ([] :: rest)) prevPeriod = Ok [].
Proof using Type. reflexivity. Qed.

(** X20.  On rows that are objects without an own ["__proto__"], the
    comparison lists the keys of the current row in their order. *)
Lemma stats_keys_in_order (current previous : StatRow)
    (rest rest' : list StatRow) :
  Obj.wf current ->
  ~ In "__proto__" (Obj.keys current) ->
  exists comparison,
    stats StringToNumber (Rows (current :: rest)) (Rows (previous :: rest'))
    = Ok comparison
    /\ Obj.keys comparison = Obj.keys current.
Proof using Type.
  intros Hwf Hp. rewrite stats_rows.
  eexists. split; [reflexivity|].
  exact (StatsFacts.assign_all_keys _ current [] Hwf Hp).
Qed.

(** The comparison, entry by entry, whatever the keys of the rows. *)
Lemma stats_entries (current previous : StatRow)
    (rest rest' : list StatRow) :
  exists comparison,
    stats StringToNumber (Rows (current :: rest)) (Rows (previous :: rest'))
    = Ok comparison
    /\ (forall k, In k (Obj.keys comparison) <->
                  In k (Obj.keys current) /\ k <> "__proto__")
    /\ (forall k, In k (Obj.keys current) -> k <> "__proto__" ->
          Obj.get_own k comparison =
          Some {| Stat.value :=
                    Js.number_or_zero StringToNumber (Js.read k current);
                  Stat.prev :=
                    Js.number_or_zero StringToNumber (Js.read k previous) |})
    /\ (forall k e, Obj.get_own k comparison = Some e ->
          e = {| Stat.value :=
                   Js.number_or_zero StringToNumber (Js.read k current);
                 Stat.prev :=
                   Js.number_or_zero StringToNumber (Js.read k previous) |}).
Proof using Type.
  rewrite stats_rows.
  eexists. split; [reflexivity|]. split; [|split].
  - intros k. apply StatsFacts.In_keys_assign_all_nil.
  - intros k Hin Hk.
    rewrite StatsFacts.get_own_assign_all by exact Hk.
    now rewrite (proj2 (SpecFacts.includes_In _ _) Hin).
  - intros k e He.
    apply StatsFacts.get_own_assign_all_nil in He.
    now destruct He as [_ [_ ->]].
Qed.

(** C1 (amended): for every pair of rows (current, previous) where the
    current row has no key ["__proto__"], the comparison has exactly
    the keys of the current row; under each key [k] it holds
    [{ value: Number(current[k]) || 0, prev: Number(previous[k]) || 0 }];
    neither number is ever [NaN]; an input that is not numeric, and a
    key absent from the previous row, give 0; and each number is below
    zero exactly when the number its input coerces to is: a negative
    input stays negative. *)
Theorem stats_comparison (current previous : StatRow)
    (rest rest' : list StatRow) :
  ~ In "__proto__" (Obj.keys current) ->
  exists comparison,
    stats StringToNumber (Rows (current :: rest)) (Rows (previous :: rest'))
    = Ok comparison
    /\ (forall k, In k (Obj.keys comparison) <-> In k (Obj.keys current))
    /\ (forall k, In k (Obj.keys current) ->
          Obj.get_own k comparison =
          Some {| Stat.value :=
                    Js.number_or_zero StringToNumber (Js.read k current);
                  Stat.prev :=
                    Js.number_or_zero StringToNumber (Js.read k previous) |})
    /\ (forall k e, Obj.get_own k comparison = Some e ->
          Js.is_NaN (Stat.value e) = false
          /\ Js.is_NaN (Stat.prev e) = false
          /\ Js.negative (Stat.value e)
             = Js.negative (Js.ToNumber StringToNumber (Js.read k current))
          /\ Js.negative (Stat.prev e)
             = Js.negative (Js.ToNumber StringToNumber (Js.read k previous))
          /\ (Js.is_NaN (Js.ToNumber StringToNumber (Js.read k current))
              = true -> Stat.value e = Js.zero)
          /\ (Js.is_NaN (Js.ToNumber StringToNumber (Js.read k previous))
              = true -> Stat.prev e = Js.zero)
          /\ (Obj.has_own k previous = false -> Stat.prev e = Js.zero)).
Proof using Type.
  intros Hp.
  destruct (stats_entries current previous rest rest')
    as [comparison [Hc [Hkeys [Hget Hentry]]]].
  exists comparison. split; [exact Hc|]. split; [|split].
  - intros k. rewrite Hkeys. split; [now intros [H _]|].
    intros H. split; [exact H|]. intros ->. exact (Hp H).
  - intros k Hin. apply Hget; [exact Hin|]. intros ->. exact (Hp Hin).
  - intros k e He. rewrite (Hentry k e He). simpl.
    split; [apply StatsFacts.number_or_zero_not_NaN|].
    split; [apply StatsFacts.number_or_zero_not_NaN|].
    split; [apply StatsFacts.number_or_zero_negative|].
    split; [apply StatsFacts.number_or_zero_negative|].
    split; [apply StatsFacts.non_numeric_is_zero|].
    split; [apply StatsFacts.non_numeric_is_zero|].
    apply StatsFacts.absent_is_zero.
Qed.

(** C3 fails, by a slip of the code: when the stats query rejects, the
    [Response] built in the [catch] callback is stored in [metrics] and
    not returned; the handler goes on, issues the previous-period query,
    and stops with the [TypeError] of [Object.keys(metrics[0])].  The
    outcome is a thrown exception, not a bad-request response. *)
Theorem GET_stats_rejected_throws (request : Request.t) (log : list call) :
  Request.error request = false ->
  Request.canViewWebsite request = true ->
  getWebsiteStats (Request.websiteId request)
    (with_dates (Request.filters request) (Request.startDate request)
       (Request.endDate request)) = Rejected ->
  GET SESSION_COLUMNS EVENT_COLUMNS FILTER_COLUMNS OPERATORS_contains
    OS_NAMES BROWSERS countryNames getWebsiteStats getSessionMetrics
    getPageviewMetrics StringToNumber request log
  = (Stop (TypeError "Cannot convert undefined or null to object"),
     (log ++ [WebsiteStats (Request.websiteId request)
                (with_dates (Request.filters request)
                   (Request.startDate request) (Request.endDate request))])
       ++ [WebsiteStats (Request.websiteId request)
             (with_dates (Request.filters request)
                (Request.compareStartDate request)
                (Request.compareEndDate request))]).
Proof using Type.
  intros Herr Hview Hq.
  unfold GET. rewrite Herr, Hview. simpl negb. cbv iota.
  unfold bind at 1. unfold await_catch at 1. rewrite Hq.
  unfold bind at 1. unfold await_catch at 1.
  unfold bind at 1. unfold lift at 1.
  reflexivity.
Qed.

(** C4 (amended): when the stats query finds no row for the current
    period, no comparison is produced: both stats queries are issued,
    then [Object.keys(metrics[0])] raises a [TypeError] and the handler
    fails with it. *)
Theorem GET_without_rows_throws (request : Request.t) (log : list call) :
  Request.error request = false ->
  Request.canViewWebsite request = true ->
  getWebsiteStats (Request.websiteId request)
    (with_dates (Request.filters request) (Request.startDate request)
       (Request.endDate request)) = Resolved [] ->
  GET SESSION_COLUMNS EVENT_COLUMNS FILTER_COLUMNS OPERATORS_contains
    OS_NAMES BROWSERS countryNames getWebsiteStats getSessionMetrics
    getPageviewMetrics StringToNumber request log
  = (Stop (TypeError "Cannot convert undefined or null to object"),
     (log ++ [WebsiteStats (Request.websiteId request)
                (with_dates (Request.filters request)
                   (Request.startDate request) (Request.endDate request))])
       ++ [WebsiteStats (Request.websiteId request)
             (with_dates (Request.filters request)
                (Request.compareStartDate request)
                (Request.compareEndDate request))]).
Proof using Type.
  intros Herr Hview Hq.
  unfold GET. rewrite Herr, Hview. simpl negb. cbv iota.
  unfold bind at 1. unfold await_catch at 1. rewrite Hq.
  unfold bind at 1. unfold await_catch at 1.
  unfold bind at 1. unfold lift at 1.
  reflexivity.
Qed.

(** *** The log *)

Lemma appends_ret {A} (P : call -> Prop) (a : A) : appends P (ret a).
Proof using Type. intros log. exists []. simpl. now rewrite app_nil_r. Qed.

Lemma appends_lift {A} (P : call -> Prop) (r : result A) : appends P (lift r).
Proof using Type. intros log. exists []. simpl. now rewrite app_nil_r. Qed.

Lemma appends_await {A} (P : call -> Prop) (c : call)
    (p : settled (list A)) :
  P c -> appends P (await_catch c p).
Proof using Type. intros Hc log. exists [c]. simpl. split; [reflexivity | now constructor]. Qed.

Lemma appends_bind {A B} (P : call -> Prop) (m : M A) (k : A -> M B) :
  appends P m -> (forall a, appends P (k a)) -> appends P (bind m k).
Proof using Type.
  intros Hm Hk log. unfold bind.
  destruct (Hm log) as [new1 [E1 H1]].
  destruct (m log) as [[a|why] log1] eqn:E; simpl in E1; subst log1.
  - destruct (Hk a (log ++ new1)) as [new2 [E2 H2]].
    exists (new1 ++ new2). rewrite E2, app_assoc. split; [reflexivity|].
    apply Forall_app. now split.
  - exists new1. now split.
Qed.

Lemma bind_Ok {A B} (m : M A) (k : A -> M B) (log log' : list call) (b : B) :
  bind m k log = (Ok b, log') ->
  exists a log1, m log = (Ok a, log1) /\ k a log1 = (Ok b, log').
Proof using Type.
  unfold bind. destruct (m log) as [[a|why] log1]; [eauto | discriminate].
Qed.

(** What [getMetricsData] does for a dimension other than [language]. *)
Lemma getMetricsData_plain (websiteId : string) (filters_search : FilterSet)
    (limit offset : option Z) (type : string) (log : list call) :
  String.eqb type "language" = false ->
  getMetricsData SESSION_COLUMNS EVENT_COLUMNS getSessionMetrics
    getPageviewMetrics websiteId filters_search limit offset type log
  = if Js.includes type SESSION_COLUMNS then
      (Ok (caught (getSessionMetrics websiteId type filters_search limit offset)),
       log ++ [SessionMetrics websiteId type filters_search limit offset])
    else if Js.includes type EVENT_COLUMNS then
      (Ok (caught (getPageviewMetrics websiteId type filters_search limit offset)),
       log ++ [PageviewMetrics websiteId type filters_search limit offset])
    else (Ok (Rows []), log).
Proof using Type.
  intros Hl. unfold getMetricsData.
  destruct (Js.includes type SESSION_COLUMNS).
  - unfold bind, await_catch. now rewrite Hl.
  - destruct (Js.includes type EVENT_COLUMNS); reflexivity.
Qed.

Lemma getMetricsData_appends (websiteId : string) (filters_search : FilterSet)
    (limit offset : option Z) (type : string) :
  appends without_search
    (getMetricsData SESSION_COLUMNS EVENT_COLUMNS getSessionMetrics
       getPageviewMetrics websiteId filters_search limit offset type).
Proof using Type.
  unfold getMetricsData.
  destruct (Js.includes type SESSION_COLUMNS).
  - apply appends_bind; [now apply appends_await|].
    intros data. destruct (String.eqb type "language"); [|apply appends_ret].
    destruct data; [|apply appends_lift].
    apply appends_bind; [apply appends_lift | intros; apply appends_ret].
  - destruct (Js.includes type EVENT_COLUMNS); [|apply appends_ret].
    apply appends_bind; [now apply appends_await | intros; apply appends_ret].
Qed.

(** C7: for a dimension that belongs neither to the session family nor
    to the event family, the fetch returns the empty sequence as a
    value, not as an error, and issues no query: the log of calls is
    left as it was. *)
Theorem getMetricsData_unknown_dimension (websiteId : string)
    (filters_search : FilterSet) (limit offset : option Z) (type : string)
    (log : list call) :
  ~ In type SESSION_COLUMNS ->
  ~ In type EVENT_COLUMNS ->
  getMetricsData SESSION_COLUMNS EVENT_COLUMNS getSessionMetrics
    getPageviewMetrics websiteId filters_search limit offset type log
  = (Ok (Rows []), log).
Proof using Type.
  intros Hs He. unfold getMetricsData.
  rewrite (proj2 (SpecFacts.includes_false _ _) Hs).
  rewrite (proj2 (SpecFacts.includes_false _ _) He).
  reflexivity.
Qed.

(** *** The filter sets *)

Lemma Forall_define {V : Type} (P : string * V -> Prop) k v (o : Obj.t V) :
  P (k, v) -> Forall P o -> Forall P (Obj.define k v o).
Proof using Type.
  intros Hkv Ho. unfold Obj.define. destruct (Obj.has_own k o).
  - now apply NormalizeFacts.Forall_replace.
  - now apply NormalizeFacts.Forall_add_new.
Qed.

Lemma spread_invariant {V : Type} (P : string * V -> Prop) (o acc : Obj.t V) :
  Forall P o -> Forall P acc -> NoDup (Obj.keys acc) ->
  Forall P (fold_left (fun a kv => Obj.define (fst kv) (snd kv) a) o acc)
  /\ NoDup (Obj.keys
              (fold_left (fun a kv => Obj.define (fst kv) (snd kv) a) o acc)).
Proof using Type.
  intros Ho. revert acc. induction Ho as [|[k v] o Hkv Ho IH]; intros acc Ha Hnd.
  - now split.
  - simpl. apply IH.
    + now apply Forall_define.
    + now apply ObjFacts.NoDup_keys_define.
Qed.

Lemma with_dates_invariant (filters : Obj.t string) (startDate endDate : Z) :
  Forall (fun e => forall f, snd e <> Search f)
    (with_dates filters startDate endDate)
  /\ NoDup (Obj.keys (with_dates filters startDate endDate)).
Proof using Type.
  unfold with_dates, Obj.spread.
  destruct (@spread_invariant fvalue (fun e => forall f, snd e <> Search f)
              (map (fun kv => (fst kv, Raw (snd kv))) filters) [])
    as [Hall Hnd].
  - rewrite Forall_map. apply Forall_forall. intros [k v] _ f. discriminate.
  - constructor.
  - constructor.
  - split.
    + repeat apply Forall_define; try exact Hall; intros f; discriminate.
    + repeat apply ObjFacts.NoDup_keys_define. exact Hnd.
Qed.

Lemma with_dates_without_search (filters : Obj.t string) (startDate endDate : Z)
    (k : string) (f : Filter.t) :
  Obj.get_own k (with_dates filters startDate endDate) <> Some (Search f).
Proof using Type.
  intros H. apply NormalizeFacts.get_own_In in H.
  destruct (with_dates_invariant filters startDate endDate) as [Hall _].
  rewrite Forall_forall in Hall. exact (Hall _ H f eq_refl).
Qed.

Lemma lookup_or_key_text (table : Obj.t string) (k : string) :
  Obj.inherited k = false ->
  Js.lookup_or_key table k = Js.Text (Spec.display_name table k).
Proof using Type.
  intros H. unfold Js.lookup_or_key, Spec.display_name, Obj.get.
  destruct (Obj.get_own k table) as [n|].
  - now destruct (String.eqb n "").
  - now rewrite H.
Qed.

(** The stats queries of [GET] never carry a search filter. *)
Lemma GET_stats_queries_without_search (request : Request.t) :
  appends without_search
    (GET SESSION_COLUMNS EVENT_COLUMNS FILTER_COLUMNS OPERATORS_contains
       OS_NAMES BROWSERS countryNames getWebsiteStats getSessionMetrics
       getPageviewMetrics StringToNumber request).
Proof using Type.
  unfold GET.
  destruct (Request.error request); [apply appends_ret|].
  destruct (negb (Request.canViewWebsite request)); [apply appends_ret|].
  apply appends_bind;
    [apply appends_await; simpl; apply with_dates_without_search | intros metrics].
  apply appends_bind;
    [apply appends_await; simpl; apply with_dates_without_search | intros prev].
  apply appends_bind; [apply appends_lift | intros st].
  do 3 (apply appends_bind; [apply getMetricsData_appends | intros ?]).
  do 3 (apply appends_bind; [apply appends_lift | intros ?]).
  apply appends_ret.
Qed.

(** C9 (amended): the filter set of the breakdown queries has at most
    one entry per name.  For a non-empty search term and a requested
    dimension [type] that is not a name inherited from
    [Object.prototype], it holds under [type] the filter
    [{ name: type, column: resolvedColumn(type), operator: contains,
    value: search }], where the column is the one [FILTER_COLUMNS] maps
    [type] to and [type] itself when unmapped, and every other entry is
    the entry of the primary filter set.  Without a search term the two
    sets are the same.  The primary filter set, and the filter set of
    every stats query the handler issues, holds no search filter. *)
Theorem search_filter_on_requested_dimension (type s : string)
    (filters : Obj.t string) (startDate endDate : Z) :
  Obj.inherited type = false ->
  s <> "" ->
  let primary := with_dates filters startDate endDate in
  let breakdown :=
    add_search FILTER_COLUMNS OPERATORS_contains type (Some s) primary in
  NoDup (Obj.keys breakdown)
  /\ Obj.get_own type breakdown
     = Some (Search {| Filter.name := type;
                       Filter.column :=
                         Js.Text (Spec.resolvedColumn FILTER_COLUMNS type);
                       Filter.operator := OPERATORS_contains;
                       Filter.value := s |})
  /\ (forall k, k <> type -> Obj.get_own k breakdown = Obj.get_own k primary)
  /\ (forall k f, Obj.get_own k primary <> Some (Search f))
  /\ add_search FILTER_COLUMNS OPERATORS_contains type None primary = primary
  /\ add_search FILTER_COLUMNS OPERATORS_contains type (Some "") primary
     = primary
  /\ (forall request,
        appends without_search
          (GET SESSION_COLUMNS EVENT_COLUMNS FILTER_COLUMNS OPERATORS_contains
             OS_NAMES BROWSERS countryNames getWebsiteStats getSessionMetrics
             getPageviewMetrics StringToNumber request)).
Proof using Type.
  intros Hinh Hs primary breakdown.
  assert (Hp : type <> "__proto__").
  { intros ->. discriminate Hinh. }
  assert (Hb : breakdown
               = Obj.set type
                   (Search {| Filter.name := type;
                              Filter.column :=
                                Js.Text (Spec.resolvedColumn FILTER_COLUMNS type);
                              Filter.operator := OPERATORS_contains;
                              Filter.value := s |})
                   primary).
  { unfold breakdown, add_search, column.
    destruct (String.eqb_spec s ""); [contradiction|].
    now rewrite lookup_or_key_text. }
  rewrite Hb. repeat split.
  - apply ObjFacts.NoDup_keys_set, with_dates_invariant.
  - rewrite StatsFacts.get_own_set by exact Hp. now rewrite String.eqb_refl.
  - intros k Hk. now apply StatsFacts.get_own_set_other.
  - intros k f. apply with_dates_without_search.
  - apply GET_stats_queries_without_search.
Qed.

(** *** The outcomes of [GET] *)

Lemma formattedData_stop (data : fetched ItemType.t) (type : string)
    (why : stop) :
  formattedData OS_NAMES BROWSERS countryNames data type = Stop why ->
  why = TypeError "data.map is not a function".
Proof using Type.
  unfold formattedData.
  destruct (source_of OS_NAMES BROWSERS countryNames type); [|discriminate].
  destruct data; [discriminate|]. intros H. now inversion H.
Qed.

(** X21.  For a request that parsed, the handler never returns the
    [Response] that its [catch] callbacks build with [badRequest()]:
    what it returns is the authorization failure or the payload. *)
Lemma GET_never_badRequest (request : Request.t) (log log' : list call)
    (r : response Payload.t) :
  Request.error request = false ->
  GET SESSION_COLUMNS EVENT_COLUMNS FILTER_COLUMNS OPERATORS_contains
    OS_NAMES BROWSERS countryNames getWebsiteStats getSessionMetrics
    getPageviewMetrics StringToNumber request log = (Ok r, log') ->
  r <> badRequest /\ (r = unauthorized \/ exists payload, r = json payload).
Proof using Type.
  intros Herr. unfold GET. rewrite Herr.
  destruct (negb (Request.canViewWebsite request)).
  { intros H. inversion H. split; [discriminate | now left]. }
  intros H.
  repeat (apply bind_Ok in H; destruct H as [? [? [_ H]]]).
  inversion H. split; [discriminate | right; eauto].
Qed.

(** A rejected breakdown query does not end in a bad request either:
    the [Response] object reaches [formattedData], whose [data.map]
    raises a [TypeError]. *)
Lemma GET_session_rejected_throws (request : Request.t) (log : list call)
    (dimension : string) :
  Request.error request = false ->
  Request.canViewWebsite request = true ->
  In dimension ["os"; "browser"; "country"] ->
  In dimension SESSION_COLUMNS ->
  getSessionMetrics (Request.websiteId request) dimension
    (add_search FILTER_COLUMNS OPERATORS_contains (Request.type request)
       (Request.search request)
       (with_dates (Request.filters request) (Request.startDate request)
          (Request.endDate request)))
    (Request.limit request) (Request.offset request) = Rejected ->
  exists message log',
    GET SESSION_COLUMNS EVENT_COLUMNS FILTER_COLUMNS OPERATORS_contains
      OS_NAMES BROWSERS countryNames getWebsiteStats getSessionMetrics
      getPageviewMetrics StringToNumber request log
    = (Stop (TypeError message), log').
Proof using Type.
  intros Herr Hview Hdim Hsession Hq.
  apply SpecFacts.includes_In in Hsession.
  unfold GET. rewrite Herr, Hview. change (negb true) with false. cbv iota.
  unfold bind at 1. unfold await_catch at 1.
  unfold bind at 1. unfold await_catch at 1.
  unfold bind at 1. unfold lift at 1.
  destruct (stats StringToNumber _ _) as [st|why] eqn:Est.
  2:{ destruct (stats_stop _ _ Est) as [message ->]. eauto. }
  unfold bind at 1. rewrite getMetricsData_plain by reflexivity.
  set (os := if Js.includes "os" SESSION_COLUMNS then _ else _).
  destruct os as [[osData|why] log1] eqn:Eos.
  2:{ exfalso. subst os.
      destruct (Js.includes "os" SESSION_COLUMNS); [discriminate|].
      destruct (Js.includes "os" EVENT_COLUMNS); discriminate. }
  unfold bind at 1. rewrite getMetricsData_plain by reflexivity.
  set (browser := if Js.includes "browser" SESSION_COLUMNS then _ else _).
  destruct browser as [[browserData|why] log2] eqn:Ebrowser.
  2:{ exfalso. subst browser.
      destruct (Js.includes "browser" SESSION_COLUMNS); [discriminate|].
      destruct (Js.includes "browser" EVENT_COLUMNS); discriminate. }
  unfold bind at 1. rewrite getMetricsData_plain by reflexivity.
  set (country := if Js.includes "country" SESSION_COLUMNS then _ else _).
  destruct country as [[countryData|why] log3] eqn:Ecountry.
  2:{ exfalso. subst country.
      destruct (Js.includes "country" SESSION_COLUMNS); [discriminate|].
      destruct (Js.includes "country" EVENT_COLUMNS); discriminate. }
  unfold bind, lift.
  destruct (formattedData OS_NAMES BROWSERS countryNames osData "os")
    as [o|why] eqn:Fos.
  2:{ rewrite (formattedData_stop _ _ Fos). eauto. }
  destruct (formattedData OS_NAMES BROWSERS countryNames browserData "browser")
    as [b|why] eqn:Fbrowser.
  2:{ rewrite (formattedData_stop _ _ Fbrowser). eauto. }
  destruct (formattedData OS_NAMES BROWSERS countryNames countryData "country")
    as [c|why] eqn:Fcountry.
  2:{ rewrite (formattedData_stop _ _ Fcountry). eauto. }
  exfalso.
  destruct Hdim as [<-|[<-|[<-|[]]]].
  - subst os. rewrite Hsession, Hq in Eos. inversion Eos; subst osData.
    discriminate Fos.
  - subst browser. rewrite Hsession, Hq in Ebrowser.
    inversion Ebrowser; subst browserData. discriminate Fbrowser.
  - subst country. rewrite Hsession, Hq in Ecountry.
    inversion Ecountry; subst countryData. discriminate Fcountry.
Qed.

(** *** The display formatter *)

Lemma source_of_enrichable (type : string) :
  Spec.enrichable type = true ->
  exists source,
    source_of OS_NAMES BROWSERS countryNames type = Some source
    /\ (type = "os" \/ type = "browser" \/ type = "country").
Proof using Type.
  unfold Spec.enrichable, source_of.
  destruct (String.eqb_spec type "os"); [eauto|].
  destruct (String.eqb_spec type "browser"); [eauto|].
  destruct (String.eqb_spec type "country"); [eauto | discriminate].
Qed.

Lemma source_of_other (type : string) :
  Spec.enrichable type = false ->
  source_of OS_NAMES BROWSERS countryNames type = None.
Proof using Type.
  unfold Spec.enrichable, source_of.
  destruct (String.eqb type "os"); [discriminate|].
  destruct (String.eqb type "browser"); [discriminate|].
  destruct (String.eqb type "country"); [discriminate | reflexivity].
Qed.

(** Under a dimension that has a table, the second [switch] takes one of
    its first three branches. *)
Lemma icon_of_enrichable (type x : string) :
  Spec.enrichable type = true ->
  icon_of type (Spec.slug x) = Some (Spec.icon_path type x).
Proof using Type.
  unfold Spec.enrichable.
  destruct (String.eqb_spec type "os") as [->|_]; [reflexivity|].
  destruct (String.eqb_spec type "browser") as [->|_]; [reflexivity|].
  destruct (String.eqb_spec type "country") as [->|_];
    [reflexivity | discriminate].
Qed.

Lemma icon_path_not_empty (type x : string) : Spec.icon_path type x <> "".
Proof using Type. discriminate. Qed.

Lemma formattedData_enrichable (data : list ItemType.t) (type : string) :
  Spec.enrichable type = true ->
  exists source,
    source_of OS_NAMES BROWSERS countryNames type = Some source
    /\ formattedData OS_NAMES BROWSERS countryNames (Rows data) type
       = Ok (map (fun item =>
                    {| FormattedItem.name :=
                         Js.lookup_or_key source (ItemType.x item);
                       FormattedItem.icon :=
                         Some (Spec.icon_path type (ItemType.x item));
                       FormattedItem.x := ItemType.x item;
                       FormattedItem.y := ItemType.y item |}) data).
Proof using Type.
  intros H. destruct (source_of_enrichable type H) as [source [Hs _]].
  exists source. split; [exact Hs|].
  unfold formattedData. rewrite Hs. f_equal.
  apply map_ext. intros item. unfold format_item.
  fold (Spec.slug (ItemType.x item)). now rewrite icon_of_enrichable.
Qed.

(** C5 (amended): under a dimension in {os, browser, country}, [format]
    keeps the length of the sequence, the [x] and [y] of every point in
    their order, and so the sum of the [y] values; under any other
    dimension it returns the empty sequence, whatever the input.  (In
    the earlier revision, where the caller falls back on the raw points,
    length and counts are kept under every dimension.) *)
Theorem formattedData_counts (data : list ItemType.t) (type : string) :
  exists out,
    formattedData OS_NAMES BROWSERS countryNames (Rows data) type = Ok out
    /\ (if Spec.enrichable type
        then List.length out = List.length data
             /\ map FormattedItem.x out = map ItemType.x data
             /\ map FormattedItem.y out = map ItemType.y data
             /\ Spec.sum (map FormattedItem.y out)
                = Spec.sum (map ItemType.y data)
        else out = [])
    /\ List.length (Earlier.formatted_or_raw OS_NAMES BROWSERS data type)
       = List.length data
    /\ map Earlier.y (Earlier.formatted_or_raw OS_NAMES BROWSERS data type)
       = map ItemType.y data.
Proof using Type.
  assert (HE : List.length (Earlier.formatted_or_raw OS_NAMES BROWSERS data type)
               = List.length data
               /\ map Earlier.y
                    (Earlier.formatted_or_raw OS_NAMES BROWSERS data type)
                  = map ItemType.y data).
  { unfold Earlier.formatted_or_raw, Earlier.formattedData.
    destruct (Earlier.source_of OS_NAMES BROWSERS type);
      rewrite List.length_map, map_map; split; reflexivity. }
  destruct (Spec.enrichable type) eqn:E.
  - destruct (formattedData_enrichable data type E) as [source [_ ->]].
    eexists. split; [reflexivity|]. split; [|exact HE].
    rewrite List.length_map, !map_map. simpl. repeat split; reflexivity.
  - unfold formattedData. rewrite (source_of_other _ E).
    eexists. split; [reflexivity|]. split; [reflexivity | exact HE].
Qed.

(** C6 (amended): under a dimension in {os, browser, country} every
    point is formatted, in its place, none is dropped, and [x] and [y]
    are kept.  For each point whose [x] is not a name inherited from
    [Object.prototype], whatever the other points are, the name is the
    table entry for [x] when there is one and it is not empty, and the
    raw [x] otherwise; for each point whose [x] is ASCII text the icon
    is the path of the dimension for the slug of [x] (lower-cased,
    spaces replaced by dashes). *)
Theorem formattedData_name_and_icon (data : list ItemType.t) (type : string) :
  Spec.enrichable type = true ->
  exists source out,
    source_of OS_NAMES BROWSERS countryNames type = Some source
    /\ formattedData OS_NAMES BROWSERS countryNames (Rows data) type = Ok out
    /\ Forall2
         (fun item formatted =>
            FormattedItem.x formatted = ItemType.x item
            /\ FormattedItem.y formatted = ItemType.y item
            /\ (Obj.inherited (ItemType.x item) = false ->
                FormattedItem.name formatted
                = Js.Text (Spec.display_name source (ItemType.x item)))
            /\ (Str.is_ascii (ItemType.x item) = true ->
                FormattedItem.icon formatted
                = Some (Spec.icon_path type (ItemType.x item))))
         data out.
Proof using Type.
  intros H.
  destruct (formattedData_enrichable data type H) as [source [Hs ->]].
  exists source. eexists. split; [exact Hs|]. split; [reflexivity|].
  induction data as [|item data IH]; simpl; constructor; [|exact IH].
  simpl. repeat split.
  intros Hinh. f_equal. now apply lookup_or_key_text.
Qed.

(** C10: under a dimension that has a table, one of os, browser and
    country, every item that [format] produces carries an icon of the
    form [//umami.guole.fun/images/<dimension>/<slug>.png], a non-empty
    string, never [undefined], so that the [device] and default
    branches of the icon switch are not taken; under any other
    dimension no item is produced.  When the [x] of the item is ASCII
    text, the slug is the slug of that very [x] (lower-cased, spaces
    replaced by dashes). *)
Theorem formattedData_icon (data : list ItemType.t) (type : string)
    (out : list FormattedItem.t) (formatted : FormattedItem.t) :
  formattedData OS_NAMES BROWSERS countryNames (Rows data) type = Ok out ->
  In formatted out ->
  (type = "os" \/ type = "browser" \/ type = "country")
  /\ type <> "device"
  /\ (exists slug,
        FormattedItem.icon formatted
        = Some ("//umami.guole.fun/images/" ++ type ++ "/" ++ slug
                ++ ".png")%string)
  /\ FormattedItem.icon formatted <> Some ""
  /\ FormattedItem.icon formatted <> None
  /\ (Str.is_ascii (FormattedItem.x formatted) = true ->
      FormattedItem.icon formatted
      = Some (Spec.icon_path type (FormattedItem.x formatted))).
Proof using Type.
  intros Hout Hin.
  destruct (Spec.enrichable type) eqn:E.
  - destruct (formattedData_enrichable data type E) as [source [_ Heq]].
    rewrite Heq in Hout. inversion Hout; subst out; clear Hout.
    apply in_map_iff in Hin. destruct Hin as [item [<- Hitem]]. simpl.
    destruct (source_of_enrichable type E) as [_ [_ Htype]].
    split; [exact Htype|]. split.
    { destruct Htype as [ -> | [ -> | -> ] ]; discriminate. }
    split; [exists (Spec.slug (ItemType.x item)); reflexivity|].
    repeat split; discriminate.
  - unfold formattedData in Hout. rewrite (source_of_other _ E) in Hout.
    inversion Hout; subst out. destruct Hin.
Qed.

End HandlerFacts.

(* ================================================================== *)
(** * Instances *)

(** C1 as stated fails, on two rows that share the key set
    {pageviews}: a negative raw value goes through the coercion as it
    is, so [value] is below zero.  The rows are what the query layer
    hands over; the handler puts no type on their cells and
    [Number(...) || 0] replaces [NaN] and zero only. *)
Lemma stats_keeps_negative_values :
  stats Sample.StringToNumber
    (Rows [ [ ("pageviews", Js.VNumber (Js.of_Z (-5))) ] ])
    (Rows [ [ ("pageviews", Js.VNumber (Js.of_Z 3)) ] ])
  = Ok [ ("pageviews",
          {| Stat.value := Js.of_Z (-5); Stat.prev := Js.of_Z 3 |}) ]
  /\ Js.negative (Js.of_Z (-5)) = true.
Proof. split; reflexivity. Qed.

(** Two rows that share the key set {pageviews, visitors}, with a cell
    that is not numeric. *)
Lemma stats_comparison_witness :
  exists comparison,
    stats Sample.StringToNumber
      (Rows [ [ ("pageviews", Js.VNumber (Js.of_Z 150));
                ("visitors", Js.VBigInt 2) ] ])
      (Rows [ [ ("pageviews", Js.VString "n/a");
                ("visitors", Js.VBigInt 1) ] ])
    = Ok comparison
    /\ (forall k, In k (Obj.keys comparison) <->
                  In k [ "pageviews"; "visitors" ])
    /\ Obj.get_own "pageviews" comparison
       = Some {| Stat.value := Js.of_Z 150; Stat.prev := Js.zero |}.
Proof.
  destruct (@stats_comparison Sample.StringToNumber
              [ ("pageviews", Js.VNumber (Js.of_Z 150));
                ("visitors", Js.VBigInt 2) ]
              [ ("pageviews", Js.VString "n/a");
                ("visitors", Js.VBigInt 1) ] [] [])
    as [comparison [Hc [Hkeys [Hget _]]]].
  - simpl. intuition discriminate.
  - exists comparison. split; [exact Hc|]. split; [exact Hkeys|].
    apply (Hget "pageviews"). now left.
Defined.

(** The failing input of C3: the stats query rejects. *)
Lemma GET_stats_rejected_throws_witness :
  GET Sample.SESSION_COLUMNS Sample.EVENT_COLUMNS Sample.FILTER_COLUMNS
    Sample.OPERATORS_contains Sample.OS_NAMES Sample.BROWSERS
    Sample.countryNames Sample.stats_rejected Sample.metrics_empty
    Sample.metrics_empty Sample.StringToNumber (Sample.request "os" None) []
  = (Stop (TypeError "Cannot convert undefined or null to object"),
     [ WebsiteStats "w" [ ("startDate", Date 0); ("endDate", Date 10) ];
       WebsiteStats "w" [ ("startDate", Date (-10)); ("endDate", Date 0) ] ]).
Proof.
  apply (GET_stats_rejected_throws Sample.SESSION_COLUMNS Sample.EVENT_COLUMNS
           Sample.FILTER_COLUMNS Sample.OPERATORS_contains Sample.OS_NAMES
           Sample.BROWSERS Sample.countryNames Sample.stats_rejected
           Sample.metrics_empty Sample.metrics_empty Sample.StringToNumber
           (Sample.request "os" None) []);
    reflexivity.
Defined.

(** C4 as stated fails: with no row for the current period the handler
    does not produce an empty comparison, it stops with a [TypeError]. *)
Lemma GET_fails_without_rows :
  fst (GET Sample.SESSION_COLUMNS Sample.EVENT_COLUMNS Sample.FILTER_COLUMNS
         Sample.OPERATORS_contains Sample.OS_NAMES Sample.BROWSERS
         Sample.countryNames Sample.stats_empty Sample.metrics_empty
         Sample.metrics_empty Sample.StringToNumber
         (Sample.request "os" None) [])
  = Stop (TypeError "Cannot convert undefined or null to object")
  /\ stats Sample.StringToNumber (Rows []) (Rows [])
     = Stop (TypeError "Cannot convert undefined or null to object").
Proof. split; reflexivity. Qed.

Lemma GET_without_rows_throws_witness :
  GET Sample.SESSION_COLUMNS Sample.EVENT_COLUMNS Sample.FILTER_COLUMNS
    Sample.OPERATORS_contains Sample.OS_NAMES Sample.BROWSERS
    Sample.countryNames Sample.stats_empty Sample.metrics_empty
    Sample.metrics_empty Sample.StringToNumber
    (Sample.request "browser" (Some "fire"))
    [ SessionMetrics "v" "os" [] None None ]
  = (Stop (TypeError "Cannot convert undefined or null to object"),
     [ SessionMetrics "v" "os" [] None None;
       WebsiteStats "w" [ ("startDate", Date 0); ("endDate", Date 10) ];
       WebsiteStats "w" [ ("startDate", Date (-10)); ("endDate", Date 0) ] ]).
Proof.
  apply (GET_without_rows_throws Sample.SESSION_COLUMNS Sample.EVENT_COLUMNS
           Sample.FILTER_COLUMNS Sample.OPERATORS_contains Sample.OS_NAMES
           Sample.BROWSERS Sample.countryNames Sample.stats_empty
           Sample.metrics_empty Sample.metrics_empty Sample.StringToNumber
           (Sample.request "browser" (Some "fire"))
           [ SessionMetrics "v" "os" [] None None ]);
    reflexivity.
Defined.

(** C5 as stated fails: under [device], which has no table, a point goes
    in and none comes out. *)
Lemma formattedData_drops_other_dimensions :
  formattedData Sample.OS_NAMES Sample.BROWSERS Sample.countryNames
    (Rows [ Sample.point "mobile" 7 ]) "device"
  = Ok [].
Proof. reflexivity. Qed.

(** C6 as stated fails: the name of a point whose [x] is ["constructor"]
    is the built-in that every table inherits, not the raw [x]; and a
    table entry that is the empty string is passed over for the raw
    [x]. *)
Lemma formattedData_name_not_from_table :
  formattedData Sample.OS_NAMES Sample.BROWSERS Sample.countryNames
    (Rows [ Sample.point "constructor" 1 ]) "os"
  = Ok [ {| FormattedItem.name := Js.BuiltinObject "constructor";
            FormattedItem.icon :=
              Some "//umami.guole.fun/images/os/constructor.png";
            FormattedItem.x := "constructor";
            FormattedItem.y := Js.of_Z 1 |} ]
  /\ formattedData Sample.OS_NAMES Sample.BROWSERS [ ("XX", "") ]
       (Rows [ Sample.point "XX" 4 ]) "country"
     = Ok [ {| FormattedItem.name := Js.Text "XX";
               FormattedItem.icon :=
                 Some "//umami.guole.fun/images/country/xx.png";
               FormattedItem.x := "XX";
               FormattedItem.y := Js.of_Z 4 |} ].
Proof. split; reflexivity. Qed.

(** A point whose [x] is inherited, next to one of the examples of the
    specification: the second point gets its name from the table. *)
Lemma formattedData_name_and_icon_witness :
  exists out,
    formattedData Sample.OS_NAMES Sample.BROWSERS Sample.countryNames
      (Rows [ Sample.point "constructor" 1; Sample.point "Mac OS" 10 ]) "os"
    = Ok out
    /\ Forall2
         (fun item formatted =>
            FormattedItem.x formatted = ItemType.x item
            /\ FormattedItem.y formatted = ItemType.y item
            /\ (Obj.inherited (ItemType.x item) = false ->
                FormattedItem.name formatted
                = Js.Text (Spec.display_name Sample.OS_NAMES
                             (ItemType.x item)))
            /\ (Str.is_ascii (ItemType.x item) = true ->
                FormattedItem.icon formatted
                = Some (Spec.icon_path "os" (ItemType.x item))))
         [ Sample.point "constructor" 1; Sample.point "Mac OS" 10 ] out.
Proof.
  destruct (@formattedData_name_and_icon Sample.OS_NAMES Sample.BROWSERS
              Sample.countryNames
              [ Sample.point "constructor" 1; Sample.point "Mac OS" 10 ] "os")
    as [source [out [Hs [Hout Hall]]]].
  - reflexivity.
  - inversion Hs; subst source. exists out. split; [exact Hout | exact Hall].
Defined.

Lemma getMetricsData_unknown_dimension_witness :
  getMetricsData Sample.SESSION_COLUMNS Sample.EVENT_COLUMNS
    Sample.metrics_empty Sample.metrics_empty "w" [] (Some 10%Z) None
    "weather" [ WebsiteStats "w" [] ]
  = (Ok (Rows []), [ WebsiteStats "w" [] ]).
Proof.
  apply (getMetricsData_unknown_dimension Sample.SESSION_COLUMNS
           Sample.EVENT_COLUMNS Sample.metrics_empty Sample.metrics_empty
           "w" [] (Some 10%Z) None "weather" [ WebsiteStats "w" [] ]);
    simpl; intuition discriminate.
Defined.

(** C9 as stated fails: for the requested dimension ["toString"] the
    column of the search filter is a built-in of [Object.prototype], not
    the dimension name; for ["__proto__"] no entry is added at all; and
    an empty search term adds nothing. *)
Lemma search_filter_on_inherited_names :
  Obj.get_own "toString"
    (add_search Sample.FILTER_COLUMNS Sample.OPERATORS_contains "toString"
       (Some "a") (with_dates [] 0 10))
  = Some (Search {| Filter.name := "toString";
                    Filter.column := Js.BuiltinObject "toString";
                    Filter.operator := "c";
                    Filter.value := "a" |})
  /\ add_search Sample.FILTER_COLUMNS Sample.OPERATORS_contains "__proto__"
       (Some "a") (with_dates [] 0 10)
     = with_dates [] 0 10
  /\ add_search Sample.FILTER_COLUMNS Sample.OPERATORS_contains "os"
       (Some "") (with_dates [] 0 10)
     = with_dates [] 0 10.
Proof. repeat split. Qed.

Lemma search_filter_on_requested_dimension_witness :
  Obj.get_own "os"
    (add_search [ ("url", "url_path") ] Sample.OPERATORS_contains "os"
       (Some "win") (with_dates [ ("url", "/") ] 0 10))
  = Some (Search {| Filter.name := "os";
                    Filter.column := Js.Text "os";
                    Filter.operator := "c";
                    Filter.value := "win" |})
  /\ Obj.keys
       (add_search [ ("url", "url_path") ] Sample.OPERATORS_contains "os"
          (Some "win") (with_dates [ ("url", "/") ] 0 10))
     = [ "url"; "startDate"; "endDate"; "os" ].
Proof.
  destruct (@search_filter_on_requested_dimension Sample.SESSION_COLUMNS
              Sample.EVENT_COLUMNS [ ("url", "url_path") ]
              Sample.OPERATORS_contains Sample.OS_NAMES Sample.BROWSERS
              Sample.countryNames Sample.stats_empty Sample.metrics_empty
              Sample.metrics_empty Sample.StringToNumber
              "os" "win" [ ("url", "/") ] 0 10)
    as [_ [Hget _]].
  - reflexivity.
  - discriminate.
  - split; [exact Hget | reflexivity].
Defined.

(** The second of two points carries the icon of its own [x]. *)
Lemma formattedData_icon_witness :
  Some "//umami.guole.fun/images/os/windows.png"
  = Some (Spec.icon_path "os" "Windows")
  /\ Some "//umami.guole.fun/images/os/windows.png" <> Some "".
Proof.
  destruct (@formattedData_icon Sample.OS_NAMES Sample.BROWSERS
              Sample.countryNames
              [ Sample.point "Mac OS" 10; Sample.point "Windows" 50 ] "os"
              [ {| FormattedItem.name := Js.Text "macOS";
                   FormattedItem.icon :=
                     Some "//umami.guole.fun/images/os/mac-os.png";
                   FormattedItem.x := "Mac OS";
                   FormattedItem.y := Js.of_Z 10 |};
                {| FormattedItem.name := Js.Text "Windows";
                   FormattedItem.icon :=
                     Some "//umami.guole.fun/images/os/windows.png";
                   FormattedItem.x := "Windows";
                   FormattedItem.y := Js.of_Z 50 |} ]
              {| FormattedItem.name := Js.Text "Windows";
                 FormattedItem.icon :=
                   Some "//umami.guole.fun/images/os/windows.png";
                 FormattedItem.x := "Windows";
                 FormattedItem.y := Js.of_Z 50 |})
    as [_ [_ [_ [Hne [_ Hicon]]]]].
  - reflexivity.
  - right. now left.
  - split; [exact (Hicon eq_refl) | exact Hne].
Defined.

(* ================================================================== *)
(** * Further properties *)

(** ** Language normalization, whatever the keys *)

Module BucketFacts.
Import Obj ObjFacts Spec SpecFacts StrFacts.

Lemma before_dash_has_no_dash (s : string) :
  Str.has_dash (Str.before_dash s) = false.
Proof.
  induction s as [|c s IH]; simpl; [reflexivity|].
  destruct (Ascii.eqb c Str.dash) eqn:E; simpl; [reflexivity|].
  now rewrite E, IH.
Qed.

Lemma bucket_has_no_dash (x : string) : Str.has_dash (bucket x) = false.
Proof. apply before_dash_has_no_dash. Qed.

Lemma bucket_is_lower_case (x : string) :
  Str.toLowerCase (bucket x) = bucket x.
Proof.
  unfold bucket. now rewrite toLowerCase_before_dash, toLowerCase_idem.
Qed.

(** The loop reads a point through its bucket key and its count only. *)
Lemma combine_same_bucket (p : bool) (c : Obj.t ItemType.t)
    (a b : ItemType.t) :
  bucket (ItemType.x a) = bucket (ItemType.x b) ->
  ItemType.y a = ItemType.y b ->
  combine p c a = combine p c b.
Proof. unfold combine. now intros -> ->. Qed.

Lemma combine_all_same_buckets (d1 d2 : list ItemType.t) :
  Forall2 (fun a b => bucket (ItemType.x a) = bucket (ItemType.x b)
                      /\ ItemType.y a = ItemType.y b) d1 d2 ->
  forall p c, combine_all p c d1 = combine_all p c d2.
Proof.
  induction 1 as [|a b d1 d2 [Hx Hy] _ IH]; intros p c; simpl; [reflexivity|].
  rewrite (combine_same_bucket p c a b Hx Hy).
  destruct (combine p c b) as [[c' p']|why]; simpl; [apply IH | reflexivity].
Qed.

Lemma In_get_own {V : Type} (k : string) (v : V) (o : Obj.t V) :
  NoDup (keys o) -> In (k, v) o -> get_own k o = Some v.
Proof.
  induction o as [|[k1 v1] o IH]; simpl; intros Hnd Hin; [contradiction|].
  inversion Hnd as [|? ? Hk1 Hnd']; subst.
  destruct Hin as [Heq|Hin].
  - inversion Heq; subst. now rewrite String.eqb_refl.
  - destruct (String.eqb_spec k k1) as [->|_].
    + exfalso. apply Hk1. apply (in_map fst _ _ Hin).
    + now apply IH.
Qed.

End BucketFacts.

(** X1.  For points whose [x] is ASCII text, whatever the bucket keys,
    array indices included, as long as none is a name that plain
    objects inherit from [Object.prototype] (one of its own names, or
    ["y"] in a process where [Object.prototype] has been given a [y]):
    normalization returns a sequence that holds each bucket of the
    input once and nothing else, and the count of each returned point
    is the count of the first point of its bucket with the counts of
    the later ones added to it in the order of the input. *)
Theorem normalize_bucket_totals (prototype_y : bool)
    (data : list ItemType.t) :
  (forall item, In item data -> Str.is_ascii (ItemType.x item) = true) ->
  (forall item, In item data ->
     Obj.inherited (bucket (ItemType.x item)) = false) ->
  (prototype_y = true ->
   forall item, In item data -> bucket (ItemType.x item) <> "y") ->
  exists out,
    normalize_in prototype_y data = Ok (out, prototype_y)
    /\ NoDup (map ItemType.x out)
    /\ (forall k, In k (map ItemType.x out) <-> In k (Spec.buckets data))
    /\ (forall p, In p out ->
          ItemType.y p = Spec.total (ItemType.x p) data).
Proof.
  intros _ Hinh Hy.
  destruct (@combine_all_totals prototype_y data Hinh
              (@NormalizeFacts.not_inherited_y prototype_y data Hy))
    as [c [Hc Hget]].
  assert (Hb : bucketed c)
    by (eapply NormalizeFacts.combine_all_bucketed;
        [apply NormalizeFacts.bucketed_nil | exact Hc]).
  destruct Hb as [[Hnd _] Hall].
  assert (Hx : map ItemType.x (Obj.values c) = Obj.keys c).
  { unfold Obj.values, Obj.keys. rewrite map_map.
    apply map_ext_in. intros e He.
    rewrite Forall_forall in Hall. apply (Hall _ He). }
  exists (Obj.values c). unfold normalize_in. rewrite Hc. simpl.
  split; [reflexivity|]. rewrite Hx. split; [exact Hnd|]. split.
  - intros k. rewrite <- ObjFacts.has_own_In. unfold Obj.has_own.
    rewrite Hget, <- SpecFacts.includes_In.
    now destruct (Js.includes k (Spec.buckets data)).
  - intros p Hp. unfold Obj.values in Hp. apply in_map_iff in Hp.
    destruct Hp as [[k e] [Hpe Hin]]. simpl in Hpe. subst e.
    apply (@BucketFacts.In_get_own _ _ _ _ Hnd) in Hin.
    rewrite Hget in Hin.
    destruct (Js.includes k (Spec.buckets data)); [|discriminate].
    inversion Hin. reflexivity.
Qed.

(** A run where [Object.prototype] has a [y]. *)
Lemma normalize_bucket_totals_witness :
  exists out,
    normalize_in true [ Sample.point "10" 1; Sample.point "fr-CA" 2;
                        Sample.point "9" 3; Sample.point "FR" 4 ]
    = Ok (out, true)
    /\ forall p, In p out ->
         ItemType.y p
         = Spec.total (ItemType.x p)
             [ Sample.point "10" 1; Sample.point "fr-CA" 2;
               Sample.point "9" 3; Sample.point "FR" 4 ].
Proof.
  destruct (@normalize_bucket_totals true
              [ Sample.point "10" 1; Sample.point "fr-CA" 2;
                Sample.point "9" 3; Sample.point "FR" 4 ])
    as [out [Hout [_ [_ Hy]]]].
  - intros item [<-|[<-|[<-|[<-|[]]]]]; reflexivity.
  - intros item [<-|[<-|[<-|[<-|[]]]]]; reflexivity.
  - intros _ item [<-|[<-|[<-|[<-|[]]]]]; discriminate.
  - exists out. split; [exact Hout | exact Hy].
Defined.

(** X2.  Normalization never lengthens the sequence: run where
    [Object.prototype] has no [y], as long as no bucket key is
    ["__proto__"], the loop runs to its end, leaves [Object.prototype]
    without a [y], and returns at most as many points as it was
    given. *)
Theorem normalize_never_lengthens (data : list ItemType.t) :
  (forall item, In item data -> bucket (ItemType.x item) <> "__proto__") ->
  exists out,
    normalize_in false data = Ok (out, false)
    /\ normalize data = Ok out
    /\ List.length out <= List.length data.
Proof.
  intros Hp.
  destruct (NormalizeFacts.combine_all_returns data [] Hp) as [c Hc].
  exists (Obj.values c). unfold normalize, normalize_in. rewrite Hc. simpl.
  split; [reflexivity|]. split; [reflexivity|].
  unfold Obj.values. rewrite length_map.
  exact (NormalizeFacts.combine_all_length _ _ _ Hc).
Qed.

Lemma normalize_never_lengthens_witness :
  exists out,
    normalize_in false
      [ Sample.point "en-US" 3; Sample.point "7" 2;
        Sample.point "constructor" 5; Sample.point "EN" 1 ] = Ok (out, false)
    /\ normalize [ Sample.point "en-US" 3; Sample.point "7" 2;
                   Sample.point "constructor" 5; Sample.point "EN" 1 ] = Ok out
    /\ List.length out <= 4.
Proof.
  apply (normalize_never_lengthens
           [ Sample.point "en-US" 3; Sample.point "7" 2;
             Sample.point "constructor" 5; Sample.point "EN" 1 ]).
  intros item [<-|[<-|[<-|[<-|[]]]]]; discriminate.
Defined.

(** X3.  Every [x] that normalization returns is a bucket key in
    normal form: it holds no dash, it is lower-case, normalizing it
    again leaves it as it is, and it is no name of [Object.prototype]. *)
Theorem normalize_keys_are_buckets (data out : list ItemType.t)
    (p : ItemType.t) :
  normalize data = Ok out ->
  In p out ->
  bucket (ItemType.x p) = ItemType.x p
  /\ Str.has_dash (ItemType.x p) = false
  /\ Str.toLowerCase (ItemType.x p) = ItemType.x p
  /\ Obj.inherited (ItemType.x p) = false.
Proof.
  unfold normalize, normalize_in.
  destruct (combine_all false [] data) as [[c p0]|why] eqn:E; simpl;
    [|discriminate].
  intros H Hp. inversion H; subst out; clear H.
  assert (Hb : bucketed c)
    by (eapply NormalizeFacts.combine_all_bucketed;
        [apply NormalizeFacts.bucketed_nil | exact E]).
  destruct Hb as [_ Hall].
  unfold Obj.values in Hp. apply in_map_iff in Hp.
  destruct Hp as [[k e] [Hpe Hin]]. simpl in Hpe. subst e.
  rewrite Forall_forall in Hall. destruct (Hall _ Hin) as [Hx [Hb Hi]].
  simpl in Hx, Hb, Hi. rewrite Hx.
  repeat split; try assumption.
  - rewrite <- Hb. apply BucketFacts.bucket_has_no_dash.
  - rewrite <- Hb. apply BucketFacts.bucket_is_lower_case.
Qed.

Lemma normalize_keys_are_buckets_witness :
  bucket "zh" = "zh" /\ Str.has_dash "zh" = false
  /\ Str.toLowerCase "zh" = "zh" /\ Obj.inherited "zh" = false.
Proof.
  apply (@normalize_keys_are_buckets
           [ Sample.point "ZH-Hant-TW" 2; Sample.point "zh-CN" 5 ]
           [ Sample.point "zh" 7 ] (Sample.point "zh" 7)).
  - reflexivity.
  - now left.
Defined.

(** X4.  Normalization reads a point through its bucket key and its
    count only: two sequences whose points have, position by position,
    the same bucket key and the same count normalize alike, so the case
    of a language tag and what follows its first dash do not matter. *)
Theorem normalize_same_buckets (d1 d2 : list ItemType.t) :
  Forall2 (fun a b => bucket (ItemType.x a) = bucket (ItemType.x b)
                      /\ ItemType.y a = ItemType.y b) d1 d2 ->
  normalize d1 = normalize d2.
Proof.
  intros H. unfold normalize, normalize_in.
  now rewrite (BucketFacts.combine_all_same_buckets H false []).
Qed.

Lemma normalize_same_buckets_witness :
  normalize [ Sample.point "EN-us" 3; Sample.point "pt-BR" 1 ]
  = normalize [ Sample.point "en" 3; Sample.point "PT" 1 ].
Proof.
  apply normalize_same_buckets.
  repeat constructor.
Defined.

Lemma normalize_own_property_order_witness :
  NoDup [ "7"; "12"; "fr"; "de" ]
  /\ StronglySorted Obj.precedes [ "7"; "12"; "fr"; "de" ].
Proof.
  apply (@normalize_own_property_order
           [ Sample.point "fr" 1; Sample.point "12" 1; Sample.point "de" 1;
             Sample.point "7" 1; Sample.point "FR-be" 1 ]
           [ Sample.point "7" 1; Sample.point "12" 1; Sample.point "fr" 2;
             Sample.point "de" 1 ]).
  reflexivity.
Defined.

Lemma stats_keys_in_order_witness :
  exists comparison,
    stats Sample.StringToNumber
      (Rows [ [ ("pageviews", Js.VBigInt 150); ("visitors", Js.VBigInt 2);
                ("bounces", Js.VNull) ] ])
      (Rows [ [ ("visitors", Js.VBigInt 1) ] ])
    = Ok comparison
    /\ Obj.keys comparison = [ "pageviews"; "visitors"; "bounces" ].
Proof.
  apply (@stats_keys_in_order Sample.StringToNumber
           [ ("pageviews", Js.VBigInt 150); ("visitors", Js.VBigInt 2);
             ("bounces", Js.VNull) ]
           [ ("visitors", Js.VBigInt 1) ] [] []).
  - split.
    + repeat constructor; simpl; intuition discriminate.
    + repeat constructor.
  - simpl. intuition discriminate.
Defined.

(** ** The filter sets, entry by entry *)

Module FilterFacts.
Import Obj ObjFacts.

Lemma get_own_define {V : Type} (k k' : string) (v : V) (o : Obj.t V) :
  get_own k' (define k v o) = if String.eqb k' k then Some v else get_own k' o.
Proof.
  unfold define. destruct (has_own k o) eqn:E.
  - rewrite get_own_replace, E. now rewrite andb_true_r.
  - now apply get_own_add_new.
Qed.

(** Copying the properties of an object one by one onto another: the
    copied ones win. *)
Lemma get_own_copy {V : Type} (k : string) (o acc : Obj.t V) :
  NoDup (keys o) ->
  get_own k (fold_left (fun a kv => define (fst kv) (snd kv) a) o acc) =
  match get_own k o with
  | Some v => Some v
  | None => get_own k acc
  end.
Proof.
  revert acc. induction o as [|[k1 v1] o IH]; intros acc Hnd; simpl.
  - reflexivity.
  - inversion Hnd as [|? ? Hk1 Hnd']; subst.
    rewrite IH by exact Hnd'. simpl. rewrite get_own_define.
    destruct (String.eqb_spec k k1) as [->|Hne].
    + now rewrite (proj2 (get_own_None k1 o) Hk1).
    + reflexivity.
Qed.

Lemma get_own_map {V W : Type} (g : V -> W) (k : string) (o : Obj.t V) :
  get_own k (map (fun kv => (fst kv, g (snd kv))) o)
  = option_map g (get_own k o).
Proof.
  induction o as [|[k1 v1] o IH]; simpl; [reflexivity|].
  destruct (String.eqb k k1); [reflexivity | exact IH].
Qed.

End FilterFacts.

(** X5.  [{ ...filters, startDate, endDate }]: the two dates are always
    set, also over a filter of the same name, and every other filter of
    the request is passed through under its name with its raw value;
    nothing else is in the set. *)
Theorem with_dates_entries (filters : Obj.t string) (startDate endDate : Z) :
  NoDup (Obj.keys filters) ->
  Obj.get_own "startDate" (with_dates filters startDate endDate)
  = Some (Date startDate)
  /\ Obj.get_own "endDate" (with_dates filters startDate endDate)
     = Some (Date endDate)
  /\ forall k, k <> "startDate" -> k <> "endDate" ->
       Obj.get_own k (with_dates filters startDate endDate)
       = option_map Raw (Obj.get_own k filters).
Proof.
  intros Hnd. unfold with_dates, Obj.spread.
  repeat split.
  - now rewrite !FilterFacts.get_own_define.
  - now rewrite FilterFacts.get_own_define.
  - intros k Hs He. rewrite !FilterFacts.get_own_define.
    destruct (String.eqb_spec k "endDate"); [contradiction|].
    destruct (String.eqb_spec k "startDate"); [contradiction|].
    rewrite FilterFacts.get_own_copy.
    + rewrite FilterFacts.get_own_map. simpl.
      now destruct (Obj.get_own k filters).
    + unfold Obj.keys in *. rewrite map_map. simpl. exact Hnd.
Qed.

Lemma with_dates_entries_witness :
  Obj.get_own "startDate"
    (with_dates [ ("url", "/docs"); ("startDate", "never") ] 5 9)
  = Some (Date 5)
  /\ Obj.get_own "endDate"
       (with_dates [ ("url", "/docs"); ("startDate", "never") ] 5 9)
     = Some (Date 9)
  /\ forall k, k <> "startDate" -> k <> "endDate" ->
       Obj.get_own k
         (with_dates [ ("url", "/docs"); ("startDate", "never") ] 5 9)
       = option_map Raw
           (Obj.get_own k [ ("url", "/docs"); ("startDate", "never") ]).
Proof.
  apply (@with_dates_entries [ ("url", "/docs"); ("startDate", "never") ] 5 9).
  repeat constructor; simpl; intuition discriminate.
Defined.

(** ** More on the handler *)

Section HandlerMore.

Variable SESSION_COLUMNS : list string.
Variable EVENT_COLUMNS : list string.
Variable FILTER_COLUMNS : Obj.t string.
Variable OPERATORS_contains : string.
Variable OS_NAMES : Obj.t string.
Variable BROWSERS : Obj.t string.
Variable countryNames : Obj.t string.
Variable getWebsiteStats : string -> FilterSet -> settled (list StatRow).
Variable getSessionMetrics :
  string -> string -> FilterSet -> option Z -> option Z ->
  settled (list ItemType.t).
Variable getPageviewMetrics :
  string -> string -> FilterSet -> option Z -> option Z ->
  settled (list ItemType.t).
Variable StringToNumber : string -> Js.number.

(** X6.  When the previous period has no first row (no rows, or a
    rejected query), [stats] throws as soon as the current row has a
    key, and gives the empty comparison when it has none: the previous
    row is only read inside the callback of [reduce]. *)
Theorem stats_without_previous_row (current : StatRow) (rest : list StatRow)
    (prevPeriod : fetched StatRow) :
  first prevPeriod = None ->
  stats StringToNumber (Rows (current :: rest)) prevPeriod
  = match Obj.keys current with
    | [] => Ok []
    | _ :: _ => Stop (TypeError "Cannot read properties of undefined")
    end.
Proof using Type.
  intros Hp. unfold stats. cbn [first].
  destruct (Obj.keys current) as [|key keys]; [reflexivity|].
  cbn [reduce]. unfold stats_entry. cbn [first]. now rewrite Hp.
Qed.

(** X7.  No query is issued for a request that failed to parse or whose
    principal may not view the website: the handler answers with the
    parse error, or else with the authorization failure, and leaves the
    log of calls as it was. *)
Theorem GET_no_query_without_access (request : Request.t) (log : list call) :
  Request.error request = true \/ Request.canViewWebsite request = false ->
  GET SESSION_COLUMNS EVENT_COLUMNS FILTER_COLUMNS OPERATORS_contains
    OS_NAMES BROWSERS countryNames getWebsiteStats getSessionMetrics
    getPageviewMetrics StringToNumber request log
  = (Ok (if Request.error request then parseError else unauthorized), log).
Proof using Type.
  intros H. unfold GET.
  destruct (Request.error request); [reflexivity|].
  destruct H as [H|H]; [discriminate|]. now rewrite H.
Qed.

(** X8.  The whole handler on a request that goes through: when the
    request is parsed and authorized, both stats queries find a first
    row and the three breakdown queries (session family) resolve, the
    handler issues exactly five queries, in the order current stats,
    previous stats, os, browser, country, the stats queries with the
    plain filter set and the breakdown queries with the search filter,
    and answers with the payload made of the three breakdowns, each
    formatted with its own table, and of the comparison of the two first
    rows. *)
Theorem GET_payload (request : Request.t) (log : list call)
    (current previous : StatRow) (rest rest' : list StatRow)
    (osData browserData countryData : list ItemType.t) :
  let websiteId := Request.websiteId request in
  let primary :=
    with_dates (Request.filters request) (Request.startDate request)
      (Request.endDate request) in
  let compared :=
    with_dates (Request.filters request) (Request.compareStartDate request)
      (Request.compareEndDate request) in
  let filters_search :=
    add_search FILTER_COLUMNS OPERATORS_contains (Request.type request)
      (Request.search request) primary in
  let limit := Request.limit request in
  let offset := Request.offset request in
  Request.error request = false ->
  Request.canViewWebsite request = true ->
  getWebsiteStats websiteId primary = Resolved (current :: rest) ->
  getWebsiteStats websiteId compared = Resolved (previous :: rest') ->
  In "os" SESSION_COLUMNS ->
  In "browser" SESSION_COLUMNS ->
  In "country" SESSION_COLUMNS ->
  getSessionMetrics websiteId "os" filters_search limit offset
  = Resolved osData ->
  getSessionMetrics websiteId "browser" filters_search limit offset
  = Resolved browserData ->
  getSessionMetrics websiteId "country" filters_search limit offset
  = Resolved countryData ->
  exists comparison,
    stats StringToNumber (Rows (current :: rest)) (Rows (previous :: rest'))
    = Ok comparison
    /\ GET SESSION_COLUMNS EVENT_COLUMNS FILTER_COLUMNS OPERATORS_contains
         OS_NAMES BROWSERS countryNames getWebsiteStats getSessionMetrics
         getPageviewMetrics StringToNumber request log
       = (Ok (json {| Payload.os := map (format_item OS_NAMES "os") osData;
                      Payload.browser :=
                        map (format_item BROWSERS "browser") browserData;
                      Payload.country :=
                        map (format_item countryNames "country") countryData;
                      Payload.stats := comparison |}),
          log ++ [ WebsiteStats websiteId primary;
                   WebsiteStats websiteId compared;
                   SessionMetrics websiteId "os" filters_search limit offset;
                   SessionMetrics websiteId "browser" filters_search limit
                     offset;
                   SessionMetrics websiteId "country" filters_search limit
                     offset ]).
Proof using Type.
  intros websiteId primary compared filters_search limit offset
    Herr Hview Hcur Hprev Hos Hbrowser Hcountry Qos Qbrowser Qcountry.
  apply SpecFacts.includes_In in Hos, Hbrowser, Hcountry.
  rewrite stats_rows. eexists. split; [reflexivity|].
  unfold GET. rewrite Herr, Hview. change (negb true) with false. cbv iota.
  fold websiteId primary compared filters_search limit offset.
  unfold bind at 1. unfold await_catch at 1. rewrite Hcur.
  unfold bind at 1. unfold await_catch at 1. rewrite Hprev.
  unfold bind at 1. unfold lift at 1. simpl caught. rewrite stats_rows.
  unfold bind at 1.
  rewrite (getMetricsData_plain SESSION_COLUMNS EVENT_COLUMNS
             getSessionMetrics getPageviewMetrics) by reflexivity.
  rewrite Hos, Qos.
  unfold bind at 1.
  rewrite (getMetricsData_plain SESSION_COLUMNS EVENT_COLUMNS
             getSessionMetrics getPageviewMetrics) by reflexivity.
  rewrite Hbrowser, Qbrowser.
  unfold bind at 1.
  rewrite (getMetricsData_plain SESSION_COLUMNS EVENT_COLUMNS
             getSessionMetrics getPageviewMetrics) by reflexivity.
  rewrite Hcountry, Qcountry.
  unfold bind, lift, ret. simpl.
  repeat rewrite <- app_assoc. reflexivity.
Qed.

(** X9.  A rejected breakdown query, of either family, does not end in
    a reply: for a parsed and authorized request, when the query that
    the fetch of os, browser or country issues rejects, the handler
    stops with a [TypeError]. *)
Theorem GET_breakdown_rejected_throws (request : Request.t)
    (log : list call) (dimension : string) :
  let websiteId := Request.websiteId request in
  let filters_search :=
    add_search FILTER_COLUMNS OPERATORS_contains (Request.type request)
      (Request.search request)
      (with_dates (Request.filters request) (Request.startDate request)
         (Request.endDate request)) in
  let limit := Request.limit request in
  let offset := Request.offset request in
  Request.error request = false ->
  Request.canViewWebsite request = true ->
  In dimension ["os"; "browser"; "country"] ->
  (In dimension SESSION_COLUMNS
   /\ getSessionMetrics websiteId dimension filters_search limit offset
      = Rejected)
  \/ (~ In dimension SESSION_COLUMNS
      /\ In dimension EVENT_COLUMNS
      /\ getPageviewMetrics websiteId dimension filters_search limit offset
         = Rejected) ->
  exists message log',
    GET SESSION_COLUMNS EVENT_COLUMNS FILTER_COLUMNS OPERATORS_contains
      OS_NAMES BROWSERS countryNames getWebsiteStats getSessionMetrics
      getPageviewMetrics StringToNumber request log
    = (Stop (TypeError message), log').
Proof using Type.
  intros websiteId filters_search limit offset Herr Hview Hdim Hq.
  assert (Hfetch :
    (if Js.includes dimension SESSION_COLUMNS then
       caught (getSessionMetrics websiteId dimension filters_search limit offset)
     else if Js.includes dimension EVENT_COLUMNS then
       caught (getPageviewMetrics websiteId dimension filters_search limit offset)
     else Rows []) = ResponseObject).
  { destruct Hq as [[Hs Hr]|[Hs [He Hr]]].
    - apply SpecFacts.includes_In in Hs. now rewrite Hs, Hr.
    - apply SpecFacts.includes_false in Hs. apply SpecFacts.includes_In in He.
      now rewrite Hs, He, Hr. }
  clear Hq.
  unfold GET. rewrite Herr, Hview. change (negb true) with false. cbv iota.
  fold websiteId filters_search limit offset.
  unfold bind at 1. unfold await_catch at 1.
  unfold bind at 1. unfold await_catch at 1.
  unfold bind at 1. unfold lift at 1.
  destruct (stats StringToNumber _ _) as [st|why] eqn:Est.
  2:{ destruct (stats_stop _ _ _ Est) as [message ->]. eauto. }
  assert (Hplain : forall d l, String.eqb d "language" = false ->
    getMetricsData SESSION_COLUMNS EVENT_COLUMNS getSessionMetrics
      getPageviewMetrics websiteId filters_search limit offset d l
    = (Ok (if Js.includes d SESSION_COLUMNS then
             caught (getSessionMetrics websiteId d filters_search limit offset)
           else if Js.includes d EVENT_COLUMNS then
             caught (getPageviewMetrics websiteId d filters_search limit offset)
           else Rows []),
       snd (getMetricsData SESSION_COLUMNS EVENT_COLUMNS getSessionMetrics
              getPageviewMetrics websiteId filters_search limit offset d l))).
  { intros d l Hd.
    rewrite (getMetricsData_plain SESSION_COLUMNS EVENT_COLUMNS
               getSessionMetrics getPageviewMetrics) by exact Hd.
    destruct (Js.includes d SESSION_COLUMNS); [reflexivity|].
    destruct (Js.includes d EVENT_COLUMNS); reflexivity. }
  unfold bind at 1. rewrite Hplain by reflexivity.
  unfold bind at 1. rewrite Hplain by reflexivity.
  unfold bind at 1. rewrite Hplain by reflexivity.
  unfold bind, lift.
  destruct (formattedData OS_NAMES BROWSERS countryNames _ "os")
    as [o|why] eqn:Fos.
  2:{ rewrite (formattedData_stop _ _ _ _ _ Fos). eauto. }
  destruct (formattedData OS_NAMES BROWSERS countryNames _ "browser")
    as [b|why] eqn:Fbrowser.
  2:{ rewrite (formattedData_stop _ _ _ _ _ Fbrowser). eauto. }
  destruct (formattedData OS_NAMES BROWSERS countryNames _ "country")
    as [c|why] eqn:Fcountry.
  2:{ rewrite (formattedData_stop _ _ _ _ _ Fcountry). eauto. }
  exfalso.
  destruct Hdim as [<-|[<-|[<-|[]]]].
  - rewrite Hfetch in Fos. discriminate Fos.
  - rewrite Hfetch in Fbrowser. discriminate Fbrowser.
  - rewrite Hfetch in Fcountry. discriminate Fcountry.
Qed.

(** X10.  A fetch issues at most one query, with the arguments it was
    given: the session query for a dimension of the session family,
    also when the dimension is in both families, else the pageview
    query for a dimension of the event family, else none; whatever the
    dimension and whatever the query answers. *)
Theorem getMetricsData_issues_one_query (websiteId : string)
    (filters_search : FilterSet) (limit offset : option Z) (type : string)
    (log : list call) :
  snd (getMetricsData SESSION_COLUMNS EVENT_COLUMNS getSessionMetrics
         getPageviewMetrics websiteId filters_search limit offset type log)
  = log ++ (if Js.includes type SESSION_COLUMNS then
              [SessionMetrics websiteId type filters_search limit offset]
            else if Js.includes type EVENT_COLUMNS then
              [PageviewMetrics websiteId type filters_search limit offset]
            else []).
Proof using Type.
  unfold getMetricsData.
  destruct (Js.includes type SESSION_COLUMNS).
  - unfold bind at 1. unfold await_catch.
    destruct (String.eqb type "language"); [|reflexivity].
    destruct (caught _) as [points|]; [|reflexivity].
    unfold bind, lift. now destruct (normalize points).
  - destruct (Js.includes type EVENT_COLUMNS); simpl.
    + reflexivity.
    + now rewrite app_nil_r.
Qed.

(** X11.  The fetch of the language dimension hands the rows of the
    session query to the normalizer, run where [Object.prototype] has
    no [y]: when [language] is in the session family and the query
    resolves to rows whose [x] is ASCII text and whose bucket keys are
    neither array indices nor names of [Object.prototype], the fetch
    issues that one query and returns one point per bucket, in
    first-seen order, with the counts of the bucket added up in the
    order of the rows. *)
Theorem getMetricsData_language_normalizes (websiteId : string)
    (filters_search : FilterSet) (limit offset : option Z)
    (rows : list ItemType.t) (log : list call) :
  In "language" SESSION_COLUMNS ->
  getSessionMetrics websiteId "language" filters_search limit offset
  = Resolved rows ->
  (forall item, In item rows -> Str.is_ascii (ItemType.x item) = true) ->
  (forall item, In item rows ->
     Obj.inherited (bucket (ItemType.x item)) = false) ->
  (forall item, In item rows ->
     Str.array_index (bucket (ItemType.x item)) = None) ->
  getMetricsData SESSION_COLUMNS EVENT_COLUMNS getSessionMetrics
    getPageviewMetrics websiteId filters_search limit offset "language" log
  = (Ok (Rows (Spec.normalized rows)),
     log ++ [SessionMetrics websiteId "language" filters_search limit offset]).
Proof using Type.
  intros Hin Hq _ Hinh Hidx. apply SpecFacts.includes_In in Hin.
  unfold getMetricsData. rewrite Hin.
  unfold bind at 1. unfold await_catch. rewrite Hq. simpl.
  unfold bind, lift, normalize, normalize_in.
  rewrite (@NormalizeFacts.combine_all_named false rows Hinh Hidx)
    by reflexivity.
  simpl. now rewrite KeyedFacts.values_keyed.
Qed.

(** *** The three revisions of the formatter *)

Lemma icon_of_is_some (type itemName : string) :
  Some (First.or_empty (icon_of type itemName)) = icon_of type itemName.
Proof using Type.
  unfold icon_of.
  destruct (String.eqb type "os"); [reflexivity|].
  destruct (String.eqb type "browser"); [reflexivity|].
  destruct (String.eqb type "country"); [reflexivity|].
  destruct (String.eqb type "device"); reflexivity.
Qed.

(** X12.  The first and the current revision of the formatter compute
    the same thing under every dimension: what the first revision sends
    (after its [|| []]) carries, point by point, the display name (in
    [x]), the count and the icon (in [z]) that the current revision puts
    in [name], [y] and [icon]; both send nothing for a dimension without
    a table. *)
Theorem first_revision_same_names_and_icons (data : list ItemType.t)
    (type : string) :
  exists out,
    formattedData OS_NAMES BROWSERS countryNames (Rows data) type = Ok out
    /\ map (fun i => (First.x i, First.y i, Some (First.z i)))
         (First.formatted_or_empty OS_NAMES BROWSERS countryNames data type)
       = map (fun i => (FormattedItem.name i, FormattedItem.y i,
                        FormattedItem.icon i)) out.
Proof using Type.
  unfold formattedData, First.formatted_or_empty, First.formattedData.
  destruct (source_of OS_NAMES BROWSERS countryNames type) as [source|].
  - eexists. split; [reflexivity|].
    rewrite !map_map. apply map_ext. intros i. simpl.
    now rewrite icon_of_is_some.
  - exists []. split; reflexivity.
Qed.

(** X13.  The second revision against the current one: under os and
    browser it sends the display names and counts that the current
    revision puts in [name] and [y]; under every other dimension,
    country included, it sends the raw points as they were fetched,
    where the current revision formats country and sends nothing for
    the rest. *)
Theorem second_revision_names (data : list ItemType.t) (type : string) :
  exists out,
    formattedData OS_NAMES BROWSERS countryNames (Rows data) type = Ok out
    /\ map (fun i => (Earlier.x i, Earlier.y i))
         (Earlier.formatted_or_raw OS_NAMES BROWSERS data type)
       = if String.eqb type "os" || String.eqb type "browser"
         then map (fun i => (FormattedItem.name i, FormattedItem.y i)) out
         else map (fun i => (Js.Text (ItemType.x i), ItemType.y i)) data.
Proof using Type.
  unfold formattedData, source_of, Earlier.formatted_or_raw,
    Earlier.formattedData, Earlier.source_of.
  destruct (String.eqb type "os").
  { eexists. split; [reflexivity|]. simpl. now rewrite !map_map. }
  destruct (String.eqb type "browser").
  { eexists. split; [reflexivity|]. simpl. now rewrite !map_map. }
  destruct (String.eqb type "country");
    eexists; (split; [reflexivity|]); simpl; now rewrite !map_map.
Qed.

(** *** The handler of the first two revisions *)

Variable Item : Type.
Variable format : list ItemType.t -> string -> list Item.

Lemma stops_ret {A} (a : A) :
  Legacy.stops_at_rejection getWebsiteStats getSessionMetrics
    getPageviewMetrics (Legacy.ret a).
Proof using Type.
  intros log. exists []. simpl. now rewrite app_nil_r.
Qed.

Lemma stops_lift {A} (r : result A) :
  Legacy.stops_at_rejection getWebsiteStats getSessionMetrics
    getPageviewMetrics (Legacy.lift r).
Proof using Type.
  intros log. exists []. simpl. rewrite app_nil_r.
  split; [reflexivity|]. now destruct r.
Qed.

Lemma stops_await {A} (c : call) (p : settled (list A)) :
  Legacy.answered getWebsiteStats getSessionMetrics getPageviewMetrics c
  = match p with Resolved _ => true | Rejected => false end ->
  Legacy.stops_at_rejection getWebsiteStats getSessionMetrics
    getPageviewMetrics (Legacy.await c p).
Proof using Type.
  intros Hc log. exists [c]. simpl. split; [reflexivity|].
  destruct p; simpl.
  - now rewrite Hc.
  - exists [], c. now rewrite Hc.
Qed.

Lemma stops_bind {A B} (m : Legacy.M A) (k : A -> Legacy.M B) :
  Legacy.stops_at_rejection getWebsiteStats getSessionMetrics
    getPageviewMetrics m ->
  (forall a,
     Legacy.stops_at_rejection getWebsiteStats getSessionMetrics
       getPageviewMetrics (k a)) ->
  Legacy.stops_at_rejection getWebsiteStats getSessionMetrics
    getPageviewMetrics (Legacy.bind m k).
Proof using Type.
  intros Hm Hk log. unfold Legacy.bind.
  destruct (Hm log) as [new1 [E1 C1]].
  destruct (m log) as [[a|f] log1] eqn:E; simpl in E1, C1; subst log1.
  - destruct (Hk a (log ++ new1)) as [new2 [E2 C2]].
    exists (new1 ++ new2). rewrite E2, app_assoc. split; [reflexivity|].
    destruct (fst (k a (log ++ new1))) as [b|[why|]].
    + rewrite forallb_app, C1, C2. reflexivity.
    + rewrite forallb_app, C1, C2. reflexivity.
    + destruct C2 as [before [c [-> [Hc Hb]]]].
      exists (new1 ++ before), c. rewrite app_assoc.
      repeat split; [exact Hc|]. now rewrite forallb_app, C1, Hb.
  - exists new1. split; [reflexivity | exact C1].
Qed.

Lemma stops_getMetricsData (websiteId : string) (filters_search : FilterSet)
    (limit offset : option Z) (types : string) :
  Legacy.stops_at_rejection getWebsiteStats getSessionMetrics
    getPageviewMetrics
    (Legacy.getMetricsData SESSION_COLUMNS EVENT_COLUMNS getSessionMetrics
       getPageviewMetrics websiteId filters_search limit offset types).
Proof using Type.
  unfold Legacy.getMetricsData.
  destruct (Js.includes types SESSION_COLUMNS).
  - apply stops_bind; [now apply stops_await|].
    intros data. destruct (String.eqb types "language");
      [apply stops_lift | apply stops_ret].
  - destruct (Js.includes types EVENT_COLUMNS); [|apply stops_ret].
    apply stops_bind; [now apply stops_await | intros; apply stops_ret].
Qed.

(** X14.  The handler of the first two revisions stops at the first
    query that rejects: it only adds calls to the log; when it ends on
    a rejection, the rejected call is the last one issued and every call
    before it was answered; when it ends otherwise, every call it issued
    was answered.  So no query is issued after a failed one, for any
    method, request and query layer. *)
Theorem legacy_handler_stops_at_rejection (method : string)
    (request : Request.t) :
  Legacy.stops_at_rejection getWebsiteStats getSessionMetrics
    getPageviewMetrics
    (Legacy.handler SESSION_COLUMNS EVENT_COLUMNS FILTER_COLUMNS
       OPERATORS_contains getWebsiteStats getSessionMetrics
       getPageviewMetrics StringToNumber format method request).
Proof using Type.
  unfold Legacy.handler.
  destruct (String.eqb method "GET"); [|apply stops_ret].
  destruct (negb (Request.canViewWebsite request)); [apply stops_ret|].
  apply stops_bind; [now apply stops_await | intros metrics].
  apply stops_bind; [now apply stops_await | intros prevPeriod].
  apply stops_bind; [apply stops_lift | intros st].
  do 3 (apply stops_bind; [apply stops_getMetricsData | intros ?]).
  apply stops_ret.
Qed.

(** X15.  The handler of the first two revisions issues no query for a
    method other than GET or for a principal that may not view the
    website: it answers with [methodNotAllowed], or else with
    [unauthorized], and leaves the log as it was. *)
Theorem legacy_handler_no_query_without_access (method : string)
    (request : Request.t) (log : list call) :
  method <> "GET" \/ Request.canViewWebsite request = false ->
  Legacy.handler SESSION_COLUMNS EVENT_COLUMNS FILTER_COLUMNS
    OPERATORS_contains getWebsiteStats getSessionMetrics getPageviewMetrics
    StringToNumber format method request log
  = (Legacy.Done (if String.eqb method "GET"
                  then Legacy.Reply.unauthorized
                  else Legacy.Reply.methodNotAllowed),
     log).
Proof using Type.
  intros H. unfold Legacy.handler.
  destruct (String.eqb_spec method "GET") as [Hm|Hm]; [|reflexivity].
  destruct H as [H|H]; [contradiction|]. now rewrite H.
Qed.

Lemma getMetricsData_agree (websiteId : string) (filters_search : FilterSet)
    (limit offset : option Z) (type : string) (log : list call) :
  (forall c,
     Legacy.answered getWebsiteStats getSessionMetrics getPageviewMetrics c
     = true) ->
  String.eqb type "language" = false ->
  exists rows log',
    getMetricsData SESSION_COLUMNS EVENT_COLUMNS getSessionMetrics
      getPageviewMetrics websiteId filters_search limit offset type log
    = (Ok (Rows rows), log')
    /\ Legacy.getMetricsData SESSION_COLUMNS EVENT_COLUMNS getSessionMetrics
         getPageviewMetrics websiteId filters_search limit offset type log
       = (Legacy.Done rows, log').
Proof using Type.
  intros Hall Hl.
  rewrite getMetricsData_plain by exact Hl.
  unfold Legacy.getMetricsData.
  destruct (Js.includes type SESSION_COLUMNS).
  - assert (H := Hall (SessionMetrics websiteId type filters_search limit offset)).
    simpl in H. unfold Legacy.bind, Legacy.await. rewrite Hl.
    destruct (getSessionMetrics websiteId type filters_search limit offset)
      as [rows|]; [|discriminate].
    exists rows. eexists. split; reflexivity.
  - destruct (Js.includes type EVENT_COLUMNS).
    + assert (H := Hall (PageviewMetrics websiteId type filters_search limit
                           offset)).
      simpl in H. unfold Legacy.bind, Legacy.await.
      destruct (getPageviewMetrics websiteId type filters_search limit offset)
        as [rows|]; [|discriminate].
      exists rows. eexists. split; reflexivity.
    + exists []. eexists. split; reflexivity.
Qed.

Lemma agree_on_pairs (later : result (response Payload.t) * list call)
    (earlier : Legacy.outcome (Legacy.Reply.t (Legacy.Body.t Item))
               * list call) :
  (exists r3 r2 l,
     later = (r3, l) /\ earlier = (r2, l) /\ Legacy.agree r3 r2) ->
  snd later = snd earlier /\ Legacy.agree (fst later) (fst earlier).
Proof using Type.
  intros [r3 [r2 [l [-> [-> H]]]]]. split; [reflexivity | exact H].
Qed.

(** X16.  As long as the query layer answers every call, the current
    [GET] and the handler of the first two revisions are the same
    program up to the formatting of the breakdowns: on a parsed request
    they issue the same queries in the same order, with the same filter
    sets, and they end alike, with the same refusal, the same exception
    or replies that carry the same stats.  Moving the search filter
    after the stats queries and adding the [catch] callbacks changed
    nothing there. *)
Theorem legacy_handler_agrees_with_GET (request : Request.t)
    (log : list call) :
  Request.error request = false ->
  (forall c,
     Legacy.answered getWebsiteStats getSessionMetrics getPageviewMetrics c
     = true) ->
  snd (GET SESSION_COLUMNS EVENT_COLUMNS FILTER_COLUMNS OPERATORS_contains
         OS_NAMES BROWSERS countryNames getWebsiteStats getSessionMetrics
         getPageviewMetrics StringToNumber request log)
  = snd (Legacy.handler SESSION_COLUMNS EVENT_COLUMNS FILTER_COLUMNS
           OPERATORS_contains getWebsiteStats getSessionMetrics
           getPageviewMetrics StringToNumber format "GET" request log)
  /\ Legacy.agree
       (fst (GET SESSION_COLUMNS EVENT_COLUMNS FILTER_COLUMNS
               OPERATORS_contains OS_NAMES BROWSERS countryNames
               getWebsiteStats getSessionMetrics getPageviewMetrics
               StringToNumber request log))
       (fst (Legacy.handler SESSION_COLUMNS EVENT_COLUMNS FILTER_COLUMNS
               OPERATORS_contains getWebsiteStats getSessionMetrics
               getPageviewMetrics StringToNumber format "GET" request log)).
Proof using Type.
  intros Herr Hall. apply agree_on_pairs.
  unfold GET, Legacy.handler. rewrite Herr.
  change (String.eqb "GET" "GET") with true. cbv iota.
  destruct (Request.canViewWebsite request).
  2:{ exists (Ok unauthorized), (Legacy.Done Legacy.Reply.unauthorized), log.
      repeat split. }
  change (negb true) with false. cbv iota.
  set (websiteId := Request.websiteId request).
  set (primary := with_dates _ (Request.startDate request) _).
  set (compared := with_dates _ (Request.compareStartDate request) _).
  set (filters_search := add_search _ _ _ _ _).
  assert (Hcur := Hall (WebsiteStats websiteId primary)).
  assert (Hprev := Hall (WebsiteStats websiteId compared)).
  simpl in Hcur, Hprev.
  destruct (getWebsiteStats websiteId primary) as [metrics|] eqn:Ecur;
    [|discriminate].
  destruct (getWebsiteStats websiteId compared) as [prevPeriod|] eqn:Eprev;
    [|discriminate].
  clear Hcur Hprev.
  destruct (stats StringToNumber (Rows metrics) (Rows prevPeriod))
    as [st|why] eqn:Est.
  2:{ exists (Stop why), (Legacy.Failed (Legacy.Threw why)).
      eexists. split; [|split; [|reflexivity]].
      - unfold bind at 1. unfold await_catch at 1.
        unfold bind at 1. unfold await_catch at 1.
        unfold bind at 1. unfold lift at 1. cbn [caught].
        rewrite Est. reflexivity.
      - unfold Legacy.bind at 1. unfold Legacy.await at 1.
        unfold Legacy.bind at 1. unfold Legacy.await at 1.
        unfold Legacy.bind at 1. unfold Legacy.lift at 1.
        rewrite Est. reflexivity. }
  destruct (getMetricsData_agree websiteId filters_search
              (Request.limit request) (Request.offset request) "os"
              ((log ++ [WebsiteStats websiteId primary])
                 ++ [WebsiteStats websiteId compared]) Hall eq_refl)
    as [osData [log1 [E1 L1]]].
  destruct (getMetricsData_agree websiteId filters_search
              (Request.limit request) (Request.offset request) "browser"
              log1 Hall eq_refl)
    as [browserData [log2 [E2 L2]]].
  destruct (getMetricsData_agree websiteId filters_search
              (Request.limit request) (Request.offset request) "country"
              log2 Hall eq_refl)
    as [countryData [log3 [E3 L3]]].
  eexists. eexists. exists log3. split; [|split].
  - unfold bind at 1. unfold await_catch at 1.
    unfold bind at 1. unfold await_catch at 1.
    unfold bind at 1. unfold lift at 1. cbn [caught]. rewrite Est.
    unfold bind at 1. rewrite E1.
    unfold bind at 1. rewrite E2.
    unfold bind at 1. rewrite E3.
    unfold bind, lift, ret. simpl. reflexivity.
  - unfold Legacy.bind at 1. unfold Legacy.await at 1.
    unfold Legacy.bind at 1. unfold Legacy.await at 1.
    unfold Legacy.bind at 1. unfold Legacy.lift at 1. rewrite Est.
    unfold Legacy.bind at 1. rewrite L1.
    unfold Legacy.bind at 1. rewrite L2.
    unfold Legacy.bind at 1. rewrite L3.
    reflexivity.
  - reflexivity.
Qed.

(** *** What the handlers ask for *)

Lemma getMetricsData_appends_within (P : call -> Prop) (websiteId : string)
    (filters_search : FilterSet) (limit offset : option Z) (type : string) :
  P (SessionMetrics websiteId type filters_search limit offset) ->
  P (PageviewMetrics websiteId type filters_search limit offset) ->
  appends P
    (getMetricsData SESSION_COLUMNS EVENT_COLUMNS getSessionMetrics
       getPageviewMetrics websiteId filters_search limit offset type).
Proof using Type.
  intros Hs Hp. unfold getMetricsData.
  destruct (Js.includes type SESSION_COLUMNS).
  - apply appends_bind; [now apply appends_await|].
    intros data. destruct (String.eqb type "language"); [|apply appends_ret].
    destruct data; [|apply appends_lift].
    apply appends_bind; [apply appends_lift | intros; apply appends_ret].
  - destruct (Js.includes type EVENT_COLUMNS); [|apply appends_ret].
    apply appends_bind; [now apply appends_await | intros; apply appends_ret].
Qed.

(** X17.  Whatever the request and however the queries answer, every
    query the handler issues stays within the request: it is about the
    website of the request and no other; a stats query carries the plain
    filter set of the current or of the compared period; a breakdown
    query is for os, browser or country and carries the filter set with
    the search filter, and the limit and offset of the request. *)
Theorem GET_queries_within_request (request : Request.t) :
  appends (within_request FILTER_COLUMNS OPERATORS_contains request)
    (GET SESSION_COLUMNS EVENT_COLUMNS FILTER_COLUMNS OPERATORS_contains
       OS_NAMES BROWSERS countryNames getWebsiteStats getSessionMetrics
       getPageviewMetrics StringToNumber request).
Proof using Type.
  unfold GET.
  destruct (Request.error request); [apply appends_ret|].
  destruct (negb (Request.canViewWebsite request)); [apply appends_ret|].
  apply appends_bind; [apply appends_await; simpl; auto | intros metrics].
  apply appends_bind; [apply appends_await; simpl; auto | intros prev].
  apply appends_bind; [apply appends_lift | intros st].
  do 3 (apply appends_bind;
        [apply getMetricsData_appends_within; simpl; intuition | intros ?]).
  do 3 (apply appends_bind; [apply appends_lift | intros ?]).
  apply appends_ret.
Qed.

(** X18.  The handler of the first two revisions on a request that goes
    through: for the method GET and an authorized principal, when both
    stats queries find a first row and the three breakdown queries
    (session family) resolve, it issues the same five queries in the
    same order as the current one, and replies with the three
    breakdowns, each formatted the way of the revision, and with the
    comparison of the two first rows. *)
Theorem legacy_handler_payload (request : Request.t) (log : list call)
    (current previous : StatRow) (rest rest' : list StatRow)
    (osData browserData countryData : list ItemType.t) :
  let websiteId := Request.websiteId request in
  let primary :=
    with_dates (Request.filters request) (Request.startDate request)
      (Request.endDate request) in
  let compared :=
    with_dates (Request.filters request) (Request.compareStartDate request)
      (Request.compareEndDate request) in
  let filters_search :=
    add_search FILTER_COLUMNS OPERATORS_contains (Request.type request)
      (Request.search request) primary in
  let limit := Request.limit request in
  let offset := Request.offset request in
  Request.canViewWebsite request = true ->
  getWebsiteStats websiteId primary = Resolved (current :: rest) ->
  getWebsiteStats websiteId compared = Resolved (previous :: rest') ->
  In "os" SESSION_COLUMNS ->
  In "browser" SESSION_COLUMNS ->
  In "country" SESSION_COLUMNS ->
  getSessionMetrics websiteId "os" filters_search limit offset
  = Resolved osData ->
  getSessionMetrics websiteId "browser" filters_search limit offset
  = Resolved browserData ->
  getSessionMetrics websiteId "country" filters_search limit offset
  = Resolved countryData ->
  exists comparison,
    stats StringToNumber (Rows (current :: rest)) (Rows (previous :: rest'))
    = Ok comparison
    /\ Legacy.handler SESSION_COLUMNS EVENT_COLUMNS FILTER_COLUMNS
         OPERATORS_contains getWebsiteStats getSessionMetrics
         getPageviewMetrics StringToNumber format "GET" request log
       = (Legacy.Done
            (Legacy.Reply.ok
               {| Legacy.Body.os := format osData "os";
                  Legacy.Body.browser := format browserData "browser";
                  Legacy.Body.country := format countryData "country";
                  Legacy.Body.stats := comparison |}),
          log ++ [ WebsiteStats websiteId primary;
                   WebsiteStats websiteId compared;
                   SessionMetrics websiteId "os" filters_search limit offset;
                   SessionMetrics websiteId "browser" filters_search limit
                     offset;
                   SessionMetrics websiteId "country" filters_search limit
                     offset ]).
Proof using Type.
  intros websiteId primary compared filters_search limit offset
    Hview Hcur Hprev Hos Hbrowser Hcountry Qos Qbrowser Qcountry.
  apply SpecFacts.includes_In in Hos, Hbrowser, Hcountry.
  rewrite stats_rows. eexists. split; [reflexivity|].
  unfold Legacy.handler. rewrite Hview.
  change (String.eqb "GET" "GET") with true.
  change (negb true) with false. cbv iota.
  fold websiteId primary compared filters_search limit offset.
  unfold Legacy.bind at 1. unfold Legacy.await at 1. rewrite Hcur.
  unfold Legacy.bind at 1. unfold Legacy.await at 1. rewrite Hprev.
  unfold Legacy.bind at 1. unfold Legacy.lift at 1. rewrite stats_rows.
  unfold Legacy.getMetricsData. rewrite Hos, Hbrowser, Hcountry.
  unfold Legacy.bind, Legacy.await, Legacy.ret.
  rewrite Qos, Qbrowser, Qcountry. simpl.
  repeat rewrite <- app_assoc. reflexivity.
Qed.

End HandlerMore.

(* ================================================================== *)
(** * More instances *)

Lemma stats_without_previous_row_witness :
  stats Sample.StringToNumber
    (Rows [ [ ("pageviews", Js.VBigInt 3) ] ]) (Rows [])
  = Stop (TypeError "Cannot read properties of undefined")
  /\ stats Sample.StringToNumber (Rows [ [] ]) ResponseObject = Ok [].
Proof.
  split.
  - apply (@stats_without_previous_row Sample.StringToNumber
             [ ("pageviews", Js.VBigInt 3) ] [] (Rows [])).
    reflexivity.
  - apply (@stats_without_previous_row Sample.StringToNumber
             [] [] ResponseObject).
    reflexivity.
Defined.

Lemma GET_never_badRequest_witness :
  exists r,
    fst (GET Sample.SESSION_COLUMNS Sample.EVENT_COLUMNS Sample.FILTER_COLUMNS
           Sample.OPERATORS_contains Sample.OS_NAMES Sample.BROWSERS
           Sample.countryNames Visits.stats_row Visits.session_rows
           Sample.metrics_empty Sample.StringToNumber
           (Sample.request "os" None) [])
    = Ok r
    /\ r <> badRequest
    /\ (r = unauthorized \/ exists payload, r = json payload).
Proof.
  eexists. split; [reflexivity|].
  apply (@GET_never_badRequest Sample.SESSION_COLUMNS Sample.EVENT_COLUMNS
           Sample.FILTER_COLUMNS Sample.OPERATORS_contains Sample.OS_NAMES
           Sample.BROWSERS Sample.countryNames Visits.stats_row
           Visits.session_rows Sample.metrics_empty Sample.StringToNumber
           (Sample.request "os" None) []
           (snd (GET Sample.SESSION_COLUMNS Sample.EVENT_COLUMNS
                   Sample.FILTER_COLUMNS Sample.OPERATORS_contains
                   Sample.OS_NAMES Sample.BROWSERS Sample.countryNames
                   Visits.stats_row Visits.session_rows Sample.metrics_empty
                   Sample.StringToNumber (Sample.request "os" None) []))).
  - reflexivity.
  - reflexivity.
Defined.

Lemma GET_no_query_without_access_witness :
  GET Sample.SESSION_COLUMNS Sample.EVENT_COLUMNS Sample.FILTER_COLUMNS
    Sample.OPERATORS_contains Sample.OS_NAMES Sample.BROWSERS
    Sample.countryNames Visits.stats_row Visits.session_rows
    Sample.metrics_empty Sample.StringToNumber
    {| Request.error := true;
       Request.canViewWebsite := true;
       Request.websiteId := "w";
       Request.type := "os";
       Request.limit := None;
       Request.offset := None;
       Request.search := None;
       Request.startDate := 0;
       Request.endDate := 10;
       Request.compareStartDate := (-10);
       Request.compareEndDate := 0;
       Request.filters := [] |}
    [ WebsiteStats "v" [] ]
  = (Ok parseError, [ WebsiteStats "v" [] ]).
Proof.
  apply (@GET_no_query_without_access Sample.SESSION_COLUMNS
           Sample.EVENT_COLUMNS Sample.FILTER_COLUMNS
           Sample.OPERATORS_contains Sample.OS_NAMES Sample.BROWSERS
           Sample.countryNames Visits.stats_row Visits.session_rows
           Sample.metrics_empty Sample.StringToNumber
           {| Request.error := true;
              Request.canViewWebsite := true;
              Request.websiteId := "w";
              Request.type := "os";
              Request.limit := None;
              Request.offset := None;
              Request.search := None;
              Request.startDate := 0;
              Request.endDate := 10;
              Request.compareStartDate := (-10);
              Request.compareEndDate := 0;
              Request.filters := [] |}
           [ WebsiteStats "v" [] ]).
  left. reflexivity.
Defined.

(** Two visitors, no search, one row of stats for each period. *)
Lemma GET_payload_witness :
  exists comparison,
    stats Sample.StringToNumber
      (Rows [ [ ("pageviews", Js.VNumber (Js.of_Z 150));
                ("visitors", Js.VBigInt 2) ] ])
      (Rows [ [ ("pageviews", Js.VNumber (Js.of_Z 150));
                ("visitors", Js.VBigInt 2) ] ])
    = Ok comparison
    /\ GET Sample.SESSION_COLUMNS Sample.EVENT_COLUMNS Sample.FILTER_COLUMNS
         Sample.OPERATORS_contains Sample.OS_NAMES Sample.BROWSERS
         Sample.countryNames Visits.stats_row Visits.session_rows
         Sample.metrics_empty Sample.StringToNumber
         (Sample.request "os" None) []
       = (Ok (json
                {| Payload.os :=
                     map (format_item Sample.OS_NAMES "os")
                       [ Sample.point "Mac OS" 100; Sample.point "Windows" 50 ];
                   Payload.browser :=
                     map (format_item Sample.BROWSERS "browser")
                       [ Sample.point "chrome" 100;
                         Sample.point "firefox" 50 ];
                   Payload.country :=
                     map (format_item Sample.countryNames "country")
                       [ Sample.point "US" 100; Sample.point "DE" 50 ];
                   Payload.stats := comparison |}),
          [ WebsiteStats "w" [ ("startDate", Date 0); ("endDate", Date 10) ];
            WebsiteStats "w" [ ("startDate", Date (-10)); ("endDate", Date 0) ];
            SessionMetrics "w" "os"
              [ ("startDate", Date 0); ("endDate", Date 10) ] None None;
            SessionMetrics "w" "browser"
              [ ("startDate", Date 0); ("endDate", Date 10) ] None None;
            SessionMetrics "w" "country"
              [ ("startDate", Date 0); ("endDate", Date 10) ] None None ]).
Proof.
  apply (@GET_payload Sample.SESSION_COLUMNS Sample.EVENT_COLUMNS
           Sample.FILTER_COLUMNS Sample.OPERATORS_contains Sample.OS_NAMES
           Sample.BROWSERS Sample.countryNames Visits.stats_row
           Visits.session_rows Sample.metrics_empty Sample.StringToNumber
           (Sample.request "os" None) []
           [ ("pageviews", Js.VNumber (Js.of_Z 150));
             ("visitors", Js.VBigInt 2) ]
           [ ("pageviews", Js.VNumber (Js.of_Z 150));
             ("visitors", Js.VBigInt 2) ]
           [] []
           [ Sample.point "Mac OS" 100; Sample.point "Windows" 50 ]
           [ Sample.point "chrome" 100; Sample.point "firefox" 50 ]
           [ Sample.point "US" 100; Sample.point "DE" 50 ]);
    try reflexivity; simpl; tauto.
Defined.

Lemma GET_breakdown_rejected_throws_witness :
  exists message log',
    GET Sample.SESSION_COLUMNS Sample.EVENT_COLUMNS Sample.FILTER_COLUMNS
      Sample.OPERATORS_contains Sample.OS_NAMES Sample.BROWSERS
      Sample.countryNames Visits.stats_row Visits.rejected
      Sample.metrics_empty Sample.StringToNumber
      (Sample.request "browser" (Some "fire")) []
    = (Stop (TypeError message), log').
Proof.
  apply (@GET_breakdown_rejected_throws Sample.SESSION_COLUMNS
           Sample.EVENT_COLUMNS Sample.FILTER_COLUMNS
           Sample.OPERATORS_contains Sample.OS_NAMES Sample.BROWSERS
           Sample.countryNames Visits.stats_row Visits.rejected
           Sample.metrics_empty Sample.StringToNumber
           (Sample.request "browser" (Some "fire")) [] "country").
  - reflexivity.
  - reflexivity.
  - simpl. tauto.
  - left. split; [simpl; tauto | reflexivity].
Defined.

Lemma getMetricsData_language_normalizes_witness :
  getMetricsData [ "language" ] []
    (fun _ _ _ _ _ =>
       Resolved [ Sample.point "en-US" 3; Sample.point "en-GB" 2;
                  Sample.point "fr-FR" 1 ])
    Sample.metrics_empty "w" [] None None "language" []
  = (Ok (Rows [ Sample.point "en" 5; Sample.point "fr" 1 ]),
     [ SessionMetrics "w" "language" [] None None ]).
Proof.
  apply (@getMetricsData_language_normalizes [ "language" ] []
           (fun _ _ _ _ _ =>
              Resolved [ Sample.point "en-US" 3; Sample.point "en-GB" 2;
                         Sample.point "fr-FR" 1 ])
           Sample.metrics_empty "w" [] None None
           [ Sample.point "en-US" 3; Sample.point "en-GB" 2;
             Sample.point "fr-FR" 1 ] []).
  - now left.
  - reflexivity.
  - intros item [<-|[<-|[<-|[]]]]; reflexivity.
  - intros item [<-|[<-|[<-|[]]]]; reflexivity.
  - intros item [<-|[<-|[<-|[]]]]; reflexivity.
Defined.

Lemma legacy_handler_no_query_without_access_witness :
  Revision.second Sample.SESSION_COLUMNS Sample.EVENT_COLUMNS
    Sample.FILTER_COLUMNS Sample.OPERATORS_contains Sample.OS_NAMES
    Sample.BROWSERS Visits.stats_row Visits.session_rows
    Sample.metrics_empty Sample.StringToNumber "POST"
    (Sample.request "os" None) []
  = (Legacy.Done Legacy.Reply.methodNotAllowed, []).
Proof.
  apply (@legacy_handler_no_query_without_access Sample.SESSION_COLUMNS
           Sample.EVENT_COLUMNS Sample.FILTER_COLUMNS
           Sample.OPERATORS_contains Visits.stats_row Visits.session_rows
           Sample.metrics_empty Sample.StringToNumber Earlier.item
           (Earlier.formatted_or_raw Sample.OS_NAMES Sample.BROWSERS)
           "POST" (Sample.request "os" None) []).
  left. discriminate.
Defined.

Lemma legacy_handler_agrees_with_GET_witness :
  snd (GET Sample.SESSION_COLUMNS Sample.EVENT_COLUMNS Sample.FILTER_COLUMNS
         Sample.OPERATORS_contains Sample.OS_NAMES Sample.BROWSERS
         Sample.countryNames Visits.stats_row Visits.session_rows
         Sample.metrics_empty Sample.StringToNumber
         (Sample.request "os" (Some "mac")) [])
  = snd (Revision.first Sample.SESSION_COLUMNS Sample.EVENT_COLUMNS
           Sample.FILTER_COLUMNS Sample.OPERATORS_contains Sample.OS_NAMES
           Sample.BROWSERS Sample.countryNames Visits.stats_row
           Visits.session_rows Sample.metrics_empty Sample.StringToNumber
           "GET" (Sample.request "os" (Some "mac")) []).
Proof.
  apply (@legacy_handler_agrees_with_GET Sample.SESSION_COLUMNS
           Sample.EVENT_COLUMNS Sample.FILTER_COLUMNS
           Sample.OPERATORS_contains Sample.OS_NAMES Sample.BROWSERS
           Sample.countryNames Visits.stats_row Visits.session_rows
           Sample.metrics_empty Sample.StringToNumber First.item
           (First.formatted_or_empty Sample.OS_NAMES Sample.BROWSERS
              Sample.countryNames)
           (Sample.request "os" (Some "mac")) []).
  - reflexivity.
  - intros [websiteId filters|websiteId type filters limit offset
           |websiteId type filters limit offset]; reflexivity.
Defined.

(** The second revision on the two visitors: the raw country points go
    out as they came in. *)
Lemma legacy_handler_payload_witness :
  exists comparison,
    stats Sample.StringToNumber
      (Rows [ [ ("pageviews", Js.VNumber (Js.of_Z 150));
                ("visitors", Js.VBigInt 2) ] ])
      (Rows [ [ ("pageviews", Js.VNumber (Js.of_Z 150));
                ("visitors", Js.VBigInt 2) ] ])
    = Ok comparison
    /\ Revision.second Sample.SESSION_COLUMNS Sample.EVENT_COLUMNS
         Sample.FILTER_COLUMNS Sample.OPERATORS_contains Sample.OS_NAMES
         Sample.BROWSERS Visits.stats_row Visits.session_rows
         Sample.metrics_empty Sample.StringToNumber "GET"
         (Sample.request "os" None) []
       = (Legacy.Done
            (Legacy.Reply.ok
               {| Legacy.Body.os :=
                    [ {| Earlier.x := Js.Text "macOS"; Earlier.y := Js.of_Z 100 |};
                      {| Earlier.x := Js.Text "Windows"; Earlier.y := Js.of_Z 50 |} ];
                  Legacy.Body.browser :=
                    [ {| Earlier.x := Js.Text "chrome"; Earlier.y := Js.of_Z 100 |};
                      {| Earlier.x := Js.Text "firefox"; Earlier.y := Js.of_Z 50 |} ];
                  Legacy.Body.country :=
                    [ {| Earlier.x := Js.Text "US"; Earlier.y := Js.of_Z 100 |};
                      {| Earlier.x := Js.Text "DE"; Earlier.y := Js.of_Z 50 |} ];
                  Legacy.Body.stats := comparison |}),
          [ WebsiteStats "w" [ ("startDate", Date 0); ("endDate", Date 10) ];
            WebsiteStats "w" [ ("startDate", Date (-10)); ("endDate", Date 0) ];
            SessionMetrics "w" "os"
              [ ("startDate", Date 0); ("endDate", Date 10) ] None None;
            SessionMetrics "w" "browser"
              [ ("startDate", Date 0); ("endDate", Date 10) ] None None;
            SessionMetrics "w" "country"
              [ ("startDate", Date 0); ("endDate", Date 10) ] None None ]).
Proof.
  apply (@legacy_handler_payload Sample.SESSION_COLUMNS Sample.EVENT_COLUMNS
           Sample.FILTER_COLUMNS Sample.OPERATORS_contains Visits.stats_row
           Visits.session_rows Sample.metrics_empty Sample.StringToNumber
           Earlier.item
           (Earlier.formatted_or_raw Sample.OS_NAMES Sample.BROWSERS)
           (Sample.request "os" None) []
           [ ("pageviews", Js.VNumber (Js.of_Z 150));
             ("visitors", Js.VBigInt 2) ]
           [ ("pageviews", Js.VNumber (Js.of_Z 150));
             ("visitors", Js.VBigInt 2) ]
           [] []
           [ Sample.point "Mac OS" 100; Sample.point "Windows" 50 ]
           [ Sample.point "chrome" 100; Sample.point "firefox" 50 ]
           [ Sample.point "US" 100; Sample.point "DE" 50 ]);
    try reflexivity; simpl; tauto.
Defined.
